(** * Test execution and result normalisation: a shallow embedding

    The development follows the classes [UnitTestAgent] and
    [IntegrationAgent] of [agents/blockchainLogger.js] (the parts headed
    unitTestAgent.js and integrationAgent.js).  Each JavaScript function is
    given as a Rocq function of the same name; strings are sequences of
    UTF-16 code units, regular expressions are run by a backtracking matcher
    with the priorities of ECMAScript, exceptions are explicit completions,
    and the mutable result object is threaded through the parsers.

    Numbers are doubles restricted to the values the parsers compute: the
    integers a double can hold, the infinities and NaN, with the rounding of
    [parseInt], [+] and [-]; counts of lines are exact.  Durations
    ([parseFloat], the clock) and timestamps are kept symbolic.  [JSON.parse]
    and the conversion of values to strings belong to the engine and are
    parameters.

    The class [BlockchainLogger] of the same file, [RepoClonerAgent]
    (repoClonerAgent.js) and the two routes of index.js follow: what lies
    outside them (the storage service, the clock, the disk, git) is a
    record of answers, and what they do to it is a list of steps. *)

From Stdlib Require Import List ZArith NArith String Ascii Bool Lia DecimalString.
Import ListNotations.

Set Implicit Arguments.

Open Scope string_scope.
Open Scope list_scope.

(** ** Numbers *)

Module JsNumber.

Local Open Scope Z_scope.

(** The values of type Number that the agents compute: a double whose value
    is an integer, an infinity, or NaN.  Every number below comes from
    [parseInt] on digits, from counting, or from adding and subtracting such
    numbers, so fractions and the negative zero do not occur. *)
Inductive number : Type :=
| Num (z : Z)
| PInf
| NInf
| NaN.

(** The double nearest to an integer: itself up to 2^53, then 53 significant
    bits with ties to the even significand, and an infinity from 2^1024. *)
Definition round (z : Z) : number :=
  let a := Z.abs z in
  if a <=? 2 ^ 53 then Num z
  else
    let e := Z.log2 a - 52 in
    let m := a / 2 ^ e in
    let rest := a mod 2 ^ e in
    let half := 2 ^ (e - 1) in
    let m' :=
      if rest <? half then m
      else if half <? rest then m + 1
      else if Z.even m then m else m + 1 in
    let v := m' * 2 ^ e in
    if 2 ^ 1024 <=? v then (if z <? 0 then NInf else PInf)
    else Num (Z.sgn z * v).

(** [-x] *)
Definition neg (x : number) : number :=
  match x with
  | Num a => Num (- a)
  | PInf => NInf
  | NInf => PInf
  | NaN => NaN
  end.

(** [x + y] *)
Definition add (x y : number) : number :=
  match x, y with
  | Num a, Num b => round (a + b)
  | NaN, _ | _, NaN => NaN
  | PInf, NInf | NInf, PInf => NaN
  | PInf, _ | _, PInf => PInf
  | NInf, _ | _, NInf => NInf
  end.

(** [x - y] *)
Definition sub (x y : number) : number := add x (neg y).

(** [x === y], also [x == y], on numbers *)
Definition eqb (x y : number) : bool :=
  match x, y with
  | Num a, Num b => a =? b
  | PInf, PInf | NInf, NInf => true
  | _, _ => false
  end.

End JsNumber.

Import JsNumber(number(..)).

(** An integer stands for the number of that value. *)
Coercion Num : Z >-> number.

(** ** Strings of code units *)

Module JsString.

Local Open Scope N_scope.

Definition jsstring := list N.

(** An ASCII literal as a JavaScript string. *)
Definition lit (s : string) : jsstring :=
  map N_of_ascii (list_ascii_of_string s).

Definition unit_eqb (a b : N) : bool := N.eqb a b.

Fixpoint eqb (a b : jsstring) : bool :=
  match a, b with
  | [], [] => true
  | x :: a', y :: b' => unit_eqb x y && eqb a' b'
  | _, _ => false
  end.

(** [s.startsWith(p)] *)
Fixpoint startsWith (p s : jsstring) : bool :=
  match p, s with
  | [], _ => true
  | x :: p', y :: s' => unit_eqb x y && startsWith p' s'
  | _ :: _, [] => false
  end.

(** [s.includes(p)] *)
Fixpoint includes (p s : jsstring) : bool :=
  startsWith p s ||
  match s with
  | [] => false
  | _ :: s' => includes p s'
  end.

(** [s.split('\n')]: never empty, the empty string gives one empty line. *)
Fixpoint split_lines (s : jsstring) : list jsstring :=
  match s with
  | [] => [[]]
  | c :: s' =>
      if unit_eqb c 10 then [] :: split_lines s'
      else match split_lines s' with
           | l :: ls => (c :: l) :: ls
           | [] => [[c]]
           end
  end.

(** [s.split(sep)[0]] for a non-empty separator: the text before the first
    occurrence of [sep], the whole string when there is none. *)
Fixpoint before_first (sep s : jsstring) : jsstring :=
  match s with
  | [] => []
  | c :: s' => if startsWith sep s then [] else c :: before_first sep s'
  end.

(** [s.replace(pat, rep)] with a string pattern and a replacement without
    dollar signs: the first occurrence only. *)
Fixpoint replace_first (pat rep s : jsstring) : jsstring :=
  if startsWith pat s then rep ++ skipn (List.length pat) s
  else match s with
       | [] => []
       | c :: s' => c :: replace_first pat rep s'
       end.

(** WhiteSpace and LineTerminator of ECMAScript: what [trim] strips and
    what [\s] matches. *)
Definition is_space (c : N) : bool :=
  ((9 <=? c) && (c <=? 13)) || (c =? 32) || (c =? 160) || (c =? 5760)
  || ((8192 <=? c) && (c <=? 8202)) || (c =? 8232) || (c =? 8233)
  || (c =? 8239) || (c =? 8287) || (c =? 12288) || (c =? 65279).

Fixpoint trim_start (s : jsstring) : jsstring :=
  match s with
  | c :: s' => if is_space c then trim_start s' else s
  | [] => []
  end.

Definition trim (s : jsstring) : jsstring :=
  rev (trim_start (rev (trim_start s))).

Definition is_digit (c : N) : bool := (48 <=? c) && (c <=? 57).

Definition is_upper (c : N) : bool := (65 <=? c) && (c <=? 90).

Definition is_lower (c : N) : bool := (97 <=? c) && (c <=? 122).

(** [\w] *)
Definition is_word (c : N) : bool :=
  is_upper c || is_lower c || is_digit c || (c =? 95).

(** [.] without the [s] flag: anything but a line terminator. *)
Definition is_dot (c : N) : bool :=
  negb ((c =? 10) || (c =? 13) || (c =? 8232) || (c =? 8233)).

(** The integer that a run of decimal digits denotes. *)
Definition digits_value (s : jsstring) : Z :=
  fold_left (fun acc c => 10 * acc + (Z.of_N c - 48))%Z s 0%Z.

(** [parseInt] on a run of decimal digits: the double nearest to the integer
    denoted, as V8 computes it (the standard would let an engine drop the
    digits after the twentieth), and NaN when there is no digit.  The
    parsers apply it to the text of a group [(\d+)], and to [undefined],
    which reads as no text. *)
Definition parseInt (s : jsstring) : number :=
  match s with
  | [] => NaN
  | _ => JsNumber.round (digits_value s)
  end.

End JsString.

Import JsString.

(** ** Regular expressions *)

Module Regex.

(** The fragment the parsers use: [+] is only ever applied to a character
    class, [?] to a group. *)
Inductive re : Type :=
| Eps
| Chr (c : N)
| Cls (p : N -> bool)
| ClsPlus (p : N -> bool)
| Seq (r1 r2 : re)
| Alt (r1 r2 : re)
| Opt (r : re)
| Grp (i : nat) (r : re).

(** A literal run of characters. *)
Definition Str (s : string) : re :=
  fold_right (fun c r => Seq (Chr c) r) Eps (lit s).

Definition captures := list (nat * jsstring).

Fixpoint group (i : nat) (cs : captures) : option jsstring :=
  match cs with
  | [] => None
  | (j, s) :: cs' => if Nat.eqb i j then Some s else group i cs'
  end.

(** Canonicalisation of the [i] flag.  A unit above 127 never folds onto an
    ASCII letter, so for ASCII patterns only ASCII case is folded. *)
Definition fold_case (c : N) : N :=
  if is_lower c then (c - 32)%N else c.

Definition chr_match (ignoreCase : bool) (c x : N) : bool :=
  if ignoreCase then N.eqb (fold_case c) (fold_case x) else N.eqb c x.

(** Greedy [class+]: the longest run first, then shorter ones. *)
Fixpoint plus_greedy {A} (p : N -> bool) (s : jsstring)
    (k : jsstring -> option A) : option A :=
  match s with
  | x :: s' =>
      if p x then
        match plus_greedy p s' k with
        | Some a => Some a
        | None => k s'
        end
      else None
  | [] => None
  end.

(** Backtracking matcher in continuation style: [k] is what remains to be
    matched after [r]. *)
Fixpoint run {A} (ignoreCase : bool) (r : re) (s : jsstring) (cs : captures)
    (k : jsstring -> captures -> option A) : option A :=
  match r with
  | Eps => k s cs
  | Chr c =>
      match s with
      | x :: s' => if chr_match ignoreCase c x then k s' cs else None
      | [] => None
      end
  | Cls p =>
      match s with
      | x :: s' => if p x then k s' cs else None
      | [] => None
      end
  | ClsPlus p => plus_greedy p s (fun s' => k s' cs)
  | Seq r1 r2 =>
      run ignoreCase r1 s cs (fun s' cs' => run ignoreCase r2 s' cs' k)
  | Alt r1 r2 =>
      match run ignoreCase r1 s cs k with
      | Some a => Some a
      | None => run ignoreCase r2 s cs k
      end
  | Opt r1 =>
      match run ignoreCase r1 s cs k with
      | Some a => Some a
      | None => k s cs
      end
  | Grp i r1 =>
      run ignoreCase r1 s cs
        (fun s' cs' => k s' ((i, firstn (List.length s - List.length s') s) :: cs'))
  end.

Record regex : Type := mkRegex {
  anchored : bool;      (* the pattern starts with ^ *)
  ignoreCase : bool;    (* the i flag *)
  body : re
}.

Definition match_here (rx : regex) (s : jsstring) : option captures :=
  run (ignoreCase rx) (Grp 0 (body rx)) s [] (fun _ cs => Some cs).

Fixpoint search (rx : regex) (s : jsstring) : option captures :=
  match match_here rx s with
  | Some cs => Some cs
  | None =>
      match s with
      | [] => None
      | _ :: s' => search rx s'
      end
  end.

(** [s.match(rx)] without the [g] flag: the leftmost match, group 0 being
    the matched text, or [None] for [null]. *)
Definition js_match (rx : regex) (s : jsstring) : option captures :=
  if anchored rx then match_here rx s else search rx s.

Definition plain (r : re) : regex := mkRegex false false r.

Definition d_plus : re := ClsPlus is_digit.
Definition s_plus : re := ClsPlus is_space.
Definition w_plus : re := ClsPlus is_word.

(** Concatenation of the parts of a pattern. *)
Fixpoint cat (rs : list re) : re :=
  match rs with
  | [] => Eps
  | [r] => r
  | r :: rs' => Seq r (cat rs')
  end.

End Regex.

Import Regex.

(** ** Values, errors and the canonical result *)

Module JsValue.

(** What [JSON.parse] can produce, and [undefined]. *)
#[warnings="-register-all"]
Inductive jsval : Type :=
| VUndefined
| VNull
| VBool (b : bool)
| VNum (n : number)
| VStr (s : jsstring)
| VArr (l : list jsval)
| VObj (fields : list (jsstring * jsval)).

Arguments VNum n%_Z.

(** ToBoolean *)
Definition truthy (v : jsval) : bool :=
  match v with
  | VUndefined | VNull => false
  | VBool b => b
  | VNum (Num z) => negb (Z.eqb z 0)
  | VNum NaN => false
  | VNum _ => true
  | VStr s => match s with [] => false | _ => true end
  | VArr _ | VObj _ => true
  end.

(** [a || b] *)
Definition js_or (a b : jsval) : jsval := if truthy a then a else b.

(** [v === 0] *)
Definition is_zero (v : jsval) : bool :=
  match v with
  | VNum (Num z) => Z.eqb z 0
  | _ => false
  end.

Fixpoint lookup (k : jsstring) (fields : list (jsstring * jsval)) : jsval :=
  match fields with
  | [] => VUndefined
  | (k', v) :: fs => if JsString.eqb k k' then v else lookup k fs
  end.

(** [v.k] for the property names the agents read.  None of them is defined
    on the prototype of a primitive or of an array, so only objects answer;
    reading a property of [null] or [undefined] is a TypeError ([None]). *)
Definition get (v : jsval) (k : jsstring) : option jsval :=
  match v with
  | VUndefined | VNull => None
  | VObj fields => Some (lookup k fields)
  | _ => Some VUndefined
  end.

Definition str (s : string) : jsval := VStr (lit s).

End JsValue.

Import JsValue.

(** Errors, by the template that builds their message. *)
Inductive error : Type :=
| SyntaxError                                  (* raised by JSON.parse *)
| TypeError                                    (* raised by the engine *)
| FsError (name : string)                      (* a file-system call failed *)
| SpawnError (err : jsstring)                  (* the 'error' event of the child *)
| ExecError (err : jsstring)                   (* rejection of execAsync *)
| PathMissing (repoPath : jsstring)            (* Repository path does not exist: .. *)
| NoCommand (projectType : jsstring)           (* Could not determine .. test command for project type: .. *)
| TimedOut (timeout : Z) (command : jsstring)  (* Command timed out after ..ms: .. *)
| ExitFailure (code : option Z) (command : jsstring) (* Command failed with exit code ..: .. *)
| FailedToRun (cause : error).                 (* Failed to run .. tests: .. *)

(** How a call ends: with a value, or with a thrown value of type [E]. *)
Inductive completion (E A : Type) : Type :=
| Normal (a : A)
| Throw (e : E).

Arguments Normal {E A} a.
Arguments Throw {E A} e.

(** [summary.duration]: a value, or one of the two computations on floats
    and on the clock, which stay symbolic. *)
Inductive durval : Type :=
| DurVal (v : jsval)
| DurSeconds (text : jsstring)   (* parseFloat(text) * 1000 *)
| DurSince (start : jsval).      (* Date.now() - start *)

Record TestCase : Type := mkTestCase {
  name : jsval;
  suite : jsval;
  status : jsval;
  case_duration : jsval;
  failureMessages : jsval
}.

Record Summary : Type := mkSummary {
  total : jsval;
  passed : jsval;
  failed : jsval;
  skipped : jsval;
  duration : durval
}.

(** The result object; [timestamp] (the clock) is left out, [error] is the
    property the dispatchers add when a parser throws. *)
Record TestRunResult : Type := mkResult {
  success : jsval;
  summary : Summary;
  details : list TestCase;
  rawOutput : jsstring;
  rawError : jsstring;
  error_message : option error
}.

Definition set_success (v : jsval) (r : TestRunResult) : TestRunResult :=
  mkResult v (summary r) (details r) (rawOutput r) (rawError r) (error_message r).

Definition set_summary (s : Summary) (r : TestRunResult) : TestRunResult :=
  mkResult (success r) s (details r) (rawOutput r) (rawError r) (error_message r).

Definition set_total (v : jsval) (r : TestRunResult) : TestRunResult :=
  let s := summary r in
  set_summary (mkSummary v (passed s) (failed s) (skipped s) (duration s)) r.

Definition set_passed (v : jsval) (r : TestRunResult) : TestRunResult :=
  let s := summary r in
  set_summary (mkSummary (total s) v (failed s) (skipped s) (duration s)) r.

Definition set_failed (v : jsval) (r : TestRunResult) : TestRunResult :=
  let s := summary r in
  set_summary (mkSummary (total s) (passed s) v (skipped s) (duration s)) r.

Definition set_skipped (v : jsval) (r : TestRunResult) : TestRunResult :=
  let s := summary r in
  set_summary (mkSummary (total s) (passed s) (failed s) v (duration s)) r.

Definition set_duration (d : durval) (r : TestRunResult) : TestRunResult :=
  let s := summary r in
  set_summary (mkSummary (total s) (passed s) (failed s) (skipped s) d) r.

(** [details.push(c)] *)
Definition push_detail (c : TestCase) (r : TestRunResult) : TestRunResult :=
  mkResult (success r) (summary r) (details r ++ [c]) (rawOutput r) (rawError r)
    (error_message r).

Definition set_error (e : error) (r : TestRunResult) : TestRunResult :=
  mkResult (success r) (summary r) (details r) (rawOutput r) (rawError r) (Some e).

(** [lines.forEach(line => ...)] over a state transformer. *)
Definition forEach {A S : Type} (l : list A) (f : A -> S -> S) (s : S) : S :=
  fold_left (fun acc a => f a acc) l s.

(** [m ? parseInt(m[i]) : 0]; [parseInt(undefined)] is NaN. *)
Definition count_or_zero (m : option captures) (i : nat) : jsval :=
  match m with
  | Some cs =>
      match group i cs with
      | Some s => VNum (parseInt s)
      | None => VNum NaN
      end
  | None => VNum 0
  end.

(** [m[i]] for a group that takes part in every match. *)
Definition nth_group (i : nat) (cs : captures) : jsstring :=
  match group i cs with
  | Some s => s
  | None => []
  end.

(** [status === 'failed' ? [line] : []] *)
Definition failure_of (st : string) (line : jsstring) : jsval :=
  if String.eqb st "failed" then VArr [VStr line] else VArr [].

(** The number in a count that the parser has just stored. *)
Definition num_of (v : jsval) : number :=
  match v with
  | VNum n => n
  | _ => NaN
  end.

Definition nl : jsstring := [10%N].

(** [stdout + '\n' + stderr] *)
Definition combined (stdout stderr : jsstring) : jsstring :=
  stdout ++ nl ++ stderr.

(** ** State and exceptions *)

(** A computation over a state [S] that may throw an [E].  The state reached
    before a throw is kept: the source mutates one result object, and its
    [catch] blocks go on with that same object. *)
Module Eff.

Definition M (S E A : Type) : Type := S -> S * completion E A.

Definition ret {S E A} (a : A) : M S E A := fun s => (s, Normal a).

Definition bind {S E A B} (m : M S E A) (f : A -> M S E B) : M S E B :=
  fun s =>
    match m s with
    | (s', Normal a) => f a s'
    | (s', Throw e) => (s', Throw e)
    end.

Definition throw {S E A} (e : E) : M S E A := fun s => (s, Throw e).

Definition modify {S E} (f : S -> S) : M S E unit :=
  fun s => (f s, Normal tt).

Fixpoint each {S E A} (l : list A) (f : A -> M S E unit) : M S E unit :=
  match l with
  | [] => ret tt
  | a :: l' => bind (f a) (fun _ => each l' f)
  end.

(** [v.k] *)
Definition prop {S} (v : jsval) (k : string) : M S error jsval :=
  match get v (lit k) with
  | Some x => ret x
  | None => throw TypeError
  end.

(** [v.forEach(f)]: only arrays have the method. *)
Definition forEachVal {S} (v : jsval) (f : jsval -> M S error unit)
    : M S error unit :=
  match v with
  | VArr l => each l f
  | _ => throw TypeError
  end.

(** The parsers run on the result object. *)
Definition Parser : Type -> Type := M TestRunResult error.

Declare Scope eff_scope.
Delimit Scope eff_scope with eff.

Notation "x <- m ;; k" := (bind m (fun x => k))
  (at level 61, m at next level, right associativity) : eff_scope.
Notation "m ;;; k" := (bind m (fun _ => k))
  (at level 61, right associativity) : eff_scope.

End Eff.

(** ** The world outside the agents *)

(** What the file system answers about the repository at [repoPath]; file
    names are relative to it ([path.join(repoPath, name)] in the source). *)
Record RepoFs : Type := mkRepoFs {
  repo_exists : bool;                        (* fs.existsSync(repoPath) *)
  existsSync : string -> bool;               (* fs.existsSync(path.join(repoPath, name)) *)
  readFileSync : string -> option jsstring;  (* None: the call throws *)
  readdir : option (list jsstring)           (* fs.promises.readdir(repoPath); None: it rejects *)
}.

(** What is written to the log stream, by template. *)
Inductive log_entry : Type :=
| LogCommand (command : jsstring)    (* Running integration test command: .. *)
| LogOut (str : jsstring)            (* a chunk of stdout *)
| LogErr (str : jsstring)            (* [ERROR] and a chunk of stderr *)
| LogExit (code : option Z)          (* Process exited with code .. *)
| LogProcessError (err : jsstring)   (* Process error: .. *)
| LogRunError (e : error).           (* Error running integration tests: .. *)

(** What an agent does to the world, in order. *)
Inductive effect : Type :=
| Notified (status : string)         (* _notifyCoralProtocol({status, ..}) *)
| Executed (command : jsstring)      (* a child process was started *)
| Killed                             (* proc.kill() *)
| Logged (entry : log_entry)         (* logStream.write(..) *)
| LogEnded.                          (* logStream.end() *)

Definition trace := list effect.

Module World.

Import Eff.

(** Appends one effect to the trace. *)
Definition emit {E} (e : effect) : M trace E unit := modify (fun t => t ++ [e]).

(** [try { m } catch (e) { h e }] *)
Definition catch {S E A} (m : M S E A) (h : E -> M S E A) : M S E A :=
  fun s =>
    match m s with
    | (s', Throw e) => h e s'
    | r => r
    end.

Definition parse_json {S} (JSON_parse : jsstring -> option jsval)
    (text : jsstring) : M S error jsval :=
  match JSON_parse text with
  | Some v => ret v
  | None => throw SyntaxError
  end.

Definition read_file {S} (fs : RepoFs) (name : string) : M S error jsstring :=
  match readFileSync fs name with
  | Some text => ret text
  | None => throw (FsError name)
  end.

(** The key of index [i] of an array or a string. *)
Definition index_key (i : nat) : jsstring :=
  lit (NilEmpty.string_of_uint (Nat.to_uint i)).

Definition indexed {A} (l : list A) : list (jsstring * A) :=
  combine (map index_key (seq 0 (List.length l))) l.

(** The own enumerable properties that [{...v}] copies. *)
Definition spread (v : jsval) : list (jsstring * jsval) :=
  match v with
  | VObj fields => fields
  | VArr l => indexed l
  | VStr s => indexed (map (fun c => VStr [c]) s)
  | _ => []
  end.

(** [{ ...a, ...b }]: where both have a key the later one wins, so it is
    looked up first. *)
Definition merged (a b : jsval) : list (jsstring * jsval) := spread b ++ spread a.

(** [deps.k], as a condition *)
Definition has_dep (deps : list (jsstring * jsval)) (k : string) : bool :=
  truthy (lookup (lit k) deps).

(** [{ ...packageJson.dependencies, ...packageJson.devDependencies }] *)
Definition deps_of {S} (packageJson : jsval) : M S error (list (jsstring * jsval)) :=
  bind (prop packageJson "dependencies") (fun d =>
  bind (prop packageJson "devDependencies") (fun dd =>
  ret (merged d dd))).

(** [files.filter(file => file !== '.git').length === 0] *)
Definition only_git (files : list jsstring) : bool :=
  match filter (fun file => negb (JsString.eqb file (lit ".git"))) files with
  | [] => true
  | _ :: _ => false
  end.

(** A double-quoted part of a command line. *)
Definition quoted (s : string) : jsstring := [34%N] ++ lit s ++ [34%N].

(** [testCommand || ..]: a missing or empty command is falsy. *)
Definition given (testCommand : option jsstring) : option jsstring :=
  match testCommand with
  | Some (c :: cmd) => Some (c :: cmd)
  | _ => None
  end.

End World.

(** ** Parsers shared by the two agents *)

Definition includes_s (p : string) (s : jsstring) : bool := includes (lit p) s.

Definition is_tag (tag : string) (projectType : jsstring) : bool :=
  JsString.eqb projectType (lit tag).

Definition matches (rx : regex) (s : jsstring) : bool :=
  match js_match rx s with
  | Some _ => true
  | None => false
  end.

Definition digit_or_dot (c : N) : bool := is_digit c || N.eqb c 46.
Definition word_or_dot (c : N) : bool := is_word c || N.eqb c 46.
Definition word_or_colon (c : N) : bool := is_word c || N.eqb c 58.
Definition word_slash_dot (c : N) : bool := is_word c || N.eqb c 47 || N.eqb c 46.

(** [/(\d+) word/] *)
Definition count_rx (word : string) : regex :=
  plain (cat [Grp 1 d_plus; Str " "; Str word]).

(** [/collected (\d+) items/] *)
Definition collected_rx : regex :=
  plain (cat [Str "collected "; Grp 1 d_plus; Str " items"]).

(** [/in ([\d\.]+)s/] *)
Definition in_seconds_rx : regex :=
  plain (cat [Str "in "; Grp 1 (ClsPlus digit_or_dot); Str "s"]).

(** [/([\w\.]+)::\w+/] *)
Definition pytest_name_rx : regex :=
  plain (cat [Grp 1 (ClsPlus word_or_dot); Str "::"; w_plus]).

(** [/Tests run: (\d+), Failures: (\d+), Errors: (\d+), Skipped: (\d+)/] *)
Definition surefire_rx : regex :=
  plain (cat [Str "Tests run: "; Grp 1 d_plus; Str ", Failures: "; Grp 2 d_plus;
              Str ", Errors: "; Grp 3 d_plus; Str ", Skipped: "; Grp 4 d_plus]).

(** [/Time elapsed: ([\d\.]+)/] *)
Definition time_elapsed_rx : regex :=
  plain (cat [Str "Time elapsed: "; Grp 1 (ClsPlus digit_or_dot)]).

(** The three-way status of the line scanners:
    [line.includes(a) ? 'passed' : line.includes(b) ? 'failed' : 'skipped']. *)
Definition status_of (okMark failMark : jsstring) (line : jsstring) : string :=
  if includes okMark line then "passed"
  else if includes failMark line then "failed"
  else "skipped".

(** The body of the pytest line loop, the same in both agents. *)
Definition pytest_case (line : jsstring) : TestCase :=
  let status := status_of (lit "PASSED") (lit "FAILED") line in
  let nameMatch := js_match pytest_name_rx line in
  let name :=
    match nameMatch with
    | Some cs => nth_group 0 cs
    | None => trim line
    end in
  mkTestCase (VStr name) (VStr (before_first (lit "::") name)) (str status)
    (VNum 0) (failure_of status line).

Definition pytest_line (line : jsstring) : bool :=
  includes_s "PASSED" line || includes_s "FAILED" line || includes_s "SKIPPED" line.

(** The line loop of the generic parser; the state is [testCount] and the
    result object. *)
Definition generic_step (rx : regex) (line : jsstring)
    (st : Z * TestRunResult) : Z * TestRunResult :=
  let (testCount, standardResult) := st in
  if matches rx line &&
     (includes_s "pass" line || includes_s "fail" line || includes_s "error" line)
  then
    let status := if includes_s "pass" line then "passed" else "failed" in
    ((testCount + 1)%Z,
     push_detail
       (mkTestCase (VStr (trim line)) (str "unknown") (str status) (VNum 0)
          (failure_of status line))
       standardResult)
  else st.

(** [_parseGenericResults], parameterised by the keyword pattern, the only
    place where the two copies differ. *)
Definition parseGenericResults (rx : regex) (stdout stderr : jsstring)
    (standardResult : TestRunResult) : TestRunResult :=
  let output := combined stdout stderr in
  let ok :=
    negb (includes_s "FAIL" output || includes_s "ERROR" output
          || includes_s "FAILURE" output || includes_s "Exception" output
          || (0 <? List.length stderr)%nat) in
  let standardResult := set_success (VBool ok) standardResult in
  let lines := split_lines output in
  let (testCount, standardResult) := forEach lines (generic_step rx) (0%Z, standardResult) in
  let tot := if Z.eqb testCount 0 then 1%Z else testCount in
  let standardResult := set_total (VNum tot) standardResult in
  if ok then set_passed (VNum tot) standardResult
  else set_passed (VNum (tot - 1)) (set_failed (VNum 1) standardResult).

(** ** unitTestAgent.js: the parsers *)

Module UnitTestAgent.

Import Eff World.
Local Open Scope eff_scope.

(** [/test|spec|should|it /i] *)
Definition generic_rx : regex :=
  mkRegex false true
    (Alt (Str "test") (Alt (Str "spec") (Alt (Str "should") (Str "it ")))).

Definition _parseGenericResults : jsstring -> jsstring -> TestRunResult -> TestRunResult :=
  parseGenericResults generic_rx.

Definition _parsePythonResults (stdout stderr : jsstring)
    (standardResult : TestRunResult) : TestRunResult :=
  let output := combined stdout stderr in
  let totalMatch := js_match collected_rx output in
  let passedMatch := js_match (count_rx "passed") output in
  let failedMatch := js_match (count_rx "failed") output in
  let skippedMatch := js_match (count_rx "skipped") output in
  let durationMatch := js_match in_seconds_rx output in
  let standardResult := set_total (count_or_zero totalMatch 1) standardResult in
  let standardResult := set_passed (count_or_zero passedMatch 1) standardResult in
  let standardResult := set_failed (count_or_zero failedMatch 1) standardResult in
  let standardResult := set_skipped (count_or_zero skippedMatch 1) standardResult in
  let standardResult :=
    set_duration
      match durationMatch with
      | Some cs => DurSeconds (nth_group 1 cs)
      | None => DurVal (VNum 0)
      end standardResult in
  let standardResult :=
    set_success (VBool (is_zero (failed (summary standardResult)))) standardResult in
  let testLines := filter pytest_line (split_lines output) in
  forEach testLines (fun line => push_detail (pytest_case line)) standardResult.

Definition _parseJavaResults (stdout stderr : jsstring)
    (standardResult : TestRunResult) : TestRunResult :=
  let output := combined stdout stderr in
  let testsMatch := js_match surefire_rx output in
  let standardResult :=
    match testsMatch with
    | Some cs =>
        let tot := parseInt (nth_group 1 cs) in
        let failures := parseInt (nth_group 2 cs) in
        let errors := parseInt (nth_group 3 cs) in
        let standardResult := set_total (VNum tot) standardResult in
        let standardResult :=
          set_failed (VNum (JsNumber.add failures errors)) standardResult in
        let standardResult :=
          set_passed
            (VNum (JsNumber.sub (JsNumber.sub tot (JsNumber.add failures errors))
                     (parseInt (nth_group 4 cs))))
            standardResult in
        set_skipped (VNum (parseInt (nth_group 4 cs))) standardResult
    | None => standardResult
    end in
  let standardResult :=
    match js_match time_elapsed_rx output with
    | Some cs => set_duration (DurSeconds (nth_group 1 cs)) standardResult
    | None => standardResult
    end in
  set_success (VBool (is_zero (failed (summary standardResult)))) standardResult.

(** [/test result: (\w+). (\d+) passed; (\d+) failed; (\d+) ignored/] *)
Definition rust_summary_rx : regex :=
  plain (cat [Str "test result: "; Grp 1 w_plus; Cls is_dot; Str " ";
              Grp 2 d_plus; Str " passed; "; Grp 3 d_plus; Str " failed; ";
              Grp 4 d_plus; Str " ignored"]).

(** [/finished in ([\d\.]+)s/] *)
Definition rust_time_rx : regex :=
  plain (cat [Str "finished in "; Grp 1 (ClsPlus digit_or_dot); Str "s"]).

(** [/test ([\w:]+)/] *)
Definition rust_name_rx : regex :=
  plain (cat [Str "test "; Grp 1 (ClsPlus word_or_colon)]).

Definition rust_line (line : jsstring) : bool :=
  includes_s "test " line &&
  (includes_s " ... ok" line || includes_s " ... FAILED" line
   || includes_s " ... ignored" line).

Definition rust_case (line : jsstring) : TestCase :=
  let status := status_of (lit " ... ok") (lit " ... FAILED") line in
  let name :=
    match js_match rust_name_rx line with
    | Some cs => nth_group 1 cs
    | None => trim line
    end in
  mkTestCase (VStr name) (VStr (before_first (lit "::") name)) (str status)
    (VNum 0) (failure_of status line).

Definition _parseRustResults (stdout stderr : jsstring)
    (standardResult : TestRunResult) : TestRunResult :=
  let output := combined stdout stderr in
  let standardResult :=
    match js_match rust_summary_rx output with
    | Some cs =>
        let p := parseInt (nth_group 2 cs) in
        let f := parseInt (nth_group 3 cs) in
        let k := parseInt (nth_group 4 cs) in
        let standardResult :=
          set_success (VBool (JsString.eqb (nth_group 1 cs) (lit "ok"))) standardResult in
        let standardResult := set_passed (VNum p) standardResult in
        let standardResult := set_failed (VNum f) standardResult in
        let standardResult := set_skipped (VNum k) standardResult in
        set_total (VNum (JsNumber.add (JsNumber.add p f) k)) standardResult
    | None => standardResult
    end in
  let standardResult :=
    match js_match rust_time_rx output with
    | Some cs => set_duration (DurSeconds (nth_group 1 cs)) standardResult
    | None => standardResult
    end in
  forEach (filter rust_line (split_lines output))
    (fun line => push_detail (rust_case line)) standardResult.

Definition pass_fail_skip : re := Alt (Str "PASS") (Alt (Str "FAIL") (Str "SKIP")).

(** [/--- (PASS|FAIL|SKIP): Test\w+/] *)
Definition go_line_rx : regex :=
  plain (cat [Str "--- "; Grp 1 pass_fail_skip; Str ": Test"; w_plus]).

(** [/--- (PASS|FAIL|SKIP): (\w+)/] *)
Definition go_name_rx : regex :=
  plain (cat [Str "--- "; Grp 1 pass_fail_skip; Str ": "; Grp 2 w_plus]).

(** [/ok\s+[\w\/\.]+\s+([\d\.]+)s/] *)
Definition go_time_rx : regex :=
  plain (cat [Str "ok"; s_plus; ClsPlus word_slash_dot; s_plus;
              Grp 1 (ClsPlus digit_or_dot); Str "s"]).

Definition go_case (line : jsstring) : TestCase :=
  let status := status_of (lit "--- PASS") (lit "--- FAIL") line in
  let name :=
    match js_match go_name_rx line with
    | Some cs => nth_group 2 cs
    | None => trim line
    end in
  mkTestCase (VStr name) (str "go_tests") (str status) (VNum 0)
    (failure_of status line).

Definition count_lines (p : string) (lines : list jsstring) : jsval :=
  VNum (Z.of_nat (List.length (filter (includes_s p) lines))).

Definition _parseGoResults (stdout stderr : jsstring)
    (standardResult : TestRunResult) : TestRunResult :=
  let output := combined stdout stderr in
  let passedMatch := js_match (plain (Str "PASS")) output in
  let failedMatch := js_match (plain (Str "FAIL")) output in
  (* passedMatch && !failedMatch: null when there is no PASS *)
  let standardResult :=
    set_success
      match passedMatch with
      | Some _ => VBool (match failedMatch with Some _ => false | None => true end)
      | None => VNull
      end standardResult in
  let testLines := filter (matches go_line_rx) (split_lines output) in
  let standardResult :=
    set_total (VNum (Z.of_nat (List.length testLines))) standardResult in
  let standardResult := set_passed (count_lines "--- PASS" testLines) standardResult in
  let standardResult := set_failed (count_lines "--- FAIL" testLines) standardResult in
  let standardResult := set_skipped (count_lines "--- SKIP" testLines) standardResult in
  let standardResult :=
    match js_match go_time_rx output with
    | Some cs => set_duration (DurSeconds (nth_group 1 cs)) standardResult
    | None => standardResult
    end in
  forEach testLines (fun line => push_detail (go_case line)) standardResult.

Section Json.

(** [JSON.parse] and [ToString] belong to the engine; [None] stands for
    the SyntaxError of [JSON.parse]. *)
Variable JSON_parse : jsstring -> option jsval.
Variable ToString : jsval -> jsstring.

(** The [try] block of [_parseJestResults]. *)
Definition jest_try (stdout : jsstring) : Parser unit :=
  jestResults <- parse_json JSON_parse stdout ;;
  v <- prop jestResults "success" ;; modify (set_success v) ;;;
  v <- prop jestResults "numTotalTests" ;; modify (set_total v) ;;;
  v <- prop jestResults "numPassedTests" ;; modify (set_passed v) ;;;
  v <- prop jestResults "numFailedTests" ;; modify (set_failed v) ;;;
  v <- prop jestResults "numPendingTests" ;; modify (set_skipped v) ;;;
  startTime <- prop jestResults "startTime" ;;
  modify (set_duration
            (if truthy startTime then DurSince startTime else DurVal (VNum 0))) ;;;
  testResults <- prop jestResults "testResults" ;;
  forEachVal testResults (fun suite =>
    assertionResults <- prop suite "assertionResults" ;;
    forEachVal assertionResults (fun test =>
      title <- prop test "title" ;;
      suiteName <- prop suite "name" ;;
      st <- prop test "status" ;;
      d <- prop test "duration" ;;
      fm <- prop test "failureMessages" ;;
      modify (push_detail
                (mkTestCase title suiteName st (js_or d (VNum 0))
                   (js_or fm (VArr []))))))%eff.

Definition _parseJestResults (stdout : jsstring)
    (standardResult : TestRunResult) : TestRunResult :=
  match jest_try stdout standardResult with
  | (standardResult', Normal _) => standardResult'
  | (standardResult', Throw _) => _parseGenericResults stdout [] standardResult'
  end.

(** [fullTitle.replace(title, '').trim()]: only a string has [replace];
    a pattern that is not a string is converted to one. *)
Definition mocha_suite (fullTitle title : jsval) : Parser jsval :=
  match fullTitle with
  | VStr s =>
      let pat := match title with VStr t => t | _ => ToString title end in
      ret (VStr (trim (replace_first pat [] s)))
  | _ => throw TypeError
  end.

Definition _processMochaTests (tests : jsval) (status : string) : Parser unit :=
  match tests with
  | VArr l =>
      each l (fun test =>
        title <- prop test "title" ;;
        fullTitle <- prop test "fullTitle" ;;
        suiteName <- mocha_suite fullTitle title ;;
        d <- prop test "duration" ;;
        err <- prop test "err" ;;
        fm <- (if truthy err
               then (m <- prop err "message" ;; ret (VArr [m]))
               else ret (VArr [])) ;;
        modify (push_detail
                  (mkTestCase title suiteName (str status) (js_or d (VNum 0)) fm)))
  | _ => ret tt
  end%eff.

(** The [try] block of [_parseMochaResults]. *)
Definition mocha_try (stdout : jsstring) : Parser unit :=
  mochaResults <- parse_json JSON_parse stdout ;;
  stats <- prop mochaResults "stats" ;;
  v <- prop stats "failures" ;; modify (set_success (VBool (is_zero v))) ;;;
  v <- prop stats "tests" ;; modify (set_total v) ;;;
  v <- prop stats "passes" ;; modify (set_passed v) ;;;
  v <- prop stats "failures" ;; modify (set_failed v) ;;;
  v <- prop stats "pending" ;; modify (set_skipped v) ;;;
  v <- prop stats "duration" ;; modify (set_duration (DurVal v)) ;;;
  passes <- prop mochaResults "passes" ;; _processMochaTests passes "passed" ;;;
  failures <- prop mochaResults "failures" ;; _processMochaTests failures "failed" ;;;
  pending <- prop mochaResults "pending" ;; _processMochaTests pending "skipped".

Definition _parseMochaResults (stdout : jsstring)
    (standardResult : TestRunResult) : TestRunResult :=
  match mocha_try stdout standardResult with
  | (standardResult', Normal _) => standardResult'
  | (standardResult', Throw _) => _parseGenericResults stdout [] standardResult'
  end.

(** The object [_parseTestResults] starts from. *)
Definition standardResult0 (stdout stderr : jsstring) : TestRunResult :=
  mkResult (VBool false)
    (mkSummary (VNum 0) (VNum 0) (VNum 0) (VNum 0) (DurVal (VNum 0)))
    [] stdout stderr None.

(** The result of the empty-repository branch. *)
Definition empty_result (standardResult : TestRunResult) : TestRunResult :=
  let standardResult := set_success (VBool true) standardResult in
  let standardResult := set_skipped (VNum 1) standardResult in
  let standardResult := set_total (VNum 1) standardResult in
  push_detail
    (mkTestCase (str "repository-empty-check") (str "system") (str "skipped")
       (VNum 0) (VArr [str "Repository is empty, no tests to run"]))
    standardResult.

(** The [switch] inside the [try] block.  The parsers are called as they
    are; none of the regular-expression parsers has an operation that can
    throw, and the two JSON parsers catch their own exceptions. *)
Definition parse_switch (stdout stderr projectType : jsstring) : Parser unit :=
  if is_tag "jest" projectType then modify (_parseJestResults stdout)
  else if is_tag "mocha" projectType then modify (_parseMochaResults stdout)
  else if is_tag "pytest" projectType || is_tag "python" projectType
  then modify (_parsePythonResults stdout stderr)
  else if is_tag "maven" projectType || is_tag "gradle" projectType
  then modify (_parseJavaResults stdout stderr)
  else if is_tag "rust" projectType then modify (_parseRustResults stdout stderr)
  else if is_tag "go" projectType then modify (_parseGoResults stdout stderr)
  else modify (_parseGenericResults stdout stderr).

Definition _parseTestResults (stdout stderr projectType : jsstring)
    : completion error TestRunResult :=
  let standardResult := standardResult0 stdout stderr in
  if is_tag "empty" projectType then Normal (empty_result standardResult)
  else
    match parse_switch stdout stderr projectType standardResult with
    | (standardResult', Normal _) => Normal standardResult'
    | (standardResult', Throw e) => Normal (set_error e standardResult')
    end.

(** *** Detection, command selection and the orchestrator *)

Record Env : Type := mkEnv {
  fs : RepoFs;
  (* what execAsync(command, ..) settles with *)
  execAsync : jsstring -> completion error (jsstring * jsstring)
}.

(** [params]; [repoId] only travels to the notifications. *)
Record Params : Type := mkParams {
  repoPath : jsstring;
  testCommand : option jsstring
}.

(** The [maxBuffer] option handed to [execAsync], the only bound on
    output the source configures. *)
Definition maxBuffer : Z := 10 * 1024 * 1024.

Definition tag {S E} (t : string) : M S E jsstring := ret (lit t).

Definition _detectProjectType {S} (fs : RepoFs) : M S error jsstring :=
  if existsSync fs "package.json" then
    text <- read_file fs "package.json" ;;
    packageJson <- parse_json JSON_parse text ;;
    deps <- deps_of packageJson ;;
    if has_dep deps "jest" then tag "jest"
    else if has_dep deps "mocha" then tag "mocha"
    else if has_dep deps "karma" then tag "karma"
    else tag "node"
  else if existsSync fs "requirements.txt" || existsSync fs "setup.py" then
    match readdir fs with
    | Some files =>
        if existsb (includes_s "pytest") files then tag "pytest"
        else if existsb (includes_s "unittest") files then tag "unittest"
        else tag "python"
    | None => tag "python"
    end
  else if existsSync fs "pom.xml" then tag "maven"
  else if existsSync fs "build.gradle" then tag "gradle"
  else if existsSync fs "Cargo.toml" then tag "rust"
  else if existsSync fs "go.mod" then tag "go"
  else
    match readdir fs with
    | Some files => if only_git files then tag "empty" else tag "unknown"
    | None => tag "unknown"
    end.

Definition cmd {S E} (c : string) : M S E (option jsstring) := ret (Some (lit c)).

(** The [try] block of the case ['node']. *)
Definition node_script {S} (fs : RepoFs) : M S error (option jsstring) :=
  text <- read_file fs "package.json" ;;
  packageJson <- parse_json JSON_parse text ;;
  scripts <- prop packageJson "scripts" ;;
  if truthy scripts then
    test <- prop scripts "test" ;;
    if truthy test then cmd "npm test" else ret None
  else ret None.

Definition _determineTestCommand (env : Env) (projectType : jsstring)
    : M trace error (option jsstring) :=
  if is_tag "empty" projectType
  then ret (Some (lit "echo " ++ quoted "Repository is empty, no tests to run"))
  else if is_tag "jest" projectType then cmd "npx jest --json"
  else if is_tag "mocha" projectType then cmd "npx mocha --reporter json"
  else if is_tag "karma" projectType
  then cmd "npx karma start --single-run --reporters json"
  else if is_tag "node" projectType
  then catch (node_script (fs env)) (fun _ => ret None)
  else if is_tag "pytest" projectType then cmd "python -m pytest -v"
  else if is_tag "unittest" projectType then cmd "python -m unittest discover"
  else if is_tag "python" projectType then
    emit (Executed (lit "pip list | grep pytest")) ;;;
    match execAsync env (lit "pip list | grep pytest") with
    | Normal _ => cmd "python -m pytest -v"
    | Throw _ => cmd "python -m unittest discover"
    end
  else if is_tag "maven" projectType then cmd "mvn test"
  else if is_tag "gradle" projectType then cmd "./gradlew test"
  else if is_tag "rust" projectType then cmd "cargo test"
  else if is_tag "go" projectType then cmd "go test ./..."
  else ret None.

Definition settle {S E A} (c : completion E A) : M S E A := fun s => (s, c).

(** The [try] block of [runTests]. *)
Definition run_try (env : Env) (params : Params) : M trace error TestRunResult :=
  emit (Notified "started") ;;;
  projectType <- _detectProjectType (fs env) ;;
  command <- match given (testCommand params) with
             | Some c => ret (Some c)
             | None => _determineTestCommand env projectType
             end ;;
  match given command with
  | None => throw (NoCommand projectType)
  | Some command =>
      emit (Executed command) ;;;
      out <- settle (execAsync env command) ;;
      results <- settle (_parseTestResults (fst out) (snd out) projectType) ;;
      emit (Notified "completed") ;;;
      ret results
  end.

Definition runTests (env : Env) (params : Params) : M trace error TestRunResult :=
  match repoPath params with
  | [] => throw (PathMissing [])
  | _ :: _ =>
      if negb (repo_exists (fs env)) then throw (PathMissing (repoPath params))
      else
        catch (run_try env params)
          (fun e => emit (Notified "error") ;;; throw (FailedToRun e))
  end.

End Json.

End UnitTestAgent.

(** ** integrationAgent.js: the parsers *)

Module IntegrationAgent.

Import Eff World.

Definition check_mark : N := 10003.     (* U+2713 *)
Definition ballot_x : N := 10007.       (* U+2717 *)
Definition mult_x : N := 10005.         (* U+2715 *)
Definition heavy_mult_x : N := 10006.   (* U+2716 *)
Definition white_circle : N := 9675.    (* U+25CB *)
Definition hyphen : N := 45.

Definition one_of (l : list N) (c : N) : bool := existsb (N.eqb c) l.

(** [/[abc]\s+(.+)/] for a class of three marks *)
Definition marked_name_rx (marks : list N) : regex :=
  plain (cat [Cls (one_of marks); s_plus; Grp 1 (ClsPlus is_dot)]).

(** The loop body shared by the symbol-decorated formats. *)
Definition marked_case (okMark failMark : N) (marks : list N) (suiteName : string)
    (line : jsstring) : TestCase :=
  let status := status_of [okMark] [failMark] line in
  let name :=
    match js_match (marked_name_rx marks) line with
    | Some cs => trim (nth_group 1 cs)
    | None => trim line
    end in
  mkTestCase (VStr name) (str suiteName) (str status) (VNum 0)
    (failure_of status line).

(** [/(\d+) passing|failing|pending/g] *)
Definition cypress_any_rx : regex :=
  plain (Alt (cat [Grp 1 d_plus; Str " passing"])
             (Alt (Str "failing") (Str "pending"))).

Definition cypress_line (line : jsstring) : bool :=
  includes [check_mark] line || includes [ballot_x] line || includes_s "- " line.

Definition _parseCypressResults (stdout stderr : jsstring)
    (standardResult : TestRunResult) : TestRunResult :=
  let output := combined stdout stderr in
  let standardResult :=
    set_success (VBool (negb (includes_s "(Run Finished)" output))) standardResult in
  let standardResult :=
    if matches cypress_any_rx output then
      let p := count_or_zero (js_match (count_rx "passing") output) 1 in
      let f := count_or_zero (js_match (count_rx "failing") output) 1 in
      let k := count_or_zero (js_match (count_rx "pending") output) 1 in
      let standardResult := set_passed p standardResult in
      let standardResult := set_failed f standardResult in
      let standardResult := set_skipped k standardResult in
      set_total
        (VNum (JsNumber.add (JsNumber.add (num_of p) (num_of f)) (num_of k)))
        standardResult
    else standardResult in
  forEach (filter cypress_line (split_lines output))
    (fun line =>
       push_detail
         (marked_case check_mark ballot_x [check_mark; ballot_x; hyphen] "cypress" line))
    standardResult.

(** [/(\d+) passed(\s+\/(\s+)(\d+) failed)?/] *)
Definition playwright_rx : regex :=
  plain (cat [Grp 1 d_plus; Str " passed";
              Opt (Grp 2 (cat [s_plus; Str "/"; Grp 3 s_plus; Grp 4 d_plus;
                               Str " failed"]))]).

Definition _parsePlaywrightResults (stdout stderr : jsstring)
    (standardResult : TestRunResult) : TestRunResult :=
  let output := combined stdout stderr in
  let standardResult :=
    set_success
      (VBool (includes_s "passed" output && negb (includes_s "failed" output)))
      standardResult in
  let standardResult :=
    match js_match playwright_rx output with
    | Some cs =>
        let p := parseInt (nth_group 1 cs) in
        let f := match group 4 cs with
                 | Some s => parseInt s
                 | None => Num 0
                 end in
        let standardResult := set_passed (VNum p) standardResult in
        let standardResult := set_failed (VNum f) standardResult in
        set_total (VNum (JsNumber.add p f)) standardResult
    | None => standardResult
    end in
  forEach (filter cypress_line (split_lines output))
    (fun line =>
       push_detail
         (marked_case check_mark ballot_x [check_mark; ballot_x; hyphen] "playwright"
            line))
    standardResult.

(** [/Tests:\s+(\d+) passed,\s+(\d+) failed,\s+(\d+) total/] *)
Definition jest_summary_rx : regex :=
  plain (cat [Str "Tests:"; s_plus; Grp 1 d_plus; Str " passed,"; s_plus;
              Grp 2 d_plus; Str " failed,"; s_plus; Grp 3 d_plus; Str " total"]).

Definition jest_line (line : jsstring) : bool :=
  includes [check_mark] line || includes [mult_x] line || includes [white_circle] line.

Definition _parseJestResults (stdout stderr : jsstring)
    (standardResult : TestRunResult) : TestRunResult :=
  let output := combined stdout stderr in
  let standardResult :=
    set_success
      (VBool (includes_s "PASS" output && negb (includes_s "FAIL" output)))
      standardResult in
  let standardResult :=
    match js_match jest_summary_rx output with
    | Some cs =>
        let standardResult := set_passed (VNum (parseInt (nth_group 1 cs))) standardResult in
        let standardResult := set_failed (VNum (parseInt (nth_group 2 cs))) standardResult in
        set_total (VNum (parseInt (nth_group 3 cs))) standardResult
    | None => standardResult
    end in
  let standardResult :=
    match js_match (count_rx "skipped") output with
    | Some cs => set_skipped (VNum (parseInt (nth_group 1 cs))) standardResult
    | None => standardResult
    end in
  forEach (filter jest_line (split_lines output))
    (fun line =>
       push_detail
         (marked_case check_mark mult_x [check_mark; mult_x; white_circle] "jest" line))
    standardResult.

(** [/\s+✓|\s+✖|\s+-/] *)
Definition mocha_line_rx : regex :=
  plain (Alt (Seq s_plus (Chr check_mark))
             (Alt (Seq s_plus (Chr heavy_mult_x)) (Seq s_plus (Chr hyphen)))).

Definition _parseMochaResults (stdout stderr : jsstring)
    (standardResult : TestRunResult) : TestRunResult :=
  let output := combined stdout stderr in
  let standardResult :=
    set_success (VBool (negb (includes_s "failing" output))) standardResult in
  let p := count_or_zero (js_match (count_rx "passing") output) 1 in
  let f := count_or_zero (js_match (count_rx "failing") output) 1 in
  let k := count_or_zero (js_match (count_rx "pending") output) 1 in
  let standardResult := set_passed p standardResult in
  let standardResult := set_failed f standardResult in
  let standardResult := set_skipped k standardResult in
  let standardResult :=
    set_total
        (VNum (JsNumber.add (JsNumber.add (num_of p) (num_of f)) (num_of k)))
        standardResult in
  forEach (filter (matches mocha_line_rx) (split_lines output))
    (fun line =>
       push_detail
         (marked_case check_mark heavy_mult_x [check_mark; heavy_mult_x; hyphen]
            "mocha" line))
    standardResult.

Definition _parsePytestResults (stdout stderr : jsstring)
    (standardResult : TestRunResult) : TestRunResult :=
  let output := combined stdout stderr in
  let totalMatch := js_match collected_rx output in
  let passedMatch := js_match (count_rx "passed") output in
  let failedMatch := js_match (count_rx "failed") output in
  let skippedMatch := js_match (count_rx "skipped") output in
  let durationMatch := js_match in_seconds_rx output in
  let standardResult := set_total (count_or_zero totalMatch 1) standardResult in
  let standardResult := set_passed (count_or_zero passedMatch 1) standardResult in
  let standardResult := set_failed (count_or_zero failedMatch 1) standardResult in
  let standardResult := set_skipped (count_or_zero skippedMatch 1) standardResult in
  let standardResult :=
    match durationMatch with
    | Some cs => set_duration (DurSeconds (nth_group 1 cs)) standardResult
    | None => standardResult
    end in
  let standardResult :=
    set_success (VBool (is_zero (failed (summary standardResult)))) standardResult in
  let testLines := filter pytest_line (split_lines output) in
  forEach testLines (fun line => push_detail (pytest_case line)) standardResult.

(** [/(\d+) what passed, (\d+) failed, (\d+) skipped/] *)
Definition behave_rx (what : string) : regex :=
  plain (cat [Grp 1 d_plus; Str " "; Str what; Str " passed, "; Grp 2 d_plus;
              Str " failed, "; Grp 3 d_plus; Str " skipped"]).

Definition behave_counts (cs : captures) (standardResult : TestRunResult)
    : TestRunResult :=
  let p := parseInt (nth_group 1 cs) in
  let f := parseInt (nth_group 2 cs) in
  let k := parseInt (nth_group 3 cs) in
  let standardResult := set_passed (VNum p) standardResult in
  let standardResult := set_failed (VNum f) standardResult in
  let standardResult := set_skipped (VNum k) standardResult in
  set_total (VNum (JsNumber.add (JsNumber.add p f) k)) standardResult.

Definition behave_feature (line : jsstring) : TestCase :=
  let name := trim (replace_first (lit "Feature:") [] line) in
  mkTestCase (VStr name) (str "features") (str "info") (VNum 0) (VArr []).

Definition behave_scenario (output line : jsstring) : TestCase :=
  let name := trim (replace_first (lit "Scenario:") [] line) in
  let status :=
    if includes (lit "Scenario: " ++ name ++ nl ++ lit "    " ++ [ballot_x]) output
    then "failed" else "passed" in
  mkTestCase (VStr name) (str "scenarios") (str status) (VNum 0)
    (failure_of status line).

Definition _parseBehaveResults (stdout stderr : jsstring)
    (standardResult : TestRunResult) : TestRunResult :=
  let output := combined stdout stderr in
  let scenariosMatch := js_match (behave_rx "scenarios") output in
  let stepsMatch := js_match (behave_rx "steps") output in
  let standardResult :=
    match scenariosMatch with
    | Some cs => behave_counts cs standardResult
    | None =>
        match stepsMatch with
        | Some cs => behave_counts cs standardResult
        | None => standardResult
        end
    end in
  let standardResult :=
    set_success (VBool (is_zero (failed (summary standardResult)))) standardResult in
  let featureLines := filter (startsWith (lit "Feature:")) (split_lines output) in
  let scenarioLines := filter (startsWith (lit "  Scenario:")) (split_lines output) in
  let standardResult :=
    forEach featureLines (fun line => push_detail (behave_feature line)) standardResult in
  forEach scenarioLines (fun line => push_detail (behave_scenario output line))
    standardResult.

(** [/Test ([\w\.]+)/] *)
Definition java_name_rx : regex :=
  plain (cat [Str "Test "; Grp 1 (ClsPlus word_or_dot)]).

Definition java_line (line : jsstring) : bool :=
  includes_s "Test " line &&
  (includes_s " PASSED" line || includes_s " FAILED" line
   || includes_s " SKIPPED" line).

Definition java_case (line : jsstring) : TestCase :=
  let status := status_of (lit " PASSED") (lit " FAILED") line in
  let name :=
    match js_match java_name_rx line with
    | Some cs => nth_group 1 cs
    | None => trim line
    end in
  mkTestCase (VStr name) (VStr (before_first (lit ".") name)) (str status)
    (VNum 0) (failure_of status line).

Definition _parseJavaResults (stdout stderr : jsstring)
    (standardResult : TestRunResult) : TestRunResult :=
  let output := combined stdout stderr in
  let standardResult :=
    match js_match surefire_rx output with
    | Some cs =>
        let tot := parseInt (nth_group 1 cs) in
        let failures := parseInt (nth_group 2 cs) in
        let errors := parseInt (nth_group 3 cs) in
        let k := parseInt (nth_group 4 cs) in
        let standardResult := set_total (VNum tot) standardResult in
        let standardResult :=
          set_failed (VNum (JsNumber.add failures errors)) standardResult in
        let standardResult := set_skipped (VNum k) standardResult in
        set_passed
          (VNum (JsNumber.sub (JsNumber.sub tot (JsNumber.add failures errors)) k))
          standardResult
    | None => standardResult
    end in
  let standardResult :=
    match js_match time_elapsed_rx output with
    | Some cs => set_duration (DurSeconds (nth_group 1 cs)) standardResult
    | None => standardResult
    end in
  let standardResult :=
    set_success (VBool (is_zero (failed (summary standardResult)))) standardResult in
  forEach (filter java_line (split_lines output))
    (fun line => push_detail (java_case line)) standardResult.

(** [/^(\w+)\s+\|/]; the filter uses the same pattern without the group. *)
Definition container_rx : regex :=
  mkRegex true false (cat [Grp 1 w_plus; s_plus; Str "|"]).

(** [containers.add(c)]: a Set keeps the first insertion. *)
Definition set_add (c : jsstring) (containers : list jsstring) : list jsstring :=
  if existsb (JsString.eqb c) containers then containers else containers ++ [c].

Definition docker_test_line (line : jsstring) : bool :=
  (includes_s "PASS" line || includes_s "FAIL" line || includes_s "ERROR" line)
  && negb (includes_s "docker" line) && negb (includes_s "compose" line).

Definition container_case (ok : bool) (container : jsstring) : TestCase :=
  mkTestCase (VStr (lit "Container: " ++ container)) (str "docker-compose")
    (str (if ok then "passed" else "failed")) (VNum 0)
    (if ok then VArr []
     else VArr [VStr (lit "Container " ++ container ++ lit " failed")]).

Definition _parseDockerComposeResults (stdout stderr : jsstring)
    (standardResult : TestRunResult) : TestRunResult :=
  let output := combined stdout stderr in
  let ok :=
    negb (includes_s "exited with code" output)
    || includes_s "exited with code 0" output in
  let standardResult := set_success (VBool ok) standardResult in
  let testLines := filter docker_test_line (split_lines output) in
  let n := Z.of_nat (List.length testLines) in
  let p :=
    Z.of_nat (List.length
      (filter (fun line => includes_s "PASS" line && negb (includes_s "FAIL" line))
         testLines)) in
  let f :=
    Z.of_nat (List.length
      (filter (fun line => includes_s "FAIL" line || includes_s "ERROR" line)
         testLines)) in
  let standardResult :=
    set_total (VNum (if Z.eqb n 0 then 1 else n)) standardResult in
  let standardResult := set_passed (VNum p) standardResult in
  let standardResult := set_failed (VNum f) standardResult in
  let standardResult :=
    if Z.eqb p 0 && Z.eqb f 0 then
      let standardResult := set_total (VNum 1) standardResult in
      let standardResult := set_passed (VNum (if ok then 1 else 0)) standardResult in
      set_failed (VNum (if ok then 0 else 1)) standardResult
    else standardResult in
  let containerLogs := filter (matches container_rx) (split_lines output) in
  let containers :=
    forEach containerLogs
      (fun line acc =>
         match js_match container_rx line with
         | Some cs => set_add (nth_group 1 cs) acc
         | None => acc
         end) [] in
  forEach containers (fun container => push_detail (container_case ok container))
    standardResult.

(** [/test|spec|should|it |scenario/i] *)
Definition generic_rx : regex :=
  mkRegex false true
    (Alt (Str "test")
       (Alt (Str "spec") (Alt (Str "should") (Alt (Str "it ") (Str "scenario"))))).

Definition _parseGenericResults : jsstring -> jsstring -> TestRunResult -> TestRunResult :=
  parseGenericResults generic_rx.

(** The object [_parseIntegrationTestResults] starts from; [duration] is
    the measured run time, [duration || 0] in the source. *)
Definition standardResult0 (stdout stderr : jsstring) (duration : Z) : TestRunResult :=
  mkResult (VBool false)
    (mkSummary (VNum 0) (VNum 0) (VNum 0) (VNum 0)
       (DurVal (js_or (VNum duration) (VNum 0))))
    [] stdout stderr None.

Definition any_tag (tags : list string) (projectType : jsstring) : bool :=
  existsb (fun t => is_tag t projectType) tags.

(** The [switch] inside the [try] block; no parser has an operation that
    can throw. *)
Definition parse_switch (stdout stderr projectType : jsstring) : Parser unit :=
  if is_tag "cypress" projectType then modify (_parseCypressResults stdout stderr)
  else if is_tag "playwright" projectType
  then modify (_parsePlaywrightResults stdout stderr)
  else if any_tag ["jest-dom"; "jest"] projectType
  then modify (_parseJestResults stdout stderr)
  else if is_tag "mocha-supertest" projectType
  then modify (_parseMochaResults stdout stderr)
  else if any_tag ["selenium-python"; "pytest"] projectType
  then modify (_parsePytestResults stdout stderr)
  else if is_tag "behave" projectType then modify (_parseBehaveResults stdout stderr)
  else if any_tag ["selenium-java"; "cucumber-java"; "rest-assured"; "maven"; "gradle"]
            projectType
  then modify (_parseJavaResults stdout stderr)
  else if is_tag "docker-compose" projectType
  then modify (_parseDockerComposeResults stdout stderr)
  else modify (_parseGenericResults stdout stderr).

Definition _parseIntegrationTestResults (stdout stderr projectType : jsstring)
    (duration : Z) : completion error TestRunResult :=
  let standardResult := standardResult0 stdout stderr duration in
  match parse_switch stdout stderr projectType standardResult with
  | (standardResult', Normal _) => Normal standardResult'
  | (standardResult', Throw e) => Normal (set_error e standardResult')
  end.

(** *** The supervised process *)

(** What the child process and the timer deliver to the handlers installed
    by [_executeCommand], in order of arrival. *)
Inductive proc_event : Type :=
| StdoutData (str : jsstring)    (* proc.stdout.on('data') *)
| StderrData (str : jsstring)    (* proc.stderr.on('data') *)
| TimerExpired                   (* the setTimeout callback *)
| Close (code : option Z)        (* proc.on('close'); None for a signal *)
| ProcError (err : jsstring).    (* proc.on('error') *)

(** The promise returned by [_executeCommand]. *)
Inductive settlement : Type :=
| Pending
| Resolved (stdout stderr : jsstring)
| Rejected (e : error).

Record Options : Type := mkOptions {
  timeout : Z;
  logStream : bool     (* whether a log stream is passed *)
}.

Record proc_state : Type := mkProc {
  stdout_buf : jsstring;
  stderr_buf : jsstring;
  timer_armed : bool;
  promise : settlement;
  effects : trace
}.

(** [resolve] and [reject] only act on a pending promise. *)
Definition settle_with (s : settlement) (st : proc_state) : proc_state :=
  match promise st with
  | Pending =>
      mkProc (stdout_buf st) (stderr_buf st) (timer_armed st) s (effects st)
  | _ => st
  end.

Definition log_write (o : Options) (entry : log_entry) (st : proc_state)
    : proc_state :=
  if logStream o then
    mkProc (stdout_buf st) (stderr_buf st) (timer_armed st) (promise st)
      (effects st ++ [Logged entry])
  else st.

(** [clearTimeout(timeoutId)], and the timer having run. *)
Definition disarm (st : proc_state) : proc_state :=
  mkProc (stdout_buf st) (stderr_buf st) false (promise st) (effects st).

Definition kill (st : proc_state) : proc_state :=
  mkProc (stdout_buf st) (stderr_buf st) (timer_armed st) (promise st)
    (effects st ++ [Killed]).

Definition is_exit_zero (code : option Z) : bool :=
  match code with
  | Some z => Z.eqb z 0
  | None => false
  end.

(** One handler invocation. *)
Definition handle (command : jsstring) (o : Options) (ev : proc_event)
    (st : proc_state) : proc_state :=
  match ev with
  | StdoutData str =>
      log_write o (LogOut str)
        (mkProc (stdout_buf st ++ str) (stderr_buf st) (timer_armed st)
           (promise st) (effects st))
  | StderrData str =>
      log_write o (LogErr str)
        (mkProc (stdout_buf st) (stderr_buf st ++ str) (timer_armed st)
           (promise st) (effects st))
  | TimerExpired =>
      if timer_armed st then
        settle_with (Rejected (TimedOut (timeout o) command)) (kill (disarm st))
      else st
  | Close code =>
      let st := log_write o (LogExit code) (disarm st) in
      if is_exit_zero code
      then settle_with (Resolved (stdout_buf st) (stderr_buf st)) st
      else settle_with (Rejected (ExitFailure code command)) st
  | ProcError err =>
      let st := log_write o (LogProcessError err) (disarm st) in
      settle_with (Rejected (SpawnError err)) st
  end.

(** [_executeCommand(command, options)] against the events the child and
    the timer deliver: the process is spawned, the timer is armed when
    [options.timeout] is truthy, and the handlers run. *)
Definition _executeCommand (command : jsstring) (o : Options)
    (events : list proc_event) (t : trace) : proc_state :=
  forEach events (handle command o)
    (mkProc [] [] (negb (Z.eqb (timeout o) 0)) Pending (t ++ [Executed command])).

(** *** Detection, command selection and the orchestrator *)

Section Json.

Variable JSON_parse : jsstring -> option jsval.

Definition tag {S E} (t : string) : M S E jsstring := ret (lit t).

Local Open Scope eff_scope.

(** The checks after the empty-repository check. *)
Definition detect_manifests {S} (fs : RepoFs) : M S error jsstring :=
  if existsSync fs "package.json" then
    text <- read_file fs "package.json" ;;
    packageJson <- parse_json JSON_parse text ;;
    deps <- deps_of packageJson ;;
    if has_dep deps "cypress" then tag "cypress"
    else if has_dep deps "@playwright/test" then tag "playwright"
    else if has_dep deps "protractor" then tag "protractor"
    else if has_dep deps "jest" &&
            (has_dep deps "@testing-library/react"
             || has_dep deps "@testing-library/vue")
    then tag "jest-dom"
    else if has_dep deps "jest" then tag "jest"
    else if has_dep deps "mocha" && has_dep deps "supertest"
    then tag "mocha-supertest"
    else tag "node"
  else if existsSync fs "requirements.txt" || existsSync fs "setup.py" then
    match readdir fs with
    | Some files =>
        if existsb (includes_s "selenium") files then tag "selenium-python"
        else if existsb (includes_s "pytest") files then tag "pytest"
        else if existsb (includes_s "behave") files then tag "behave"
        else tag "python"
    | None => tag "python"
    end
  else if existsSync fs "pom.xml" then
    pomXml <- read_file fs "pom.xml" ;;
    if includes_s "selenium" pomXml then tag "selenium-java"
    else if includes_s "cucumber" pomXml then tag "cucumber-java"
    else if includes_s "rest-assured" pomXml then tag "rest-assured"
    else tag "maven"
  else if existsSync fs "build.gradle" then tag "gradle"
  else if existsSync fs "docker-compose.yml" then tag "docker-compose"
  else tag "unknown".

Definition _detectProjectType {S} (fs : RepoFs) : M S error jsstring :=
  match readdir fs with
  | Some files => if only_git files then tag "empty" else detect_manifests fs
  | None => detect_manifests fs
  end.

Definition cmd {S E} (c : string) : M S E (option jsstring) := ret (Some (lit c)).

(** The [try] block of the case ['node']. *)
Definition node_script {S} (fs : RepoFs) : M S error (option jsstring) :=
  text <- read_file fs "package.json" ;;
  packageJson <- parse_json JSON_parse text ;;
  scripts <- prop packageJson "scripts" ;;
  if truthy scripts then
    ti <- prop scripts "test:integration" ;;
    if truthy ti then cmd "npm run test:integration"
    else
      i <- prop scripts "integration" ;;
      if truthy i then cmd "npm run integration"
      else
        e <- prop scripts "e2e" ;;
        if truthy e then cmd "npm run e2e" else ret None
  else ret None.

Definition _determineIntegrationTestCommand {S} (fs : RepoFs)
    (projectType : jsstring) : M S error (option jsstring) :=
  if is_tag "cypress" projectType then cmd "npx cypress run"
  else if is_tag "playwright" projectType then cmd "npx playwright test"
  else if is_tag "protractor" projectType
  then cmd "npx protractor e2e/protractor.conf.js"
  else if is_tag "jest-dom" projectType
  then cmd "npx jest --testPathPattern=integration"
  else if is_tag "jest" projectType then
    if existsSync fs "tests/integration" then cmd "npx jest tests/integration"
    else if existsSync fs "__tests__/integration"
    then cmd "npx jest __tests__/integration"
    else if existsSync fs "integration" then cmd "npx jest integration"
    else cmd "npx jest --testPathPattern=integration"
  else if is_tag "mocha-supertest" projectType then
    if existsSync fs "test/integration" then cmd "npx mocha test/integration"
    else if existsSync fs "tests/integration" then cmd "npx mocha tests/integration"
    else ret (Some (lit "npx mocha " ++ quoted "**/*.integration.js"))
  else if is_tag "node" projectType
  then catch (node_script fs) (fun _ => ret None)
  else if is_tag "selenium-python" projectType
  then cmd "python -m pytest tests/integration"
  else if is_tag "pytest" projectType then
    if existsSync fs "tests/integration" then cmd "python -m pytest tests/integration"
    else if existsSync fs "integration" then cmd "python -m pytest integration"
    else ret (Some (lit "python -m pytest -k " ++ quoted "integration"))
  else if is_tag "behave" projectType then cmd "behave"
  else if any_tag ["selenium-java"; "cucumber-java"; "rest-assured"; "maven"]
            projectType
  then cmd "mvn verify"
  else if is_tag "gradle" projectType then cmd "./gradlew integrationTest"
  else if is_tag "docker-compose" projectType
  then cmd "docker-compose up --abort-on-container-exit --exit-code-from test"
  else ret None.

(** Why [runTests] does not return: a thrown error, or an awaited
    promise that never settles. *)
Inductive abort : Type :=
| Raised (e : error)
| Hung.

Definition raising {S A} (m : M S error A) : M S abort A :=
  fun s =>
    match m s with
    | (s', Normal a) => (s', Normal a)
    | (s', Throw e) => (s', Throw (Raised e))
    end.

Record Env : Type := mkEnv {
  fs : RepoFs;
  spawn : jsstring -> list proc_event;   (* what the child of a command does *)
  elapsed : Z;                           (* Date.now() - startTime *)
  logFilePath : jsstring;                (* the log file of this run *)
  mkdirSync_ok : bool;                   (* whether fs.mkdirSync succeeds *)
  screenshotFiles : option (list jsstring) (* the screenshot directory, if it exists *)
}.

Record Params : Type := mkParams {
  repoPath : jsstring;
  testCommand : option jsstring;
  captureScreenshots : bool
}.

(** The returned object: the parsed result with [logFile] and, when
    captured, [screenshots]. *)
Record IntegrationResult : Type := mkIntegrationResult {
  result : TestRunResult;
  logFile : jsstring;
  screenshots : option (list jsstring)
}.

(** [config.timeout || 1200000] *)
Definition agent_timeout (config_timeout : option Z) : Z :=
  match config_timeout with
  | Some t => if Z.eqb t 0 then 1200000 else t
  | None => 1200000
  end.

(** The result built in place for an empty repository. *)
Definition empty_results (logFile : jsstring) : IntegrationResult :=
  mkIntegrationResult
    (mkResult (VBool true)
       (mkSummary (VNum 1) (VNum 0) (VNum 0) (VNum 1) (DurVal (VNum 0)))
       [mkTestCase (str "repository-empty-check") (str "system") (str "skipped")
          (VNum 0) (VArr [str "Repository is empty, no integration tests to run"])]
       (lit "Repository is empty, no integration tests to run") [] None)
    logFile None.

(** The handlers up to the moment the promise settles.  What the child
    and the timer deliver later finds the caller gone. *)
Fixpoint until_settled (command : jsstring) (o : Options)
    (events : list proc_event) (st : proc_state) : proc_state :=
  match events with
  | [] => st
  | ev :: events' =>
      match promise st with
      | Pending => until_settled command o events' (handle command o ev st)
      | _ => st
      end
  end.

(** [await this._executeCommand(..)]: the caller goes on as soon as the
    promise settles, before the next event is delivered. *)
Definition await_command (command : jsstring) (o : Options)
    (events : list proc_event) : M trace abort (jsstring * jsstring) :=
  fun t =>
    let st :=
      until_settled command o events
        (mkProc [] [] (negb (Z.eqb (timeout o) 0)) Pending
           (t ++ [Executed command])) in
    match promise st with
    | Resolved stdout stderr => (effects st, Normal (stdout, stderr))
    | Rejected e => (effects st, Throw (Raised e))
    | Pending => (effects st, Throw Hung)
    end.

(** The [try] block of [runTests]. *)
Definition run_try (config_timeout : option Z) (env : Env) (params : Params)
    : M trace abort IntegrationResult :=
  emit (Notified "started") ;;;
  projectType <- raising (_detectProjectType (fs env)) ;;
  if is_tag "empty" projectType then
    emit (Notified "completed") ;;;
    emit LogEnded ;;;
    ret (empty_results (logFilePath env))
  else
    command <- match given (testCommand params) with
               | Some c => ret (Some c)
               | None =>
                   raising (_determineIntegrationTestCommand (fs env) projectType)
               end ;;
    match given command with
    | None => throw (Raised (NoCommand projectType))
    | Some command =>
        emit (Logged (LogCommand command)) ;;;
        (if captureScreenshots params && negb (mkdirSync_ok env)
         then throw (Raised (FsError "screenshots"))
         else ret tt) ;;;
        out <- await_command command
                 (mkOptions (agent_timeout config_timeout) true)
                 (spawn env command) ;;
        parsed <- raising
                    (fun t =>
                       (t, _parseIntegrationTestResults (fst out) (snd out)
                             projectType (elapsed env))) ;;
        emit (Notified "completed") ;;;
        emit LogEnded ;;;
        ret (mkIntegrationResult parsed (logFilePath env)
               (if captureScreenshots params then screenshotFiles env else None))
    end.

Definition runTests (config_timeout : option Z) (env : Env) (params : Params)
    : M trace abort IntegrationResult :=
  match repoPath params with
  | [] => throw (Raised (PathMissing []))
  | _ :: _ =>
      if negb (repo_exists (fs env))
      then throw (Raised (PathMissing (repoPath params)))
      else
        fun t =>
          match run_try config_timeout env params t with
          | (t', Throw (Raised e)) =>
              (emit (Logged (LogRunError e)) ;;;
               emit (Notified "error") ;;;
               emit LogEnded ;;;
               throw (Raised (FailedToRun e))) t'
          | r => r
          end
  end.

End Json.

End IntegrationAgent.

(** ** blockchainLogger.js: the class [BlockchainLogger] *)

Module BlockchainLogger.

Import Eff.
Local Open Scope eff_scope.

(** Errors, by the template that builds their message. *)
Inductive log_error : Type :=
| IpfsNotConfigured                        (* IPFS client not configured. .. *)
| IpfsFailed (cause : jsstring)            (* Failed to store data on IPFS: .. *)
| ArweaveNotImplemented                    (* Arweave storage not yet implemented *)
| UnsupportedStorage (storageType : jsstring) (* Unsupported storage type: .. *)
| NoProgramId                              (* Solana program ID not configured or invalid *)
| WriteFailed (cause : jsstring)           (* raised by fs.writeFileSync *)
| ReadFailed                               (* raised by fs.readdirSync or fs.readFileSync *)
| BadBackup                                (* raised while a backup file is read as JSON *)
| NotRetrieved (cid : jsstring).           (* Could not retrieve results for CID: .. *)

(** The fields of a logger after its constructor has run.  [programId] and
    [ipfsClient] are objects of the two client libraries; only whether they
    are set is ever looked at. *)
Record Logger : Type := mkLogger {
  solanaEndpoint : jsstring;
  programId : bool;
  storageType : jsstring;
  ipfsClient : bool;
  localStoragePath : jsstring
}.

(** [1-9A-HJ-NP-Za-km-z] *)
Definition is_base58 (c : N) : bool :=
  (((49 <=? c) && (c <=? 57)) || ((65 <=? c) && (c <=? 72))
   || ((74 <=? c) && (c <=? 78)) || ((80 <=? c) && (c <=? 90))
   || ((97 <=? c) && (c <=? 107)) || ((109 <=? c) && (c <=? 122)))%N.

(** [r{n}] *)
Fixpoint times (n : nat) (r : re) : re :=
  match n with
  | O => Eps
  | S n' => Seq r (times n' r)
  end.

(** [/^r$/.test(s)]: the pattern has to use up the text. *)
Definition test_whole (r : re) (s : jsstring) : bool :=
  match run false r s []
          (fun rest _ => match rest with [] => Some tt | _ :: _ => None end) with
  | Some _ => true
  | None => false
  end.

(** [/^[1-9A-HJ-NP-Za-km-z]{43,44}$/] *)
Definition base58Regex : re :=
  Seq (times 43 (Cls is_base58)) (Opt (Cls is_base58)).

(** [isValidPublicKey(key)]; [PublicKey] says whether [new PublicKey(key)]
    returns rather than throws. *)
Definition isValidPublicKey (PublicKey : jsstring -> bool) (key : jsval) : bool :=
  match key with
  | VStr (c :: s) => test_whole base58Regex (c :: s) && PublicKey (c :: s)
  | _ => false
  end.

(** [this.programId] as the constructor leaves it: set or null. *)
Definition constructed_programId (PublicKey : jsstring -> bool)
    (config_programId : jsval) : bool :=
  truthy config_programId && isValidPublicKey PublicKey config_programId.

(** What lies outside the logger: the engine ([JSON], [path.join]), the
    storage service, the network, the clock, and the disk.  The clock is
    read by number of the reading, a write by number of the attempt.
    [JSON.stringify] is taken to return: what the agents hand to the logger
    is plain data. *)
Record Host : Type := mkHost {
  stringify : jsval -> jsstring;          (* JSON.stringify(v) *)
  stringify2 : jsval -> jsstring;         (* JSON.stringify(v, null, 2) *)
  parse : jsstring -> option jsval;       (* JSON.parse; None: it throws *)
  path_join : jsstring -> jsstring -> jsstring;
  storeBlob : jsstring -> completion jsstring jsstring; (* the CID, or why it was rejected *)
  fetch_json : jsstring -> option jsval;  (* fetch(url) and response.json(); None: any failure *)
  toISOString : nat -> jsstring;          (* new Date().toISOString() *)
  now : nat -> jsstring;                  (* Date.now(), as it prints *)
  write_error : nat -> option jsstring    (* why the n-th fs.writeFileSync throws, if it does *)
}.

(** The state the logger moves: readings of the clock, attempts to write,
    and the files written, with the path and the text of each. *)
Record LogWorld : Type := mkLogWorld {
  clock : nat;
  attempts : nat;
  written : list (jsstring * jsstring)
}.

Definition Log : Type -> Type := M LogWorld log_error.

Definition newDate (h : Host) : Log jsstring :=
  fun w =>
    (mkLogWorld (S (clock w)) (attempts w) (written w),
     Normal (toISOString h (clock w))).

Definition dateNow (h : Host) : Log jsstring :=
  fun w =>
    (mkLogWorld (S (clock w)) (attempts w) (written w), Normal (now h (clock w))).

Definition writeFileSync (h : Host) (filePath text : jsstring) : Log unit :=
  fun w =>
    match write_error h (attempts w) with
    | Some cause =>
        (mkLogWorld (clock w) (S (attempts w)) (written w), Throw (WriteFailed cause))
    | None =>
        (mkLogWorld (clock w) (S (attempts w)) (written w ++ [(filePath, text)]),
         Normal tt)
    end.

Record StorageResult : Type := mkStorageResult {
  cid : jsstring;
  url : jsstring
}.

Record BlockchainResult : Type := mkBlockchainResult {
  transactionId : jsstring;
  blockHeight : Z
}.

(** The two results as they are put into the backup; [null] when absent. *)
Definition storage_value (s : option StorageResult) : jsval :=
  match s with
  | Some s => VObj [(lit "cid", VStr (cid s)); (lit "url", VStr (url s))]
  | None => VNull
  end.

Definition blockchain_value (b : option BlockchainResult) : jsval :=
  match b with
  | Some b =>
      VObj [(lit "transactionId", VStr (transactionId b));
            (lit "blockHeight", VNum (blockHeight b))]
  | None => VNull
  end.

Definition gateway (cid : jsstring) : jsstring :=
  lit "https://" ++ cid ++ lit ".ipfs.nftstorage.link".

(** The object [_storeResults] stores. *)
Definition metadata_of (repoId type timestamp : jsstring) (results : jsval) : jsval :=
  VObj [(lit "name", VStr (repoId ++ lit "-" ++ type ++ lit "-test-results"));
        (lit "description",
         VStr (lit "Test results for " ++ repoId ++ lit " repository (" ++ type
               ++ lit " tests)"));
        (lit "timestamp", VStr timestamp);
        (lit "results", results)].

Definition _storeResults (h : Host) (lg : Logger) (results : jsval)
    (type repoId : jsstring) : Log StorageResult :=
  timestamp <- newDate h ;;
  let metadata := metadata_of repoId type timestamp results in
  if JsString.eqb (storageType lg) (lit "ipfs") then
    if negb (ipfsClient lg) then throw IpfsNotConfigured
    else
      match storeBlob h (stringify h metadata) with
      | Normal cid => ret (mkStorageResult cid (gateway cid))
      | Throw cause => throw (IpfsFailed cause)
      end
  else if JsString.eqb (storageType lg) (lit "arweave")
  then throw ArweaveNotImplemented
  else throw (UnsupportedStorage (storageType lg)).

(** The transaction is simulated: nothing is sent. *)
Definition _logToBlockchain (h : Host) (lg : Logger) (cid type repoId : jsstring)
    : Log BlockchainResult :=
  if negb (programId lg) then throw NoProgramId
  else
    n <- dateNow h ;;
    ret (mkBlockchainResult (lit "simulated_tx_" ++ n) 12345678).

(** [.replace(/[:.]/g, '-')] *)
Definition dashed (s : jsstring) : jsstring :=
  map (fun c => if N.eqb c 58 || N.eqb c 46 then 45%N else c) s.

(** The name of a backup file, from the text of the clock. *)
Definition backup_name (repoId type iso : jsstring) : jsstring :=
  repoId ++ lit "-" ++ type ++ lit "-" ++ dashed iso ++ lit ".json".

Definition backup_data (repoId type timestamp : jsstring) (results : jsval)
    (storageResult : option StorageResult)
    (blockchainResult : option BlockchainResult) : jsval :=
  VObj [(lit "repoId", VStr repoId);
        (lit "type", VStr type);
        (lit "timestamp", VStr timestamp);
        (lit "results", results);
        (lit "storage", storage_value storageResult);
        (lit "blockchain", blockchain_value blockchainResult)].

Definition _saveLocalBackup (h : Host) (lg : Logger) (results : jsval)
    (storageResult : option StorageResult)
    (blockchainResult : option BlockchainResult) (type repoId : jsstring)
    : Log jsstring :=
  iso <- newDate h ;;
  let filename := backup_name repoId type iso in
  let filePath := path_join h (localStoragePath lg) filename in
  timestamp <- newDate h ;;
  let backupData :=
    backup_data repoId type timestamp results storageResult blockchainResult in
  writeFileSync h filePath (stringify2 h backupData) ;;;
  ret filePath.

(** [response.storage] and [response.blockchain] *)
Record StorageInfo : Type := mkStorageInfo {
  storage_type : jsstring;
  storage_cid : jsstring;
  storage_url : jsstring
}.

Record BlockchainInfo : Type := mkBlockchainInfo {
  network : jsstring;
  chain_transactionId : jsstring;
  chain_blockHeight : Z
}.

(** What [logResults] returns; [error] is [error.message]. *)
Record Response : Type := mkResponse {
  success : bool;
  response_type : jsstring;
  response_repoId : jsstring;
  response_timestamp : jsstring;
  error : option log_error;
  localBackup : jsstring;
  storage : option StorageInfo;
  blockchain : option BlockchainInfo
}.

(** The first statement of [logResults], an [if] around a [try]: the two
    locals as they stand after it.  An exception inside the [try] leaves
    them as assigned so far. *)
Definition store_and_log (h : Host) (lg : Logger) (results : jsval)
    (type repoId : jsstring)
    : Log (option StorageResult * option BlockchainResult) :=
  if ipfsClient lg then
    World.catch
      (storageResult <- _storeResults h lg results type repoId ;;
       if programId lg then
         World.catch
           (blockchainResult <-
              _logToBlockchain h lg (cid storageResult) type repoId ;;
            ret (Some storageResult, Some blockchainResult))
           (fun _ => ret (Some storageResult, None))
       else ret (Some storageResult, None))
      (fun _ => ret (None, None))
  else ret (None, None).

Definition logResults (h : Host) (lg : Logger) (results : jsval)
    (type repoId : jsstring) : Log Response :=
  World.catch
    (locals <- store_and_log h lg results type repoId ;;
     let storageResult := fst locals in
     let blockchainResult := snd locals in
     localBackupPath <-
       _saveLocalBackup h lg results storageResult blockchainResult type repoId ;;
     timestamp <- newDate h ;;
     ret (mkResponse true type repoId timestamp None localBackupPath
            (option_map
               (fun s => mkStorageInfo (storageType lg) (cid s) (url s))
               storageResult)
            (option_map
               (fun b =>
                  mkBlockchainInfo
                    (if includes (lit "devnet") (solanaEndpoint lg)
                     then lit "devnet" else lit "mainnet")
                    (transactionId b) (blockHeight b))
               blockchainResult)))
    (fun e =>
       localBackupPath <- _saveLocalBackup h lg results None None type repoId ;;
       timestamp <- newDate h ;;
       ret (mkResponse false type repoId timestamp (Some e) localBackupPath
              None None)).

(** The directory of local backups as the calls that read it find it. *)
Record LocalStore : Type := mkLocalStore {
  readdirSync : option (list jsstring);      (* None: the call throws *)
  readFile : jsstring -> option jsstring     (* by file name; None: the call throws *)
}.

(** [v === s] for a string [s] *)
Definition is_string (s : jsstring) (v : jsval) : bool :=
  match v with
  | VStr s' => JsString.eqb s' s
  | _ => false
  end.

(** The callback of [localFiles.find]: any exception counts as no. *)
Definition holds_cid (h : Host) (dir : LocalStore) (cid file : jsstring) : bool :=
  match readFile dir file with
  | Some text =>
      match parse h text with
      | Some data =>
          match get data (lit "storage") with
          | Some st =>
              if truthy st then
                match get st (lit "cid") with
                | Some c => is_string cid c
                | None => false
                end
              else false
          | None => false
          end
      | None => false
      end
  | None => false
  end.

Definition retrieveResults (h : Host) (lg : Logger) (dir : LocalStore)
    (cid : jsstring) : completion log_error jsval :=
  let fetched :=
    if JsString.eqb (storageType lg) (lit "ipfs") then fetch_json h (gateway cid)
    else None in
  match fetched with
  | Some v => Normal v
  | None =>
      match readdirSync dir with
      | None => Throw ReadFailed
      | Some localFiles =>
          match find (holds_cid h dir cid) localFiles with
          | Some matchingFile =>
              match readFile dir matchingFile with
              | None => Throw ReadFailed
              | Some text =>
                  match parse h text with
                  | None => Throw BadBackup
                  | Some data =>
                      match get data (lit "results") with
                      | Some v => Normal v
                      | None => Throw BadBackup
                      end
                  end
              end
          | None => Throw (NotRetrieved cid)
          end
      end
  end.

(** The object [getResultsForRepo] builds from one backup. *)
Definition reference (data : jsval) : option jsval :=
  match get data (lit "repoId"), get data (lit "type"), get data (lit "timestamp"),
        get data (lit "storage"), get data (lit "blockchain") with
  | Some r, Some t, Some ts, Some s, Some b =>
      Some (VObj [(lit "repoId", r); (lit "type", t); (lit "timestamp", ts);
                  (lit "storage", s); (lit "blockchain", b)])
  | _, _, _, _, _ => None
  end.

Definition read_reference (h : Host) (dir : LocalStore) (file : jsstring)
    : option jsval :=
  match readFile dir file with
  | Some text =>
      match parse h text with
      | Some data => reference data
      | None => None
      end
  | None => None
  end.

(** [files.map(f)] where [f] may throw: the first exception ends it. *)
Fixpoint map_or_throw {A B : Type} (f : A -> option B) (l : list A)
    : option (list B) :=
  match l with
  | [] => Some []
  | a :: l' =>
      match f a with
      | Some b =>
          match map_or_throw f l' with
          | Some bs => Some (b :: bs)
          | None => None
          end
      | None => None
      end
  end.

Definition getResultsForRepo (h : Host) (dir : LocalStore) (repoId : jsstring)
    : list jsval :=
  match readdirSync dir with
  | Some localFiles =>
      let matchingFiles := filter (startsWith (repoId ++ lit "-")) localFiles in
      match map_or_throw (read_reference h dir) matchingFiles with
      | Some references => references
      | None => []
      end
  | None => []
  end.

End BlockchainLogger.

(** ** repoClonerAgent.js *)

Module RepoClonerAgent.

Import Eff.
Local Open Scope eff_scope.

Inductive clone_error : Type :=
| UrlRequired                          (* Repository URL is required *)
| NotAFunction                         (* TypeError: repoUrl.split is not a function *)
| InvalidArgType                       (* TypeError of path.join: not a string *)
| RemoveFailed (cause : jsstring)      (* rejection of fs.rm *)
| InvalidUrl                           (* raised by new URL(..) *)
| CommandFailed (cause : jsstring)     (* rejection of execAsync *)
| FailedToClone (cause : clone_error). (* Failed to clone repository: .. *)

(** What the agent does to the world, in order. *)
Inductive step : Type :=
| Removed (path : jsstring)            (* fs.rm(path, {recursive, force}) *)
| Ran (command : jsstring)             (* execAsync(command, ..) *)
| Told (status : string).              (* _notifyCoralProtocol({status, ..}) *)

Record Env : Type := mkEnv {
  workDir : jsstring;
  path_join : jsstring -> jsstring -> jsstring;
  existsSync : jsstring -> bool;
  rm : jsstring -> option jsstring;        (* why fs.rm fails, if it does *)
  execAsync : jsstring -> completion jsstring jsstring; (* stdout, or why it was rejected *)
  url_parts : jsstring -> option (jsstring * jsstring); (* host and pathname of new URL(..) *)
  now : jsstring;                          (* Date.now(), as it prints *)
  toString : jsval -> jsstring             (* String(v) for a value that is not a string *)
}.

(** The text of a value in a template literal, and as the argument of
    [new URL] and of [includes]: a string stands for itself. *)
Definition text (env : Env) (v : jsval) : jsstring :=
  match v with
  | VStr s => s
  | _ => toString env v
  end.

(** [s.split('/')] taken at its last index. *)
Fixpoint last_part (s : jsstring) : jsstring :=
  match s with
  | [] => []
  | c :: s' =>
      if existsb (N.eqb 47) s' then last_part s'
      else if N.eqb c 47 then s' else c :: s'
  end.

(** [_generateRepoFolderId] on a string; [cloneRepository] holds the case
    of a value without [split]. *)
Definition _generateRepoFolderId (env : Env) (repoUrl : jsstring) : jsstring :=
  let repoName := replace_first (lit ".git") [] (last_part repoUrl) in
  repoName ++ lit "-" ++ now env.

Definition quote (s : jsstring) : jsstring := [34%N] ++ s ++ [34%N].

Definition exec (env : Env) (command : jsstring) : M (list step) clone_error jsstring :=
  fun t =>
    match execAsync env command with
    | Normal stdout => (t ++ [Ran command], Normal stdout)
    | Throw cause => (t ++ [Ran command], Throw (CommandFailed cause))
    end.

Definition tell (status : string) : M (list step) clone_error unit :=
  modify (fun t => t ++ [Told status]).

Definition _removeDirectory (env : Env) (dirPath : jsstring)
    : M (list step) clone_error unit :=
  fun t =>
    match rm env dirPath with
    | Some cause => (t ++ [Removed dirPath], Throw (RemoveFailed cause))
    | None => (t ++ [Removed dirPath], Normal tt)
    end.

Record CloneResult : Type := mkCloneResult {
  success : bool;
  repoId : jsstring;
  path : jsstring;
  branch : jsval
}.

(** The branch part of [cloneRepository], with its own [try]. *)
Definition checkout (env : Env) (repoPath : jsstring) (branch : jsval)
    : M (list step) clone_error unit :=
  World.catch
    (stdout <- exec env (lit "cd " ++ quote repoPath ++ lit "; git branch -a") ;;
     if includes (lit "remotes/origin/" ++ text env branch) stdout
        || includes (text env branch) stdout
     then
       exec env (lit "cd " ++ quote repoPath ++ lit "; git checkout "
                 ++ text env branch) ;;;
       ret tt
     else ret tt)
    (fun _ => ret tt).

(** [repoId || this._generateRepoFolderId(repoUrl)] *)
Definition folder_of (env : Env) (repoId repoUrl : jsval)
    : M (list step) clone_error jsval :=
  if truthy repoId then ret repoId
  else
    match repoUrl with
    | VStr s => ret (VStr (_generateRepoFolderId env s))
    | _ => throw NotAFunction
    end.

(** The URL that [git clone] is given. *)
Definition clone_url (env : Env) (repoUrl accessToken : jsval)
    : M (list step) clone_error jsstring :=
  if truthy accessToken then
    match url_parts env (text env repoUrl) with
    | Some (host, pathname) =>
        ret (lit "https://" ++ text env accessToken ++ lit "@" ++ host ++ pathname)
    | None => throw InvalidUrl
    end
  else ret (text env repoUrl).

(** What follows once the folder is known to be a string. *)
Definition clone_into (env : Env) (repoUrl branch accessToken : jsval)
    (repoFolder : jsstring) : M (list step) clone_error CloneResult :=
  let repoPath := path_join env (workDir env) repoFolder in
  (if existsSync env repoPath then _removeDirectory env repoPath else ret tt) ;;;
  World.catch
    (cloneUrl <- clone_url env repoUrl accessToken ;;
     exec env (lit "git clone " ++ cloneUrl ++ lit " " ++ quote repoPath) ;;;
     (if truthy branch then checkout env repoPath branch else ret tt) ;;;
     tell "success" ;;;
     ret (mkCloneResult true repoFolder repoPath (js_or branch (str "default"))))
    (fun e => tell "error" ;;; throw (FailedToClone e)).

Definition cloneRepository (env : Env) (params : list (jsstring * jsval))
    : M (list step) clone_error CloneResult :=
  let repoUrl := lookup (lit "repoUrl") params in
  let branch := lookup (lit "branch") params in
  let accessToken := lookup (lit "accessToken") params in
  let repoId := lookup (lit "repoId") params in
  if negb (truthy repoUrl) then throw UrlRequired
  else
    repoFolder <- folder_of env repoId repoUrl ;;
    match repoFolder with
    | VStr folder => clone_into env repoUrl branch accessToken folder
    | _ => throw InvalidArgType          (* path.join(this.workDir, repoFolder) *)
    end.

End RepoClonerAgent.

(** ** index.js: the two routes *)

Module Server.

Import Eff.
Local Open Scope eff_scope.

(** The body of a reply: an error message, or whatever the handler sends
    as JSON. *)
Inductive reply_body : Type :=
| ErrorRequired                          (* { error: 'Repository URL is required' } *)
| ErrorOf (e : RepoClonerAgent.clone_error) (* { error: error.message } *)
| ErrorNoResults                         (* { error: 'No results found for this repository' } *)
| Json (v : jsval).

Record Reply : Type := mkReply {
  status : Z;
  sent : reply_body
}.

(** [const { k = d } = req.body]: the default stands in for [undefined]
    only. *)
Definition or_default (v d : jsval) : jsval :=
  match v with
  | VUndefined => d
  | _ => v
  end.

(** POST /api/run-tests.  What follows the clone (the two agents, the
    logger, the reply with the results) is [pipeline]. *)
Definition run_tests (env : RepoClonerAgent.Env) (body : list (jsstring * jsval))
    (pipeline : RepoClonerAgent.CloneResult ->
                M (list RepoClonerAgent.step) RepoClonerAgent.clone_error Reply)
    : M (list RepoClonerAgent.step) RepoClonerAgent.clone_error Reply :=
  World.catch
    (let repoUrl := lookup (lit "repoUrl") body in
     let branch := or_default (lookup (lit "branch") body) (str "main") in
     let auth := lookup (lit "auth") body in
     if negb (truthy repoUrl) then ret (mkReply 400 ErrorRequired)
     else
       cloneResult <-
         RepoClonerAgent.cloneRepository env
           [(lit "url", repoUrl);
            (lit "branch", branch);
            (lit "auth",
             if truthy auth
             then VObj [(lit "type", str "token"); (lit "token", auth)]
             else VUndefined)] ;;
       pipeline cloneResult)
    (fun e => ret (mkReply 500 (ErrorOf e))).

(** GET /api/results/:repoId *)
Definition results (h : BlockchainLogger.Host) (dir : BlockchainLogger.LocalStore)
    (repoId : jsstring) : Reply :=
  match BlockchainLogger.getResultsForRepo h dir repoId with
  | [] => mkReply 404 ErrorNoResults
  | references => mkReply 200 (Json (VArr references))
  end.

End Server.

(** * Statements about results *)

(** [t === p + f + k] on numbers *)
Definition sums_to (t p f k : number) : Prop :=
  JsNumber.eqb t (JsNumber.add (JsNumber.add p f) k) = true.

(** [summary.total === summary.passed + summary.failed + summary.skipped]
    for a summary whose counts are numbers. *)
Definition adds_up (s : Summary) : Prop :=
  exists t p f k : number,
    total s = VNum t /\ passed s = VNum p /\ failed s = VNum f /\
    skipped s = VNum k /\ sums_to t p f k.

(** The number a count pattern finds in the output: the first match, 0 when
    there is none. *)
Definition first_count (rx : regex) (output : jsstring) : number :=
  num_of (count_or_zero (js_match rx output) 1).

(** A count that additions leave exact: an integer of magnitude at most
    2^51, so that sums of up to four such counts stay below 2^53. *)
Definition small (n : number) : Prop :=
  match n with
  | Num z => (Z.abs z <= 2 ^ 51)%Z
  | _ => False
  end.

(** A count: a natural number or the positive infinity. *)
Definition counted (n : number) : Prop :=
  match n with
  | Num z => (0 <= z)%Z
  | PInf => True
  | _ => False
  end.

(** The four counts of a summary, as numbers. *)
Definition numbers (s : Summary) : option (number * number * number * number) :=
  match total s, passed s, failed s, skipped s with
  | VNum t, VNum p, VNum f, VNum k => Some (t, p, f, k)
  | _, _, _, _ => None
  end.

(** The matches of a pattern, as a relation: from [s] with captures [cs] the
    pattern can consume up to [s'] and leave the captures [cs']. *)
Fixpoint consumes (ic : bool) (r : re) (s : jsstring) (cs : captures)
    (s' : jsstring) (cs' : captures) : Prop :=
  match r with
  | Eps => s' = s /\ cs' = cs
  | Chr c => exists x, s = x :: s' /\ chr_match ic c x = true /\ cs' = cs
  | Cls p => exists x, s = x :: s' /\ p x = true /\ cs' = cs
  | ClsPlus p =>
      exists l, l <> [] /\ forallb p l = true /\ s = l ++ s' /\ cs' = cs
  | Seq r1 r2 =>
      exists s1 cs1, consumes ic r1 s cs s1 cs1 /\ consumes ic r2 s1 cs1 s' cs'
  | Alt r1 r2 => consumes ic r1 s cs s' cs' \/ consumes ic r2 s cs s' cs'
  | Opt r1 => consumes ic r1 s cs s' cs' \/ (s' = s /\ cs' = cs)
  | Grp i r1 =>
      exists cs1, consumes ic r1 s cs s' cs1 /\
                  cs' = (i, firstn (List.length s - List.length s') s) :: cs1
  end.

(** Group [i] takes part in every match of the pattern. *)
Fixpoint sets (i : nat) (r : re) : bool :=
  match r with
  | Grp j r1 => Nat.eqb i j || sets i r1
  | Seq r1 r2 => sets i r1 || sets i r2
  | Alt r1 r2 => sets i r1 && sets i r2
  | _ => false
  end.

(** Every group numbered [i] of the pattern is [(\d+)]. *)
Fixpoint digit_group (i : nat) (r : re) : Prop :=
  match r with
  | Grp j r1 => (if Nat.eqb i j then r1 = d_plus else True) /\ digit_group i r1
  | Seq r1 r2 | Alt r1 r2 => digit_group i r1 /\ digit_group i r2
  | Opt r1 => digit_group i r1
  | _ => True
  end.

(** The captures give group [i] as a non-empty run of digits. *)
Definition digits_at (i : nat) (cs : captures) : Prop :=
  exists d, group i cs = Some d /\ d <> [] /\ forallb is_digit d = true.

(** What the parsers make of a Surefire line: the total, the passed count
    derived as total - (failures + errors) - skipped, the failed count
    failures + errors, and the skipped count. *)
Definition surefire_counts (cs : captures)
    : number * number * number * number :=
  let t := parseInt (nth_group 1 cs) in
  let failed := JsNumber.add (parseInt (nth_group 2 cs)) (parseInt (nth_group 3 cs)) in
  let k := parseInt (nth_group 4 cs) in
  (t, JsNumber.sub (JsNumber.sub t failed) k, failed, k).




(** The text a run of events delivers on stdout, and on stderr. *)
Fixpoint stdout_of (events : list IntegrationAgent.proc_event) : jsstring :=
  match events with
  | [] => []
  | IntegrationAgent.StdoutData str :: es => str ++ stdout_of es
  | _ :: es => stdout_of es
  end.

Fixpoint stderr_of (events : list IntegrationAgent.proc_event) : jsstring :=
  match events with
  | [] => []
  | IntegrationAgent.StderrData str :: es => str ++ stderr_of es
  | _ :: es => stderr_of es
  end.

(** An event that only carries output. *)
Definition is_data (ev : IntegrationAgent.proc_event) : bool :=
  match ev with
  | IntegrationAgent.StdoutData _ | IntegrationAgent.StderrData _ => true
  | _ => false
  end.

(** What the summary line of Jest reports: total, passed and failed, zeros
    when the line is absent. *)
Definition jest_reported (output : jsstring) : number * number * number :=
  match js_match IntegrationAgent.jest_summary_rx output with
  | Some cs =>
      (parseInt (nth_group 3 cs), parseInt (nth_group 1 cs),
       parseInt (nth_group 2 cs))
  | None => (Num 0, Num 0, Num 0)
  end.

(** The degraded summary of the generic parser: nothing skipped, at least one
    test, and pass/fail attributed by the verdict. *)
Definition degraded (r : TestRunResult) : Prop :=
  exists tot p f : Z,
    total (summary r) = VNum tot /\ passed (summary r) = VNum p /\
    failed (summary r) = VNum f /\ skipped (summary r) = VNum 0 /\
    (1 <= tot)%Z /\ (p + f = tot)%Z /\
    match success r with
    | VBool true => p = tot /\ f = 0%Z
    | VBool false => f = 1%Z /\ p = (tot - 1)%Z
    | _ => False
    end.

(** The four counts of a summary, when they are integers. *)
Definition counts (s : Summary) : option (Z * Z * Z * Z) :=
  match total s, passed s, failed s, skipped s with
  | VNum (Num t), VNum (Num p), VNum (Num f), VNum (Num k) => Some (t, p, f, k)
  | _, _, _, _ => None
  end.

(** A repository directory that holds nothing besides [.git]. *)
Definition git_only (fs : RepoFs) : Prop :=
  repo_exists fs = true /\
  (exists files, readdir fs = Some files /\ World.only_git files = true) /\
  forall name, existsSync fs name = false.

(** The result that stands for an empty repository: success, one test in
    total, none passed or failed, one skipped, and a single skipped case. *)
Definition skipped_result (r : TestRunResult) : Prop :=
  success r = VBool true /\ counts (summary r) = Some (1, 0, 0, 1)%Z /\
  map status (details r) = [str "skipped"].

(** The command the unit agent selects for an empty repository. *)
Definition echo_command : jsstring :=
  lit "echo " ++ World.quoted "Repository is empty, no tests to run".

(** ** Statements about the runner, the orchestrators and paths *)

(** The chunks of output among the entries written to the log stream. *)
Fixpoint chunk_logs (t : trace) : list log_entry :=
  match t with
  | [] => []
  | Logged (LogOut str) :: t' => LogOut str :: chunk_logs t'
  | Logged (LogErr str) :: t' => LogErr str :: chunk_logs t'
  | _ :: t' => chunk_logs t'
  end.

(** The log entries the output events of a run call for, in order of
    arrival. *)
Fixpoint chunks_of (events : list IntegrationAgent.proc_event) : list log_entry :=
  match events with
  | [] => []
  | IntegrationAgent.StdoutData str :: es => LogOut str :: chunks_of es
  | IntegrationAgent.StderrData str :: es => LogErr str :: chunks_of es
  | _ :: es => chunks_of es
  end.

(** The notifications sent to the Coral Protocol, in order. *)
Fixpoint notifications (t : trace) : list string :=
  match t with
  | [] => []
  | Notified status :: t' => status :: notifications t'
  | _ :: t' => notifications t'
  end.

(** How often the log stream was ended. *)
Fixpoint log_ends (t : trace) : nat :=
  match t with
  | [] => 0
  | LogEnded :: t' => S (log_ends t')
  | _ :: t' => log_ends t'
  end.

(** The commands for which a child process was started, in order. *)
Fixpoint executed (t : trace) : list jsstring :=
  match t with
  | [] => []
  | Executed command :: t' => command :: executed t'
  | _ :: t' => executed t'
  end.

(** A parser step that leaves rawOutput and rawError as they are, whether
    it returns or throws. *)
Definition keeps_raw {A : Type} (m : Eff.Parser A) : Prop :=
  forall r, rawOutput (fst (m r)) = rawOutput r /\ rawError (fst (m r)) = rawError r.

(** Text without a slash: a single segment of a path. *)
Definition slashless (s : jsstring) : Prop := existsb (N.eqb 47) s = false.











(** * Properties *)

Unset Implicit Arguments.

(** ** The string and pattern primitives on small inputs *)

Example lit_units : lit "a b" = [97; 32; 98]%N.
Proof. reflexivity. Qed.

Example split_keeps_last_empty_line :
  split_lines (lit "a" ++ nl ++ lit "b" ++ nl) = [lit "a"; lit "b"; []].
Proof. reflexivity. Qed.

Example trim_both_ends : trim (lit "  ok  ") = lit "ok".
Proof. reflexivity. Qed.

Example match_is_leftmost :
  option_map (nth_group 1) (js_match (count_rx "passed") (lit "x 12 passed, 3 passed"))
  = Some (lit "12").
Proof. vm_compute. reflexivity. Qed.

Example match_backtracks_into_a_run :
  option_map (nth_group 0)
    (js_match pytest_name_rx (lit "tests/test_a.py::test_one PASSED"))
  = Some (lit "test_a.py::test_one").
Proof. vm_compute. reflexivity. Qed.

Example optional_group_may_be_absent :
  option_map (fun cs => (group 1 cs, group 4 cs))
    (js_match IntegrationAgent.playwright_rx (lit "5 passed (3s)"))
  = Some (Some (lit "5"), None).
Proof. vm_compute. reflexivity. Qed.

Example keyword_pattern_ignores_case :
  matches UnitTestAgent.generic_rx (lit "TEST suite") = true /\
  matches UnitTestAgent.generic_rx (lit "scenario one") = false /\
  matches IntegrationAgent.generic_rx (lit "Scenario one") = true.
Proof. vm_compute. repeat split. Qed.

Example anchored_pattern_only_at_start :
  matches IntegrationAgent.container_rx (lit "web  | started") = true /\
  matches IntegrationAgent.container_rx (lit " web | started") = false.
Proof. vm_compute. repeat split. Qed.

Example pytest_run :
  option_map (fun r => (success r, counts (summary r), map status (details r)))
    match IntegrationAgent._parseIntegrationTestResults
            (lit "collected 2 items" ++ nl ++ lit "tests/test_a.py::test_one PASSED"
             ++ nl ++ lit "tests/test_a.py::test_two FAILED" ++ nl
             ++ lit "1 failed, 1 passed in 0.12s") [] (lit "pytest") 0 with
    | Normal r => Some r
    | Throw _ => None
    end
  = Some (VBool false, Some (2, 1, 1, 0)%Z, [str "passed"; str "failed"]).
Proof. vm_compute. reflexivity. Qed.


(** ** What the line loops leave alone *)

Section Frames.

Variable A : Type.
Variable mk : A -> TestCase.

(** A loop that only pushes details changes nothing else. *)
Lemma forEach_push_frame (l : list A) (r : TestRunResult) :
  let r' := forEach l (fun x => push_detail (mk x)) r in
  success r' = success r /\ summary r' = summary r /\
  rawOutput r' = rawOutput r /\ rawError r' = rawError r /\
  error_message r' = error_message r /\
  details r' = details r ++ map mk l.
Proof.
  revert r. unfold forEach.
  induction l as [|x l IH]; intros r; cbn [fold_left map].
  - rewrite app_nil_r. repeat split.
  - destruct (IH (push_detail (mk x) r)) as (Hs & Hm & Ho & He & Hx & Hd).
    cbv zeta in *.
    rewrite Hs, Hm, Ho, He, Hx, Hd. cbn [push_detail details success summary
      rawOutput rawError error_message].
    rewrite <- app_assoc. repeat split.
Qed.

Lemma forEach_push_success (l : list A) (r : TestRunResult) :
  success (forEach l (fun x => push_detail (mk x)) r) = success r.
Proof. apply (forEach_push_frame l r). Qed.

Lemma forEach_push_summary (l : list A) (r : TestRunResult) :
  summary (forEach l (fun x => push_detail (mk x)) r) = summary r.
Proof. apply (forEach_push_frame l r). Qed.

Lemma forEach_push_rawOutput (l : list A) (r : TestRunResult) :
  rawOutput (forEach l (fun x => push_detail (mk x)) r) = rawOutput r.
Proof. apply (forEach_push_frame l r). Qed.

Lemma forEach_push_rawError (l : list A) (r : TestRunResult) :
  rawError (forEach l (fun x => push_detail (mk x)) r) = rawError r.
Proof. apply (forEach_push_frame l r). Qed.

End Frames.

(** One line of the generic parser never lowers the count and only pushes
    details. *)
Lemma generic_step_frame (rx : regex) (line : jsstring) (n : Z)
    (r : TestRunResult) :
  let st := generic_step rx line (n, r) in
  (n <= fst st)%Z /\ success (snd st) = success r /\
  summary (snd st) = summary r /\ rawOutput (snd st) = rawOutput r /\
  rawError (snd st) = rawError r.
Proof.
  unfold generic_step.
  destruct (matches rx line &&
            (includes_s "pass" line || includes_s "fail" line
             || includes_s "error" line));
    cbn; repeat split; lia.
Qed.

(** The loop of the generic parser counts upwards and only pushes details. *)
Lemma generic_loop_frame (rx : regex) (lines : list jsstring) (n : Z)
    (r : TestRunResult) :
  let st := forEach lines (generic_step rx) (n, r) in
  (n <= fst st)%Z /\ success (snd st) = success r /\
  summary (snd st) = summary r /\ rawOutput (snd st) = rawOutput r /\
  rawError (snd st) = rawError r.
Proof.
  revert n r. unfold forEach.
  induction lines as [|line lines IH]; intros n r; cbn [fold_left].
  - cbn. repeat split. lia.
  - pose proof (generic_step_frame rx line n r) as Hstep.
    destruct (generic_step rx line (n, r)) as [n1 r1].
    cbn [fst snd] in Hstep. destruct Hstep as (Hn & Hs & Hm & Ho & He).
    destruct (IH n1 r1) as (Hn' & Hs' & Hm' & Ho' & He').
    rewrite Hs', Hm', Ho', He'. repeat split; try assumption. lia.
Qed.

(** The summary and the verdict of the generic parser, from the number of
    result-like lines it saw. *)
Lemma generic_result (rx : regex) (stdout stderr : jsstring) (r : TestRunResult) :
  exists tot ok,
    (1 <= tot)%Z /\
    success (parseGenericResults rx stdout stderr r) = VBool ok /\
    summary (parseGenericResults rx stdout stderr r) =
      (if ok
       then mkSummary (VNum tot) (VNum tot) (failed (summary r))
              (skipped (summary r)) (duration (summary r))
       else mkSummary (VNum tot) (VNum (tot - 1)) (VNum 1)
              (skipped (summary r)) (duration (summary r))) /\
    rawOutput (parseGenericResults rx stdout stderr r) = rawOutput r /\
    rawError (parseGenericResults rx stdout stderr r) = rawError r.
Proof.
  unfold parseGenericResults.
  set (ok := negb _).
  set (r1 := set_success (VBool ok) r).
  destruct (generic_loop_frame rx (split_lines (combined stdout stderr)) 0 r1)
    as (Hn & Hs & Hm & Ho & He).
  cbv zeta in Hn, Hs, Hm, Ho, He.
  destruct (forEach (split_lines (combined stdout stderr)) (generic_step rx) (0%Z, r1))
    as [testCount r2].
  cbn [fst snd] in Hn, Hs, Hm, Ho, He.
  exists (if Z.eqb testCount 0 then 1%Z else testCount), ok.
  split.
  { destruct (Z.eqb_spec testCount 0); lia. }
  destruct ok; cbn [set_passed set_failed set_total set_summary success summary
    rawOutput rawError total passed failed skipped duration];
    rewrite Hs, Hm, Ho, He; repeat split.
Qed.

(** ** The generic fallback parser *)

Lemma generic_degraded (rx : regex) (stdout stderr : jsstring) (r : TestRunResult) :
  failed (summary r) = VNum 0 -> skipped (summary r) = VNum 0 ->
  degraded (parseGenericResults rx stdout stderr r).
Proof.
  intros Hf Hk.
  destruct (generic_result rx stdout stderr r) as (tot & ok & Htot & Hs & Hm & _ & _).
  unfold degraded. rewrite Hs, Hm.
  destruct ok; cbn [total passed failed skipped].
  - exists tot, tot, 0%Z. rewrite Hf, Hk. repeat split; try lia.
  - exists tot, (tot - 1)%Z, 1%Z. rewrite Hk. repeat split; try lia.
Qed.

(** C10, as stated, fails: the Jest parser of the unit agent hands the generic
    parser the result object it has already written to.  On the output
    {"numPendingTests": 2} the JSON is read, skipped becomes 2 and failed
    undefined, the missing testResults throws, and the generic parser returns
    total 1 and passed 1 with those two fields as it found them. *)
Lemma generic_parser_keeps_stale_counts :
  let stdout := lit "{" ++ World.quoted "numPendingTests" ++ lit ": 2}" in
  let parsed := VObj [(lit "numPendingTests", VNum 2)] in
  let JSON_parse text := if JsString.eqb text stdout then Some parsed else None in
  exists r : TestRunResult,
    UnitTestAgent._parseTestResults JSON_parse (fun _ => []) stdout [] (lit "jest")
    = Normal r /\
    r = UnitTestAgent._parseGenericResults stdout []
          (set_skipped (VNum 2)
             (set_failed VUndefined
                (set_passed VUndefined
                   (set_total VUndefined
                      (set_success VUndefined
                         (UnitTestAgent.standardResult0 stdout [])))))) /\
    success r = VBool true /\
    summary r = mkSummary (VNum 1) (VNum 1) VUndefined (VNum 2) (DurVal (VNum 0)) /\
    ~ degraded r.
Proof.
  cbv zeta. eexists. split; [vm_compute; reflexivity|].
  split; [vm_compute; reflexivity|].
  split; [vm_compute; reflexivity|].
  split; [vm_compute; reflexivity|].
  intros (tot & p & f & _ & _ & _ & Hk & _). vm_compute in Hk. discriminate Hk.
Qed.

(** C10, amended: for every stdout and stderr, the generic fallback parser of
    either agent, run on a result object whose failed and skipped counts are
    still 0 (the fresh object of the dispatchers), reports no skipped test,
    a total of at least one, and passed + failed = total: all passed when
    the verdict is success, one failure and total - 1 passes otherwise. *)
Theorem generic_parser_is_degraded (stdout stderr : jsstring) (r : TestRunResult) :
  failed (summary r) = VNum 0 -> skipped (summary r) = VNum 0 ->
  degraded (UnitTestAgent._parseGenericResults stdout stderr r) /\
  degraded (IntegrationAgent._parseGenericResults stdout stderr r).
Proof.
  intros Hf Hk. split; apply generic_degraded; assumption.
Qed.

Lemma generic_parser_is_degraded_witness :
  degraded
    (UnitTestAgent._parseGenericResults (lit "should add numbers: pass") []
       (UnitTestAgent.standardResult0 (lit "should add numbers: pass") [])) /\
  degraded
    (IntegrationAgent._parseGenericResults (lit "should add numbers: pass") []
       (UnitTestAgent.standardResult0 (lit "should add numbers: pass") [])).
Proof.
  apply (generic_parser_is_degraded (lit "should add numbers: pass") []
           (UnitTestAgent.standardResult0 (lit "should add numbers: pass") []));
    reflexivity.
Defined.

(** ** The summary-line scenario *)

(** C8: on the output "Tests: 3 passed, 1 failed, 4 total" with an empty
    stderr, the parser of the frameworks that print this line (tags jest and
    jest-dom of the integration agent) returns total 4, passed 3, failed 1,
    skipped 0 and success false. *)
Theorem jest_summary_line_scenario (elapsed : Z) :
  let stdout := lit "Tests: 3 passed, 1 failed, 4 total" in
  exists r : TestRunResult,
    IntegrationAgent._parseIntegrationTestResults stdout [] (lit "jest") elapsed
      = Normal r /\
    IntegrationAgent._parseIntegrationTestResults stdout [] (lit "jest-dom") elapsed
      = Normal r /\
    counts (summary r) = Some (4, 3, 1, 0)%Z /\
    success r = VBool false.
Proof.
  cbv zeta. eexists. repeat split; vm_compute; reflexivity.
Qed.

(** ** Numbers *)

Module NumberFacts.

Import JsNumber.

(** Integers up to 2^53 in magnitude are doubles. *)
Lemma round_exact (z : Z) : (Z.abs z <= 2 ^ 53)%Z -> round z = Num z.
Proof.
  intros H. unfold round. cbv zeta.
  destruct (Z.leb_spec (Z.abs z) (2 ^ 53)) as [_|Hgt]; [reflexivity|lia].
Qed.

Lemma round_counted (z : Z) : (0 <= z)%Z -> counted (round z).
Proof.
  intros Hz. unfold round. cbv zeta.
  destruct (Z.abs z <=? 2 ^ 53)%Z; [exact Hz|].
  set (e := (Z.log2 (Z.abs z) - 52)%Z).
  set (m := (Z.abs z / 2 ^ e)%Z).
  set (m' := if (Z.abs z mod 2 ^ e <? 2 ^ (e - 1))%Z then m
             else if (2 ^ (e - 1) <? Z.abs z mod 2 ^ e)%Z then (m + 1)%Z
             else if Z.even m then m else (m + 1)%Z).
  assert (Hm : (0 <= m)%Z).
  { unfold m. apply Z_div_nonneg_nonneg; [lia|apply Z.pow_nonneg; lia]. }
  assert (Hm' : (0 <= m')%Z).
  { unfold m'.
    repeat match goal with |- context [if ?b then _ else _] => destruct b end;
      lia. }
  destruct (2 ^ 1024 <=? m' * 2 ^ e)%Z.
  - destruct (Z.ltb_spec z 0); [lia|exact I].
  - cbn [counted].
    assert (0 <= 2 ^ e)%Z by (apply Z.pow_nonneg; lia).
    assert (0 <= Z.sgn z)%Z by lia. nia.
Qed.

Lemma add_counted (x y : number) : counted x -> counted y -> counted (add x y).
Proof.
  destruct x as [a| | |], y as [b| | |]; cbn [counted add]; try tauto.
  intros Ha Hb. apply round_counted. lia.
Qed.

Lemma eqb_counted (x : number) : counted x -> eqb x x = true.
Proof.
  destruct x as [a| | |]; cbn [counted eqb]; try tauto; try reflexivity.
  intros _. apply Z.eqb_refl.
Qed.

Lemma eqb_eq (x y : number) : eqb x y = true -> x = y.
Proof.
  destruct x, y; cbn [eqb]; try discriminate; try reflexivity.
  intros H. apply Z.eqb_eq in H. congruence.
Qed.

Lemma digits_value_nonneg (s : jsstring) :
  forallb is_digit s = true -> (0 <= digits_value s)%Z.
Proof.
  unfold digits_value.
  assert (H : forall acc, (0 <= acc)%Z -> forallb is_digit s = true ->
            (0 <= fold_left (fun acc c => 10 * acc + (Z.of_N c - 48))%Z s acc)%Z).
  { induction s as [|c s IH]; intros acc Hacc Hs; cbn [fold_left]; [exact Hacc|].
    cbn [forallb] in Hs. apply andb_true_iff in Hs as [Hc Hs].
    apply IH; [|exact Hs]. unfold is_digit in Hc.
    apply andb_true_iff in Hc as [Hlo _]. apply N.leb_le in Hlo. lia. }
  apply H. lia.
Qed.

Lemma parseInt_counted (s : jsstring) :
  s <> [] -> forallb is_digit s = true -> counted (parseInt s).
Proof.
  intros Hne H. unfold parseInt. destruct s as [|c s]; [contradiction|].
  apply round_counted, digits_value_nonneg, H.
Qed.

End NumberFacts.

(** ** What a match captures *)

Module CaptureFacts.

Lemma plus_greedy_sound {A : Type} (p : N -> bool) (s : jsstring)
    (k : jsstring -> option A) (a : A) :
  plus_greedy p s k = Some a ->
  exists l s', l <> [] /\ forallb p l = true /\ s = l ++ s' /\ k s' = Some a.
Proof.
  induction s as [|x s IH]; cbn [plus_greedy]; [discriminate|].
  destruct (p x) eqn:Hx; [|discriminate].
  destruct (plus_greedy p s k) as [a'|] eqn:Hrec.
  - intros [= ->]. destruct (IH eq_refl) as (l & s' & _ & Hl & -> & Hk).
    exists (x :: l), s'. cbn [forallb app]. rewrite Hx, Hl.
    repeat split; [discriminate|exact Hk].
  - intros Hk. exists [x], s. cbn [forallb app]. rewrite Hx.
    repeat split; [discriminate|exact Hk].
Qed.

(** Whatever the matcher answers, it answers through a match of the
    pattern. *)
Lemma run_sound {A : Type} (ic : bool) (r : re) :
  forall (s : jsstring) (cs : captures) (k : jsstring -> captures -> option A)
         (a : A),
    run ic r s cs k = Some a ->
    exists s' cs', consumes ic r s cs s' cs' /\ k s' cs' = Some a.
Proof.
  induction r as [|c|p|p|r1 IH1 r2 IH2|r1 IH1 r2 IH2|r1 IH1|i r1 IH1];
    intros s cs k a; cbn [run consumes].
  - intros H. exists s, cs. auto.
  - destruct s as [|x s']; [discriminate|].
    destruct (chr_match ic c x) eqn:Hc; [|discriminate].
    intros H. exists s', cs. split; [exists x; auto|exact H].
  - destruct s as [|x s']; [discriminate|].
    destruct (p x) eqn:Hp; [|discriminate].
    intros H. exists s', cs. split; [exists x; auto|exact H].
  - intros H. apply plus_greedy_sound in H as (l & s' & Hne & Hl & Hs & Hk).
    exists s', cs. split; [exists l; auto|exact Hk].
  - intros H. apply IH1 in H as (s1 & cs1 & H1 & H).
    apply IH2 in H as (s' & cs' & H2 & H).
    exists s', cs'. split; [exists s1, cs1; auto|exact H].
  - destruct (run ic r1 s cs k) as [a'|] eqn:H1.
    + intros [= ->]. apply IH1 in H1 as (s' & cs' & H1 & H).
      exists s', cs'. auto.
    + intros H. apply IH2 in H as (s' & cs' & H2 & H). exists s', cs'. auto.
  - destruct (run ic r1 s cs k) as [a'|] eqn:H1.
    + intros [= ->]. apply IH1 in H1 as (s' & cs' & H1 & H).
      exists s', cs'. auto.
    + intros H. exists s, cs. auto.
  - intros H. apply IH1 in H as (s' & cs1 & H1 & H).
    eexists s', _. split; [exists cs1; split; [exact H1|reflexivity]|exact H].
Qed.

(** The captures of [s.match(rx)] are those of a match of the pattern
    somewhere in [s]. *)
Lemma js_match_sound (rx : regex) (s : jsstring) (cs : captures) :
  js_match rx s = Some cs ->
  exists t t', consumes (ignoreCase rx) (Grp 0 (body rx)) t [] t' cs.
Proof.
  assert (Hhere : forall t, match_here rx t = Some cs ->
            exists t', consumes (ignoreCase rx) (Grp 0 (body rx)) t [] t' cs).
  { intros t H. unfold match_here in H.
    apply run_sound in H as (t' & cs' & H & [= ->]). exists t'. exact H. }
  unfold js_match. destruct (anchored rx).
  - intros H. exists s. apply Hhere, H.
  - induction s as [|c s IH]; cbn [search].
    + destruct (match_here rx []) eqn:Hm; [|discriminate].
      intros [= ->]. exists []. apply Hhere, Hm.
    + destruct (match_here rx (c :: s)) eqn:Hm.
      * intros [= ->]. exists (c :: s). apply Hhere, Hm.
      * exact IH.
Qed.

Lemma firstn_consumed {A : Type} (l s' : list A) :
  firstn (List.length (l ++ s') - List.length s') (l ++ s') = l.
Proof.
  rewrite length_app.
  replace (List.length l + List.length s' - List.length s')%nat
    with (List.length l + 0)%nat by lia.
  rewrite firstn_app_2. cbn [firstn]. apply app_nil_r.
Qed.

Lemma consumes_digits (i : nat) (ic : bool) (r : re) :
  forall s cs s' cs',
    consumes ic r s cs s' cs' -> digit_group i r ->
    (digits_at i cs -> digits_at i cs') /\
    (sets i r = true -> digits_at i cs').
Proof.
  induction r as [|c|p|p|r1 IH1 r2 IH2|r1 IH1 r2 IH2|r1 IH1|j r1 IH1];
    intros s cs s' cs'; cbn [consumes digit_group sets].
  - intros [_ ->] _. split; [auto|discriminate].
  - intros (x & _ & _ & ->) _. split; [auto|discriminate].
  - intros (x & _ & _ & ->) _. split; [auto|discriminate].
  - intros (l & _ & _ & _ & ->) _. split; [auto|discriminate].
  - intros (s1 & cs1 & H1 & H2) [D1 D2].
    destruct (IH1 _ _ _ _ H1 D1) as [K1 S1].
    destruct (IH2 _ _ _ _ H2 D2) as [K2 S2].
    split; [auto|]. intros Hs. apply orb_true_iff in Hs as [Hs|Hs]; auto.
  - intros [H|H] [D1 D2].
    + destruct (IH1 _ _ _ _ H D1) as [K1 S1]. split; [auto|].
      intros Hs. apply andb_true_iff in Hs as [Hs _]. auto.
    + destruct (IH2 _ _ _ _ H D2) as [K2 S2]. split; [auto|].
      intros Hs. apply andb_true_iff in Hs as [_ Hs]. auto.
  - intros [H|[_ ->]] D1; [|split; [auto|discriminate]].
    destruct (IH1 _ _ _ _ H D1) as [K1 _]. split; [auto|discriminate].
  - intros (cs1 & H1 & ->) [Dj D1].
    destruct (Nat.eqb i j) eqn:Hij.
    + subst r1. cbn [consumes d_plus] in H1.
      destruct H1 as (l & Hne & Hl & -> & ->).
      assert (Hd : digits_at i
                 ((j, firstn (List.length (l ++ s') - List.length s') (l ++ s'))
                  :: cs)).
      { exists l. unfold group. rewrite Hij, firstn_consumed. auto. }
      split; intros _; exact Hd.
    + destruct (IH1 _ _ _ _ H1 D1) as [K1 S1].
      assert (Hg : forall c, digits_at i c ->
                digits_at i ((j, firstn (List.length s - List.length s') s) :: c)).
      { intros c (d & Hd & Hall). exists d. cbn [group]. rewrite Hij. auto. }
      cbn [orb]. split; auto.
Qed.

Lemma sets_Str (i : nat) (p : string) : sets i (Str p) = false.
Proof. unfold Str. induction (lit p) as [|c l IH]; [reflexivity|exact IH]. Qed.

Lemma digit_group_Str (i : nat) (p : string) : digit_group i (Str p).
Proof.
  unfold Str. induction (lit p) as [|c l IH]; cbn [fold_right digit_group]; auto.
Qed.

(** A group [(\d+)] that takes part in every match of the pattern holds a run
    of digits whenever [s.match(rx)] is not null. *)
Lemma js_match_digits (rx : regex) (s : jsstring) (cs : captures) (i : nat) :
  js_match rx s = Some cs -> i <> 0%nat ->
  digit_group i (body rx) -> sets i (body rx) = true ->
  digits_at i cs.
Proof.
  intros Hm Hi Hd Hs. apply js_match_sound in Hm as (t & t' & Hm).
  eapply (consumes_digits i) in Hm as [_ Hm].
  - apply Hm. cbn [sets]. rewrite Hs. apply orb_true_r.
  - cbn [digit_group]. apply Nat.eqb_neq in Hi. rewrite Hi. auto.
Qed.

(** Shows that a group of a pattern made of literals and groups is a
    [(\d+)] that always takes part. *)
Ltac digit_group_tac :=
  cbn [body plain cat digit_group Nat.eqb d_plus s_plus w_plus];
  repeat split; try apply digit_group_Str.

Ltac sets_tac :=
  cbn [body plain cat sets Nat.eqb]; rewrite ?sets_Str; reflexivity.

(** The count that follows a match of a count pattern is a natural number or
    the infinity. *)
Lemma nth_group_counted (rx : regex) (s : jsstring) (cs : captures) (i : nat) :
  js_match rx s = Some cs -> i <> 0%nat ->
  digit_group i (body rx) -> sets i (body rx) = true ->
  counted (parseInt (nth_group i cs)).
Proof.
  intros Hm Hi Hd Hs.
  destruct (js_match_digits rx s cs i Hm Hi Hd Hs) as (d & Hg & Hne & Hall).
  unfold nth_group. rewrite Hg. apply NumberFacts.parseInt_counted; assumption.
Qed.

Lemma count_or_zero_counted (rx : regex) (s : jsstring) :
  digit_group 1 (body rx) -> sets 1 (body rx) = true ->
  counted (num_of (count_or_zero (js_match rx s) 1)).
Proof.
  intros Hd Hs. unfold count_or_zero.
  destruct (js_match rx s) as [cs|] eqn:Hm; [|cbn; lia].
  destruct (js_match_digits rx s cs 1 Hm ltac:(discriminate) Hd Hs)
    as (d & Hg & Hne & Hall).
  rewrite Hg. apply NumberFacts.parseInt_counted; assumption.
Qed.

Lemma count_rx_counted (word : string) (s : jsstring) :
  counted (num_of (count_or_zero (js_match (count_rx word) s) 1)).
Proof.
  apply count_or_zero_counted; unfold count_rx; [digit_group_tac|sets_tac].
Qed.

End CaptureFacts.

(** ** Totals and sums *)

Lemma count_or_zero_num (m : option captures) (i : nat) :
  count_or_zero m i = VNum (num_of (count_or_zero m i)).
Proof.
  unfold count_or_zero. destruct m as [cs|]; [destruct (group i cs)|]; reflexivity.
Qed.

Lemma adds_up_numbers (s : Summary) (t p f k : number) :
  numbers s = Some (t, p, f, k) -> (adds_up s <-> sums_to t p f k).
Proof.
  unfold numbers, adds_up.
  destruct (total s), (passed s), (failed s), (skipped s); try discriminate.
  intros [= <- <- <- <-]. split.
  - intros (t' & p' & f' & k' & [= <-] & [= <-] & [= <-] & [= <-] & H). exact H.
  - intros H. eauto 10.
Qed.

Ltac summary_of_parser :=
  repeat rewrite forEach_push_summary;
  cbn [summary success set_success set_summary set_total set_passed set_failed
       set_skipped set_duration total passed failed skipped duration].

Lemma python_numbers (stdout stderr : jsstring) (r : TestRunResult) :
  let output := combined stdout stderr in
  numbers (summary (UnitTestAgent._parsePythonResults stdout stderr r)) =
    Some (first_count collected_rx output, first_count (count_rx "passed") output,
          first_count (count_rx "failed") output,
          first_count (count_rx "skipped") output).
Proof.
  cbv zeta. unfold UnitTestAgent._parsePythonResults. summary_of_parser.
  unfold numbers, first_count. cbn [total passed failed skipped].
  rewrite (count_or_zero_num (js_match collected_rx _)),
          (count_or_zero_num (js_match (count_rx "passed") _)),
          (count_or_zero_num (js_match (count_rx "failed") _)),
          (count_or_zero_num (js_match (count_rx "skipped") _)).
  reflexivity.
Qed.

Lemma pytest_numbers (stdout stderr : jsstring) (r : TestRunResult) :
  let output := combined stdout stderr in
  numbers (summary (IntegrationAgent._parsePytestResults stdout stderr r)) =
    Some (first_count collected_rx output, first_count (count_rx "passed") output,
          first_count (count_rx "failed") output,
          first_count (count_rx "skipped") output).
Proof.
  cbv zeta. unfold IntegrationAgent._parsePytestResults. summary_of_parser.
  destruct (js_match in_seconds_rx _); summary_of_parser;
    unfold numbers, first_count; cbn [total passed failed skipped];
    rewrite (count_or_zero_num (js_match collected_rx _)),
            (count_or_zero_num (js_match (count_rx "passed") _)),
            (count_or_zero_num (js_match (count_rx "failed") _)),
            (count_or_zero_num (js_match (count_rx "skipped") _));
    reflexivity.
Qed.

Lemma jest_numbers (stdout stderr : jsstring) (elapsed : Z) :
  let output := combined stdout stderr in
  numbers (summary (IntegrationAgent._parseJestResults stdout stderr
                      (IntegrationAgent.standardResult0 stdout stderr elapsed))) =
    Some (fst (fst (jest_reported output)), snd (fst (jest_reported output)),
          snd (jest_reported output), first_count (count_rx "skipped") output).
Proof.
  cbv zeta. unfold IntegrationAgent._parseJestResults, jest_reported, first_count,
    count_or_zero, nth_group.
  summary_of_parser.
  destruct (js_match IntegrationAgent.jest_summary_rx _) as [cs|];
    destruct (js_match (count_rx "skipped") _) as [ks|];
    try destruct (group 1 ks); reflexivity.
Qed.

Lemma sum_adds_up (p f k : number) (d : durval) :
  counted p -> counted f -> counted k ->
  adds_up (mkSummary (VNum (JsNumber.add (JsNumber.add p f) k))
             (VNum p) (VNum f) (VNum k) d).
Proof.
  intros Hp Hf Hk. exists (JsNumber.add (JsNumber.add p f) k), p, f, k.
  repeat split. unfold sums_to.
  apply NumberFacts.eqb_counted; repeat apply NumberFacts.add_counted; assumption.
Qed.

Lemma zero_adds_up (d : durval) :
  adds_up (mkSummary (VNum 0) (VNum 0) (VNum 0) (VNum 0) d).
Proof. exists (Num 0), (Num 0), (Num 0), (Num 0). repeat split. Qed.

Lemma mocha_adds_up (stdout stderr : jsstring) (r : TestRunResult) :
  adds_up (summary (IntegrationAgent._parseMochaResults stdout stderr r)).
Proof.
  unfold IntegrationAgent._parseMochaResults. summary_of_parser.
  rewrite (count_or_zero_num (js_match (count_rx "passing") _)),
          (count_or_zero_num (js_match (count_rx "failing") _)),
          (count_or_zero_num (js_match (count_rx "pending") _)).
  cbn [num_of]. apply sum_adds_up; apply CaptureFacts.count_rx_counted.
Qed.

Lemma cypress_adds_up (stdout stderr : jsstring) (elapsed : Z) :
  adds_up (summary (IntegrationAgent._parseCypressResults stdout stderr
                      (IntegrationAgent.standardResult0 stdout stderr elapsed))).
Proof.
  unfold IntegrationAgent._parseCypressResults. summary_of_parser.
  destruct (matches IntegrationAgent.cypress_any_rx _); summary_of_parser.
  - rewrite (count_or_zero_num (js_match (count_rx "passing") _)),
            (count_or_zero_num (js_match (count_rx "failing") _)),
            (count_or_zero_num (js_match (count_rx "pending") _)).
    cbn [num_of]. apply sum_adds_up; apply CaptureFacts.count_rx_counted.
  - apply zero_adds_up.
Qed.

Lemma behave_rx_counted (what : string) (s : jsstring) (cs : captures) :
  js_match (IntegrationAgent.behave_rx what) s = Some cs ->
  counted (parseInt (nth_group 1 cs)) /\ counted (parseInt (nth_group 2 cs)) /\
  counted (parseInt (nth_group 3 cs)).
Proof.
  intros Hm.
  repeat split;
    (eapply CaptureFacts.nth_group_counted;
     [exact Hm|discriminate
     |unfold IntegrationAgent.behave_rx; CaptureFacts.digit_group_tac
     |unfold IntegrationAgent.behave_rx; CaptureFacts.sets_tac]).
Qed.

Lemma behave_adds_up (stdout stderr : jsstring) (elapsed : Z) :
  adds_up (summary (IntegrationAgent._parseBehaveResults stdout stderr
                      (IntegrationAgent.standardResult0 stdout stderr elapsed))).
Proof.
  unfold IntegrationAgent._parseBehaveResults, IntegrationAgent.behave_counts.
  summary_of_parser.
  destruct (js_match (IntegrationAgent.behave_rx "scenarios") _) as [cs|] eqn:Hs;
    [|destruct (js_match (IntegrationAgent.behave_rx "steps") _) as [cs|] eqn:Ht];
    summary_of_parser; try apply zero_adds_up;
    [apply behave_rx_counted in Hs as (H1 & H2 & H3)
    |apply behave_rx_counted in Ht as (H1 & H2 & H3)];
    apply sum_adds_up; assumption.
Qed.

Lemma rust_adds_up (stdout stderr : jsstring) :
  adds_up (summary (UnitTestAgent._parseRustResults stdout stderr
                      (UnitTestAgent.standardResult0 stdout stderr))).
Proof.
  unfold UnitTestAgent._parseRustResults. summary_of_parser.
  destruct (js_match UnitTestAgent.rust_summary_rx _) as [cs|] eqn:Hm;
    destruct (js_match UnitTestAgent.rust_time_rx _);
    summary_of_parser; try apply zero_adds_up;
    apply sum_adds_up;
    (eapply CaptureFacts.nth_group_counted;
     [exact Hm|discriminate
     |unfold UnitTestAgent.rust_summary_rx; CaptureFacts.digit_group_tac
     |unfold UnitTestAgent.rust_summary_rx; CaptureFacts.sets_tac]).
Qed.

(** C1, as stated, fails: a pytest run that reports an error besides its
    passes has total 3 and counts that sum to 2; a Jest run whose output
    mentions a skipped suite has total 4 and counts that sum to 5. *)
Lemma total_differs_from_sum :
  (exists r : TestRunResult,
     IntegrationAgent._parseIntegrationTestResults
       (lit "collected 3 items" ++ nl ++ lit "2 passed, 1 error in 0.10s") []
       (lit "pytest") 0 = Normal r /\
     counts (summary r) = Some (3, 2, 0, 0)%Z /\ ~ adds_up (summary r)) /\
  (exists r : TestRunResult,
     IntegrationAgent._parseIntegrationTestResults
       (lit "Test Suites: 1 skipped, 2 passed, 3 total" ++ nl ++
        lit "Tests: 3 passed, 1 failed, 4 total") []
       (lit "jest") 0 = Normal r /\
     counts (summary r) = Some (4, 3, 1, 1)%Z /\ ~ adds_up (summary r)).
Proof.
  split; eexists; (split; [vm_compute; reflexivity|]);
    (split; [vm_compute; reflexivity|]);
    intros H; (eapply adds_up_numbers in H; [|vm_compute; reflexivity]);
    vm_compute in H; discriminate H.
Qed.

(** Counts beyond the exact integers are compared as the doubles they are
    read as: "collected 9007199254740993 items" is read as 2^53, and with
    2^53 tests passed the summary adds up. *)
Lemma rounded_counts_add_up :
  exists r : TestRunResult,
    IntegrationAgent._parseIntegrationTestResults
      (lit "collected 9007199254740993 items" ++ nl ++
       lit "9007199254740992 passed") []
      (lit "pytest") 0 = Normal r /\
    counts (summary r)
    = Some (9007199254740992, 9007199254740992, 0, 0)%Z /\
    adds_up (summary r).
Proof.
  eexists. split; [vm_compute; reflexivity|]. split; [vm_compute; reflexivity|].
  apply (adds_up_numbers _ (Num 9007199254740992) (Num 9007199254740992)
           (Num 0) (Num 0)); vm_compute; reflexivity.
Qed.

(** C1, amended: the parsers that compute the total as the sum of the three
    counts (Mocha, Cypress and Behave of the integration agent, Rust of the
    unit agent) satisfy total === passed + failed + skipped on every input,
    the sum being the one JavaScript computes.  The pytest parsers and the
    Jest parser of the integration agent copy each field from its own
    pattern, so the equation holds exactly when the number of "collected N
    items" (of "N total") is equal, as a JavaScript number, to the sum of
    the other counts found in the text. *)
Theorem total_is_sum_when_text_agrees (stdout stderr : jsstring) (elapsed : Z)
    (r : TestRunResult) :
  let output := combined stdout stderr in
  let found word := first_count (count_rx word) output in
  (adds_up (summary (UnitTestAgent._parsePythonResults stdout stderr r)) <->
   sums_to (first_count collected_rx output)
     (found "passed") (found "failed") (found "skipped")) /\
  (adds_up (summary (IntegrationAgent._parsePytestResults stdout stderr r)) <->
   sums_to (first_count collected_rx output)
     (found "passed") (found "failed") (found "skipped")) /\
  (adds_up (summary (IntegrationAgent._parseJestResults stdout stderr
                       (IntegrationAgent.standardResult0 stdout stderr elapsed))) <->
   sums_to (fst (fst (jest_reported output))) (snd (fst (jest_reported output)))
     (snd (jest_reported output)) (found "skipped")) /\
  adds_up (summary (IntegrationAgent._parseMochaResults stdout stderr r)) /\
  adds_up (summary (IntegrationAgent._parseCypressResults stdout stderr
                      (IntegrationAgent.standardResult0 stdout stderr elapsed))) /\
  adds_up (summary (IntegrationAgent._parseBehaveResults stdout stderr
                      (IntegrationAgent.standardResult0 stdout stderr elapsed))) /\
  adds_up (summary (UnitTestAgent._parseRustResults stdout stderr
                      (UnitTestAgent.standardResult0 stdout stderr))).
Proof.
  cbv zeta.
  split; [apply adds_up_numbers, python_numbers|].
  split; [apply adds_up_numbers, pytest_numbers|].
  split; [apply adds_up_numbers, jest_numbers|].
  split; [apply mocha_adds_up|].
  split; [apply cypress_adds_up|].
  split; [apply behave_adds_up|apply rust_adds_up].
Qed.

(** ** Where the verdict comes from *)

Ltac verdict_of_parser :=
  repeat first [rewrite forEach_push_success | rewrite forEach_push_summary];
  cbn [summary success set_success set_summary set_total set_passed set_failed
       set_skipped set_duration total passed failed skipped duration].

Lemma jest_verdict (stdout stderr : jsstring) (r : TestRunResult) :
  success (IntegrationAgent._parseJestResults stdout stderr r) =
  VBool (includes_s "PASS" (combined stdout stderr)
         && negb (includes_s "FAIL" (combined stdout stderr))).
Proof.
  unfold IntegrationAgent._parseJestResults. verdict_of_parser.
  destruct (js_match IntegrationAgent.jest_summary_rx _);
    destruct (js_match (count_rx "skipped") _); reflexivity.
Qed.

(** C7, as stated, fails: on Jest output with the token PASS and the summary
    line "Tests: 1 passed, 1 failed, 2 total" the summary reports a failure
    and the verdict is success all the same. *)
Lemma jest_verdict_ignores_summary :
  exists r : TestRunResult,
    IntegrationAgent._parseIntegrationTestResults
      (lit "PASS src/a.test.js" ++ nl ++ lit "Tests: 1 passed, 1 failed, 2 total") []
      (lit "jest") 0 = Normal r /\
    counts (summary r) = Some (2, 1, 1, 0)%Z /\
    success r = VBool true.
Proof.
  eexists. repeat split; vm_compute; reflexivity.
Qed.

(** C7, amended: the Jest parser of the integration agent takes the verdict
    from tokens alone, success being the presence of PASS and the absence of
    FAIL in the combined output, whatever the summary line reports; the
    pytest, Java and Behave parsers take it from the summary, success being
    summary.failed === 0. *)
Theorem verdict_sources (stdout stderr : jsstring) (r : TestRunResult) :
  let output := combined stdout stderr in
  let from_summary r' := success r' = VBool (is_zero (failed (summary r'))) in
  success (IntegrationAgent._parseJestResults stdout stderr r)
  = VBool (includes_s "PASS" output && negb (includes_s "FAIL" output)) /\
  from_summary (UnitTestAgent._parsePythonResults stdout stderr r) /\
  from_summary (IntegrationAgent._parsePytestResults stdout stderr r) /\
  from_summary (UnitTestAgent._parseJavaResults stdout stderr r) /\
  from_summary (IntegrationAgent._parseJavaResults stdout stderr r) /\
  from_summary (IntegrationAgent._parseBehaveResults stdout stderr r).
Proof.
  cbv zeta.
  split; [apply jest_verdict|].
  split; [unfold UnitTestAgent._parsePythonResults; verdict_of_parser; reflexivity|].
  split.
  { unfold IntegrationAgent._parsePytestResults. verdict_of_parser.
    destruct (js_match in_seconds_rx _); reflexivity. }
  split.
  { unfold UnitTestAgent._parseJavaResults. verdict_of_parser.
    destruct (js_match surefire_rx _); destruct (js_match time_elapsed_rx _);
      reflexivity. }
  split.
  { unfold IntegrationAgent._parseJavaResults. verdict_of_parser.
    destruct (js_match surefire_rx _); destruct (js_match time_elapsed_rx _);
      reflexivity. }
  unfold IntegrationAgent._parseBehaveResults, IntegrationAgent.behave_counts.
  verdict_of_parser.
  destruct (js_match (IntegrationAgent.behave_rx "scenarios") _);
    [|destruct (js_match (IntegrationAgent.behave_rx "steps") _)]; reflexivity.
Qed.

(** ** The dispatchers always return *)

Section Dispatch.

Variable JSON_parse : jsstring -> option jsval.
Variable ToString : jsval -> jsstring.








End Dispatch.



(** ** The supervised process *)

Module RunnerFacts.

Import IntegrationAgent.

Lemma forEach_app {A S : Type} (f : A -> S -> S) (l1 l2 : list A) (s : S) :
  forEach (l1 ++ l2) f s = forEach l2 f (forEach l1 f s).
Proof. unfold forEach. apply fold_left_app. Qed.

(** Neither [log_write] nor [disarm] nor [kill] touches the promise or the
    buffers. *)
Lemma log_write_frame (o : Options) (entry : log_entry) (st : proc_state) :
  let st' := log_write o entry st in
  stdout_buf st' = stdout_buf st /\ stderr_buf st' = stderr_buf st /\
  timer_armed st' = timer_armed st /\ promise st' = promise st.
Proof. unfold log_write. destruct (logStream o); repeat split. Qed.

Lemma log_write_promise (o : Options) (entry : log_entry) (st : proc_state) :
  promise (log_write o entry st) = promise st.
Proof. apply log_write_frame. Qed.

(** A settled promise stays as it is. *)
Lemma settled_handle (command : jsstring) (o : Options) (ev : proc_event)
    (st : proc_state) :
  promise st <> Pending -> promise (handle command o ev st) = promise st.
Proof.
  intros Hset.
  assert (Hsw : forall s st', promise st' = promise st ->
                              promise (settle_with s st') = promise st).
  { intros s st' Heq. unfold settle_with. rewrite Heq.
    destruct (promise st); try congruence. }
  destruct ev; cbn [handle].
  - rewrite log_write_promise. reflexivity.
  - rewrite log_write_promise. reflexivity.
  - destruct (timer_armed st); [apply Hsw|]; reflexivity.
  - destruct (is_exit_zero code); apply Hsw; rewrite log_write_promise;
      reflexivity.
  - apply Hsw. rewrite log_write_promise. reflexivity.
Qed.

Lemma settled_run (command : jsstring) (o : Options) (events : list proc_event)
    (st : proc_state) :
  promise st <> Pending ->
  promise (forEach events (handle command o) st) = promise st.
Proof.
  revert st. unfold forEach.
  induction events as [|ev events IH]; intros st Hset; cbn [fold_left].
  - reflexivity.
  - rewrite IH; [apply settled_handle; assumption|].
    rewrite settled_handle; assumption.
Qed.

(** While only output arrives the buffers grow by exactly that output, the
    timer stays as it is and the promise stays pending. *)
Lemma data_run (command : jsstring) (o : Options) (pre : list proc_event)
    (st : proc_state) :
  forallb is_data pre = true ->
  let st' := forEach pre (handle command o) st in
  stdout_buf st' = stdout_buf st ++ stdout_of pre /\
  stderr_buf st' = stderr_buf st ++ stderr_of pre /\
  timer_armed st' = timer_armed st /\ promise st' = promise st.
Proof.
  revert st. unfold forEach.
  induction pre as [|ev pre IH]; intros st Hdata; cbn [fold_left].
  - cbn. rewrite !app_nil_r. repeat split.
  - cbn [forallb] in Hdata. apply andb_prop in Hdata. destruct Hdata as [Hev Hpre].
    destruct (IH (handle command o ev st) Hpre) as (Ho & He & Ht & Hp).
    rewrite Ho, He, Ht, Hp.
    destruct ev; try discriminate Hev; cbn [handle stdout_of stderr_of];
      match goal with
      | |- context [log_write ?o ?e ?s] =>
          destruct (log_write_frame o e s) as (Ho' & He' & Ht' & Hp')
      end;
      rewrite Ho', He', Ht', Hp'; cbn [stdout_buf stderr_buf timer_armed promise];
      rewrite <- ?app_assoc; repeat split.
Qed.

(** The state in which the first event that is not output finds the
    handlers. *)
Lemma before_first_signal (command : jsstring) (o : Options)
    (pre : list proc_event) (t : trace) :
  forallb is_data pre = true ->
  let st := forEach pre (handle command o)
              (mkProc [] [] (negb (Z.eqb (timeout o) 0)) Pending
                 (t ++ [Executed command])) in
  stdout_buf st = stdout_of pre /\ stderr_buf st = stderr_of pre /\
  timer_armed st = negb (Z.eqb (timeout o) 0) /\ promise st = Pending.
Proof.
  intros Hdata.
  exact (data_run command o pre
           (mkProc [] [] (negb (Z.eqb (timeout o) 0)) Pending
              (t ++ [Executed command])) Hdata).
Qed.

(** What the promise is after a run whose first signal is [ev]. *)
Lemma first_signal (command : jsstring) (o : Options)
    (pre post : list proc_event) (ev : proc_event) (t : trace) :
  forallb is_data pre = true ->
  let st := forEach pre (handle command o)
              (mkProc [] [] (negb (Z.eqb (timeout o) 0)) Pending
                 (t ++ [Executed command])) in
  promise (handle command o ev st) <> Pending ->
  promise (_executeCommand command o (pre ++ ev :: post) t)
  = promise (handle command o ev st).
Proof.
  intros Hdata st Hset. unfold _executeCommand.
  rewrite forEach_app. change (ev :: post) with ([ev] ++ post).
  rewrite forEach_app. rewrite settled_run; [reflexivity|exact Hset].
Qed.

End RunnerFacts.

(** ** The raw output is handed on unchanged *)

Ltac raw_of_parser :=
  repeat first [rewrite forEach_push_rawOutput | rewrite forEach_push_rawError];
  repeat match goal with
         | |- context [match ?m with Some _ => _ | None => _ end] => destruct m
         | |- context [if ?b then _ else _] => destruct b
         end;
  split; reflexivity.

Lemma integration_parsers_keep_raw (stdout stderr projectType : jsstring)
    (r : TestRunResult) :
  let r' := fst (IntegrationAgent.parse_switch stdout stderr projectType r) in
  rawOutput r' = rawOutput r /\ rawError r' = rawError r.
Proof.
  cbv zeta. unfold IntegrationAgent.parse_switch.
  repeat match goal with
         | |- context [if ?b then Eff.modify _ else _] => destruct b
         end;
    cbn [Eff.modify fst].
  - unfold IntegrationAgent._parseCypressResults. raw_of_parser.
  - unfold IntegrationAgent._parsePlaywrightResults. raw_of_parser.
  - unfold IntegrationAgent._parseJestResults. raw_of_parser.
  - unfold IntegrationAgent._parseMochaResults. raw_of_parser.
  - unfold IntegrationAgent._parsePytestResults. raw_of_parser.
  - unfold IntegrationAgent._parseBehaveResults. raw_of_parser.
  - unfold IntegrationAgent._parseJavaResults. raw_of_parser.
  - unfold IntegrationAgent._parseDockerComposeResults. raw_of_parser.
  - destruct (generic_result IntegrationAgent.generic_rx stdout stderr r)
      as (tot & ok & _ & _ & _ & Ho & He).
    split; assumption.
Qed.

(** The dispatcher of the integration agent returns a result that carries
    stdout and stderr as they came. *)
Lemma integration_dispatch_raw (stdout stderr projectType : jsstring) (elapsed : Z) :
  exists r : TestRunResult,
    IntegrationAgent._parseIntegrationTestResults stdout stderr projectType elapsed
    = Normal r /\
    rawOutput r = stdout /\ rawError r = stderr.
Proof.
  unfold IntegrationAgent._parseIntegrationTestResults.
  pose proof (integration_parsers_keep_raw stdout stderr projectType
                (IntegrationAgent.standardResult0 stdout stderr elapsed)) as Hraw.
  cbv zeta in Hraw.
  destruct (IntegrationAgent.parse_switch _ _ _ _) as [r' [u|e]];
    cbn [fst] in Hraw; destruct Hraw as [Ho He];
    eexists; (split; [reflexivity|]);
    cbn [set_error rawOutput rawError]; rewrite Ho, He; split; reflexivity.
Qed.

Module RunnerOutcomes.

Import IntegrationAgent RunnerFacts.

(** Effects are only ever appended. *)
Lemma handle_keeps_effects (command : jsstring) (o : Options) (ev : proc_event)
    (st : proc_state) (e : effect) :
  In e (effects st) -> In e (effects (handle command o ev st)).
Proof.
  intros Hin.
  assert (Hlog : forall entry st', In e (effects st') ->
                                   In e (effects (log_write o entry st'))).
  { intros entry st' H. unfold log_write. destruct (logStream o); [|exact H].
    cbn [effects]. apply in_or_app. left. exact H. }
  assert (Hsw : forall s st', In e (effects st') ->
                              In e (effects (settle_with s st'))).
  { intros s st' H. unfold settle_with. destruct (promise st'); exact H. }
  destruct ev; cbn [handle].
  - apply Hlog. exact Hin.
  - apply Hlog. exact Hin.
  - destruct (timer_armed st); [|exact Hin].
    apply Hsw. cbn [kill disarm effects]. apply in_or_app. left. exact Hin.
  - destruct (is_exit_zero code); apply Hsw, Hlog; exact Hin.
  - apply Hsw, Hlog. exact Hin.
Qed.

Lemma run_keeps_effects (command : jsstring) (o : Options)
    (events : list proc_event) (st : proc_state) (e : effect) :
  In e (effects st) -> In e (effects (forEach events (handle command o) st)).
Proof.
  revert st. unfold forEach.
  induction events as [|ev events IH]; intros st Hin; cbn [fold_left].
  - exact Hin.
  - apply IH, handle_keeps_effects, Hin.
Qed.

(** The timer expires first. *)
Lemma run_to_timeout (command : jsstring) (o : Options)
    (pre post : list proc_event) (t : trace) :
  timeout o <> 0%Z -> forallb is_data pre = true ->
  let st := _executeCommand command o (pre ++ TimerExpired :: post) t in
  promise st = Rejected (TimedOut (timeout o) command) /\ In Killed (effects st).
Proof.
  intros Htimeout Hdata.
  pose proof (before_first_signal command o pre t Hdata) as Hst.
  pose proof (first_signal command o pre post TimerExpired t Hdata) as Hfirst.
  cbv zeta in Hst, Hfirst.
  unfold _executeCommand in *. rewrite forEach_app in *.
  change (TimerExpired :: post) with ([TimerExpired] ++ post) in *.
  rewrite forEach_app in *.
  match type of Hst with
  | context [promise ?s = Pending] => set (st := s) in *
  end.
  destruct Hst as (_ & _ & Harmed & Hpending).
  apply Z.eqb_neq in Htimeout. rewrite Htimeout in Harmed. cbn [negb] in Harmed.
  assert (Hstep : handle command o TimerExpired st
                  = mkProc (stdout_buf st) (stderr_buf st) false
                      (Rejected (TimedOut (timeout o) command))
                      (effects st ++ [Killed])).
  { cbn [handle]. rewrite Harmed. unfold settle_with.
    cbn [kill disarm promise]. rewrite Hpending. reflexivity. }
  cbn [forEach fold_left] in *. rewrite Hstep in *.
  cbv zeta. split.
  - rewrite Hfirst; [reflexivity|discriminate].
  - apply run_keeps_effects. cbn [effects]. apply in_or_app. right. left.
    reflexivity.
Qed.

(** The child closes first. *)
Lemma run_to_close (command : jsstring) (o : Options)
    (pre post : list proc_event) (code : option Z) (t : trace) :
  forallb is_data pre = true ->
  promise (_executeCommand command o (pre ++ Close code :: post) t)
  = if is_exit_zero code then Resolved (stdout_of pre) (stderr_of pre)
    else Rejected (ExitFailure code command).
Proof.
  intros Hdata.
  destruct (before_first_signal command o pre t Hdata) as (Ho & He & _ & Hpending).
  assert (Hstep :
    promise (handle command o (Close code)
               (forEach pre (handle command o)
                  (mkProc [] [] (negb (Z.eqb (timeout o) 0)) Pending
                     (t ++ [Executed command]))))
    = if is_exit_zero code then Resolved (stdout_of pre) (stderr_of pre)
      else Rejected (ExitFailure code command)).
  { cbn [handle].
    match goal with
    | |- context [log_write ?o ?e ?s] =>
        destruct (log_write_frame o e s) as (Ho' & He' & _ & Hp')
    end.
    cbn [disarm stdout_buf stderr_buf promise] in Ho', He', Hp'.
    destruct (is_exit_zero code); unfold settle_with;
      rewrite Hp', Hpending; cbn [promise]; rewrite ?Ho', ?He', ?Ho, ?He;
      reflexivity. }
  rewrite (first_signal command o pre post (Close code) t Hdata); rewrite Hstep.
  - reflexivity.
  - destruct (is_exit_zero code); discriminate.
Qed.

(** The child fails to start, or fails later. *)
Lemma run_to_error (command : jsstring) (o : Options)
    (pre post : list proc_event) (err : jsstring) (t : trace) :
  forallb is_data pre = true ->
  promise (_executeCommand command o (pre ++ ProcError err :: post) t)
  = Rejected (SpawnError err).
Proof.
  intros Hdata.
  destruct (before_first_signal command o pre t Hdata) as (_ & _ & _ & Hpending).
  assert (Hstep :
    promise (handle command o (ProcError err)
               (forEach pre (handle command o)
                  (mkProc [] [] (negb (Z.eqb (timeout o) 0)) Pending
                     (t ++ [Executed command]))))
    = Rejected (SpawnError err)).
  { cbn [handle]. unfold settle_with. rewrite log_write_promise.
    cbn [disarm promise]. rewrite Hpending. reflexivity. }
  rewrite (first_signal command o pre post (ProcError err) t Hdata); rewrite Hstep.
  - reflexivity.
  - discriminate.
Qed.

(** The promise is settled for good when the caller goes on: the events
    that follow do not change it. *)
Lemma until_settled_promise (command : jsstring) (o : Options)
    (events : list proc_event) (st : proc_state) :
  promise (forEach events (handle command o) st)
  = promise (until_settled command o events st).
Proof.
  revert st. induction events as [|ev events IH]; intros st; [reflexivity|].
  cbn [until_settled]. destruct (promise st) eqn:Hp.
  - unfold forEach. cbn [fold_left]. apply IH.
  - rewrite settled_run; [reflexivity|rewrite Hp; discriminate].
  - rewrite settled_run; [reflexivity|rewrite Hp; discriminate].
Qed.

(** What the orchestrator gets from [await]. *)
Lemma await_of_promise (command : jsstring) (o : Options)
    (events : list proc_event) (t : trace) :
  snd (await_command command o events t)
  = match promise (_executeCommand command o events t) with
    | Resolved stdout stderr => Normal (stdout, stderr)
    | Rejected e => Throw (Raised e)
    | Pending => Throw Hung
    end.
Proof.
  unfold await_command. cbv zeta.
  rewrite <- (until_settled_promise command o events
                (mkProc [] [] (negb (Z.eqb (timeout o) 0)) Pending
                   (t ++ [Executed command]))).
  unfold _executeCommand.
  destruct (promise (forEach events (handle command o) _)); reflexivity.
Qed.

End RunnerOutcomes.

(** ** Timeout *)

(** C3, as stated, fails: when the timer expires the awaited call throws
    "Command timed out after 1000ms: sleep 5" and runTests rethrows it; no
    outcome is returned, and the error does not carry the output captured so
    far. *)
Lemma timeout_returns_no_outcome :
  let command := lit "sleep 5" in
  let events :=
    [IntegrationAgent.StdoutData (lit "partial output");
     IntegrationAgent.TimerExpired; IntegrationAgent.Close None] in
  let awaited :=
    snd (IntegrationAgent.await_command command
           (IntegrationAgent.mkOptions 1000 true) events []) in
  let env :=
    IntegrationAgent.mkEnv
      (mkRepoFs true (String.eqb "docker-compose.yml") (fun _ => None)
         (Some [lit ".git"; lit "docker-compose.yml"]))
      (fun _ => events) 0 (lit "logs/integration-demo.log") true None in
  awaited = Throw (IntegrationAgent.Raised (TimedOut 1000 command)) /\
  (forall outcome, awaited <> Normal outcome) /\
  snd (IntegrationAgent.runTests (fun _ => None) (Some 1000%Z) env
         (IntegrationAgent.mkParams (lit "/repos/demo") (Some command) false) [])
  = Throw (IntegrationAgent.Raised (FailedToRun (TimedOut 1000 command))).
Proof.
  cbv zeta. split; [vm_compute; reflexivity|].
  split; [|vm_compute; reflexivity].
  intros outcome. vm_compute. discriminate.
Qed.

(** C3, amended: when the timer expires before the child has closed or
    failed, the process is killed and the promise is rejected with the error
    "Command timed out after <timeout>ms: <command>", so the awaited call
    throws and neither hangs nor returns an outcome; the error names the
    timeout and the command only. *)
Theorem timeout_rejects (command : jsstring) (o : IntegrationAgent.Options)
    (pre post : list IntegrationAgent.proc_event) (t : trace) :
  IntegrationAgent.timeout o <> 0%Z ->
  forallb is_data pre = true ->
  let events := pre ++ IntegrationAgent.TimerExpired :: post in
  let st := IntegrationAgent._executeCommand command o events t in
  IntegrationAgent.promise st
  = IntegrationAgent.Rejected (TimedOut (IntegrationAgent.timeout o) command) /\
  In Killed (IntegrationAgent.effects st) /\
  snd (IntegrationAgent.await_command command o events t)
  = Throw (IntegrationAgent.Raised (TimedOut (IntegrationAgent.timeout o) command)).
Proof.
  intros Htimeout Hdata. cbv zeta.
  destruct (RunnerOutcomes.run_to_timeout command o pre post t Htimeout Hdata)
    as [Hpromise Hkilled].
  repeat split; try assumption.
  rewrite RunnerOutcomes.await_of_promise, Hpromise. reflexivity.
Qed.

Lemma timeout_rejects_witness :
  In Killed
    (IntegrationAgent.effects
       (IntegrationAgent._executeCommand (lit "sleep 5")
          (IntegrationAgent.mkOptions 1000 true)
          ([IntegrationAgent.StdoutData (lit "partial output")] ++
           IntegrationAgent.TimerExpired :: [IntegrationAgent.Close None]) [])).
Proof.
  apply (timeout_rejects (lit "sleep 5") (IntegrationAgent.mkOptions 1000 true)
           [IntegrationAgent.StdoutData (lit "partial output")]
           [IntegrationAgent.Close None] []).
  - cbn. lia.
  - reflexivity.
Defined.

(** ** Exit status *)

(** C4, as stated, fails: a child that prints a failure and exits with code 1
    makes the awaited call throw "Command failed with exit code 1: npm test"
    and runTests rethrows it; no outcome with an exit status and the captured
    output is returned. *)
Lemma nonzero_exit_throws :
  let command := lit "npm test" in
  let events :=
    [IntegrationAgent.StdoutData (lit "1 failed"); IntegrationAgent.Close (Some 1%Z)] in
  let awaited :=
    snd (IntegrationAgent.await_command command
           (IntegrationAgent.mkOptions 1200000 true) events []) in
  let env :=
    IntegrationAgent.mkEnv
      (mkRepoFs true (String.eqb "docker-compose.yml") (fun _ => None)
         (Some [lit ".git"; lit "docker-compose.yml"]))
      (fun _ => events) 0 (lit "logs/integration-demo.log") true None in
  awaited = Throw (IntegrationAgent.Raised (ExitFailure (Some 1%Z) command)) /\
  (forall outcome, awaited <> Normal outcome) /\
  snd (IntegrationAgent.runTests (fun _ => None) None env
         (IntegrationAgent.mkParams (lit "/repos/demo") (Some command) false) [])
  = Throw (IntegrationAgent.Raised (FailedToRun (ExitFailure (Some 1%Z) command))).
Proof.
  cbv zeta. split; [vm_compute; reflexivity|].
  split; [|vm_compute; reflexivity].
  intros outcome. vm_compute. discriminate.
Qed.

(** C4, amended: when the child closes before the timer expires, exit code 0
    resolves the promise with all of the captured stdout and stderr; any
    other exit code, and termination by a signal (code null), rejects it
    with the error "Command failed with exit code <code>: <command>", which
    does not carry the captured output.  An 'error' event rejects it with
    the error of the child as it is. *)
Theorem exit_status_settles (command : jsstring) (o : IntegrationAgent.Options)
    (pre post : list IntegrationAgent.proc_event) (code : option Z)
    (err : jsstring) (t : trace) :
  forallb is_data pre = true ->
  IntegrationAgent.promise
    (IntegrationAgent._executeCommand command o
       (pre ++ IntegrationAgent.Close code :: post) t)
  = (if IntegrationAgent.is_exit_zero code
     then IntegrationAgent.Resolved (stdout_of pre) (stderr_of pre)
     else IntegrationAgent.Rejected (ExitFailure code command)) /\
  IntegrationAgent.promise
    (IntegrationAgent._executeCommand command o
       (pre ++ IntegrationAgent.ProcError err :: post) t)
  = IntegrationAgent.Rejected (SpawnError err).
Proof.
  intros Hdata. split.
  - apply RunnerOutcomes.run_to_close, Hdata.
  - apply RunnerOutcomes.run_to_error, Hdata.
Qed.

Lemma exit_status_settles_witness :
  IntegrationAgent.promise
    (IntegrationAgent._executeCommand (lit "npm test")
       (IntegrationAgent.mkOptions 1200000 true)
       ([IntegrationAgent.StdoutData (lit "1 failed")] ++
        IntegrationAgent.Close None :: []) [])
  = IntegrationAgent.Rejected (ExitFailure None (lit "npm test")).
Proof.
  apply (exit_status_settles (lit "npm test")
           (IntegrationAgent.mkOptions 1200000 true)
           [IntegrationAgent.StdoutData (lit "1 failed")] [] None [] []).
  reflexivity.
Defined.

(** ** No bound on the captured output *)

Lemma one_chunk_run (command chunk : jsstring) (o : IntegrationAgent.Options)
    (t : trace) :
  IntegrationAgent.promise
    (IntegrationAgent._executeCommand command o
       [IntegrationAgent.StdoutData chunk; IntegrationAgent.Close (Some 0%Z)] t)
  = IntegrationAgent.Resolved chunk [].
Proof.
  change [IntegrationAgent.StdoutData chunk; IntegrationAgent.Close (Some 0%Z)]
    with ([IntegrationAgent.StdoutData chunk] ++
          IntegrationAgent.Close (Some 0%Z) :: []).
  rewrite RunnerOutcomes.run_to_close by reflexivity.
  cbn [IntegrationAgent.is_exit_zero Z.eqb stdout_of stderr_of].
  rewrite app_nil_r. reflexivity.
Qed.

(** C9, as stated, fails: a child that writes one byte more than the only
    configured maximum (the 10 MiB of [maxBuffer]) and exits with code 0 is
    resolved with all of it, and rawOutput of the parsed result is longer
    than the maximum; the result has no field that records a truncation. *)
Lemma output_beyond_maxBuffer :
  let chunk := repeat 97%N (Z.to_nat (UnitTestAgent.maxBuffer + 1)) in
  IntegrationAgent.promise
    (IntegrationAgent._executeCommand (lit "npm test")
       (IntegrationAgent.mkOptions 1200000 true)
       [IntegrationAgent.StdoutData chunk; IntegrationAgent.Close (Some 0%Z)] [])
  = IntegrationAgent.Resolved chunk [] /\
  exists r : TestRunResult,
    IntegrationAgent._parseIntegrationTestResults chunk [] (lit "unknown") 0
    = Normal r /\
    (UnitTestAgent.maxBuffer < Z.of_nat (List.length (rawOutput r)))%Z.
Proof.
  cbv zeta. split; [apply one_chunk_run|].
  destruct (integration_dispatch_raw
              (repeat 97%N (Z.to_nat (UnitTestAgent.maxBuffer + 1))) []
              (lit "unknown") 0) as (r & Hr & Ho & _).
  exists r. split; [exact Hr|].
  rewrite Ho, repeat_length, Z2Nat.id; unfold UnitTestAgent.maxBuffer; lia.
Qed.

(** C9, amended: the runner of the integration agent sets no bound on the
    output it captures.  A child that exits with code 0 is resolved with the
    concatenation of every chunk it wrote, and rawOutput and rawError of the
    parsed result are that whole text for every project tag, whatever its
    length; nothing is truncated and no truncation is recorded. *)
Theorem output_is_kept_whole (command : jsstring) (o : IntegrationAgent.Options)
    (pre post : list IntegrationAgent.proc_event) (t : trace)
    (projectType : jsstring) (elapsed : Z) :
  forallb is_data pre = true ->
  IntegrationAgent.promise
    (IntegrationAgent._executeCommand command o
       (pre ++ IntegrationAgent.Close (Some 0%Z) :: post) t)
  = IntegrationAgent.Resolved (stdout_of pre) (stderr_of pre) /\
  exists r : TestRunResult,
    IntegrationAgent._parseIntegrationTestResults (stdout_of pre) (stderr_of pre)
      projectType elapsed = Normal r /\
    rawOutput r = stdout_of pre /\ rawError r = stderr_of pre.
Proof.
  intros Hdata. split.
  - rewrite RunnerOutcomes.run_to_close by exact Hdata. reflexivity.
  - apply integration_dispatch_raw.
Qed.

Lemma output_is_kept_whole_witness :
  IntegrationAgent.promise
    (IntegrationAgent._executeCommand (lit "npm test")
       (IntegrationAgent.mkOptions 1200000 true)
       ([IntegrationAgent.StdoutData (lit "ok 1"); IntegrationAgent.StderrData (lit "warn");
         IntegrationAgent.StdoutData (lit " ok 2")] ++
        IntegrationAgent.Close (Some 0%Z) :: []) [])
  = IntegrationAgent.Resolved (lit "ok 1 ok 2") (lit "warn").
Proof.
  apply (output_is_kept_whole (lit "npm test")
           (IntegrationAgent.mkOptions 1200000 true)
           [IntegrationAgent.StdoutData (lit "ok 1");
            IntegrationAgent.StderrData (lit "warn");
            IntegrationAgent.StdoutData (lit " ok 2")] [] [] (lit "jest") 0).
  reflexivity.
Defined.

(** ** The empty repository *)

(** C6, as stated, fails for the unit agent: on a repository that holds only
    .git it runs a command before it returns the skipped result, and when the
    caller supplies a test command that fails it throws instead of
    returning. *)
Lemma unit_empty_repository_runs_a_command :
  let fs := mkRepoFs true (fun _ => false) (fun _ => None) (Some [lit ".git"]) in
  let echoed := lit "Repository is empty, no tests to run" ++ nl in
  let params := UnitTestAgent.mkParams (lit "/repos/empty") in
  UnitTestAgent.runTests (fun _ => None) (fun _ => [])
    (UnitTestAgent.mkEnv fs (fun _ => Normal (echoed, []))) (params None) []
  = ([Notified "started";
      Executed (lit "echo " ++ World.quoted "Repository is empty, no tests to run");
      Notified "completed"],
     Normal (UnitTestAgent.empty_result (UnitTestAgent.standardResult0 echoed []))) /\
  UnitTestAgent.runTests (fun _ => None) (fun _ => [])
    (UnitTestAgent.mkEnv fs (fun _ => Throw (ExecError (lit "Command failed: npm test"))))
    (params (Some (lit "npm test"))) []
  = ([Notified "started"; Executed (lit "npm test"); Notified "error"],
     Throw (FailedToRun (ExecError (lit "Command failed: npm test")))).
Proof.
  cbv zeta. split; vm_compute; reflexivity.
Qed.

Section EmptyRepository.

Variable JSON_parse : jsstring -> option jsval.
Variable ToString : jsval -> jsstring.

Lemma integration_detects_empty {S : Type} (fs : RepoFs) (s : S) :
  git_only fs ->
  IntegrationAgent._detectProjectType JSON_parse fs s = (s, Normal (lit "empty")).
Proof.
  intros (_ & (files & Hdir & Honly) & _).
  unfold IntegrationAgent._detectProjectType. rewrite Hdir, Honly. reflexivity.
Qed.

Lemma unit_detects_empty {S : Type} (fs : RepoFs) (s : S) :
  git_only fs ->
  UnitTestAgent._detectProjectType JSON_parse fs s = (s, Normal (lit "empty")).
Proof.
  intros (_ & (files & Hdir & Honly) & Hnone).
  unfold UnitTestAgent._detectProjectType.
  rewrite !Hnone. cbn [orb]. rewrite Hdir, Honly. reflexivity.
Qed.

Lemma unit_parses_empty (stdout stderr : jsstring) :
  UnitTestAgent._parseTestResults JSON_parse ToString stdout stderr (lit "empty")
  = Normal (UnitTestAgent.empty_result (UnitTestAgent.standardResult0 stdout stderr)).
Proof. reflexivity. Qed.

Lemma empty_result_is_skipped (stdout stderr : jsstring) :
  skipped_result
    (UnitTestAgent.empty_result (UnitTestAgent.standardResult0 stdout stderr)).
Proof. repeat split. Qed.

(** C6, amended: on a repository directory that holds nothing besides .git,
    runTests of the integration agent returns success = true with summary
    {total 1, passed 0, failed 0, skipped 1} and a single skipped case,
    before any command is selected or run and without parsing.  The unit
    agent detects the tag empty after its manifest checks and still runs a
    command (a no-op echo unless the caller passes testCommand); when that
    command succeeds, _parseTestResults returns the same summary and single
    skipped case for the tag empty, whatever the output, before any
    format parser runs. *)
Theorem empty_repository_is_skipped (config_timeout : option Z)
    (ienv : IntegrationAgent.Env) (iparams : IntegrationAgent.Params)
    (uenv : UnitTestAgent.Env) (uparams : UnitTestAgent.Params)
    (stdout stderr : jsstring) (t : trace) :
  git_only (IntegrationAgent.fs ienv) -> IntegrationAgent.repoPath iparams <> [] ->
  git_only (UnitTestAgent.fs uenv) -> UnitTestAgent.repoPath uparams <> [] ->
  UnitTestAgent.testCommand uparams = None ->
  UnitTestAgent.execAsync uenv echo_command = Normal (stdout, stderr) ->
  (exists r,
     IntegrationAgent.runTests JSON_parse config_timeout ienv iparams t
     = (t ++ [Notified "started"; Notified "completed"; LogEnded], Normal r) /\
     skipped_result (IntegrationAgent.result r)) /\
  (exists r,
     UnitTestAgent._parseTestResults JSON_parse ToString stdout stderr (lit "empty")
     = Normal r /\ skipped_result r) /\
  (exists r,
     UnitTestAgent.runTests JSON_parse ToString uenv uparams t
     = (t ++ [Notified "started"; Executed echo_command; Notified "completed"],
        Normal r) /\
     skipped_result r).
Proof.
  intros Higit Hipath Hugit Hupath Hcmd Hexec.
  split; [|split].
  - exists (IntegrationAgent.empty_results (IntegrationAgent.logFilePath ienv)).
    split; [|repeat split].
    unfold IntegrationAgent.runTests.
    destruct (IntegrationAgent.repoPath iparams) as [|c path]; [contradiction|].
    destruct Higit as (Hexists & Hrest). rewrite Hexists. cbn [negb].
    unfold IntegrationAgent.run_try, Eff.bind, World.emit, Eff.modify,
      IntegrationAgent.raising.
    rewrite (integration_detects_empty (S:=trace) (IntegrationAgent.fs ienv)
               (t ++ [Notified "started"]) (conj Hexists Hrest)).
    cbn. rewrite <- !app_assoc. reflexivity.
  - eexists. split; [apply unit_parses_empty|apply empty_result_is_skipped].
  - eexists. split; [|apply (empty_result_is_skipped stdout stderr)].
    unfold UnitTestAgent.runTests.
    destruct (UnitTestAgent.repoPath uparams) as [|c path]; [contradiction|].
    destruct Hugit as (Hexists & Hrest). rewrite Hexists. cbn [negb].
    unfold World.catch, UnitTestAgent.run_try, Eff.bind, World.emit, Eff.modify.
    rewrite (unit_detects_empty (S:=trace) (UnitTestAgent.fs uenv)
               (t ++ [Notified "started"]) (conj Hexists Hrest)).
    rewrite Hcmd. change (World.given None) with (@None jsstring). cbv beta iota.
    change (UnitTestAgent._determineTestCommand JSON_parse uenv (lit "empty")
              (t ++ [Notified "started"]))
      with (t ++ [Notified "started"], @Normal error _ (Some echo_command)).
    cbv beta iota.
    change (World.given (Some echo_command)) with (Some echo_command).
    cbv beta iota. unfold UnitTestAgent.settle. rewrite Hexec. cbn [fst snd].
    rewrite unit_parses_empty. unfold Eff.ret. rewrite <- !app_assoc.
    reflexivity.
Qed.

End EmptyRepository.

Lemma empty_repository_is_skipped_witness :
  exists r,
    IntegrationAgent.runTests (fun _ => None) None
      (IntegrationAgent.mkEnv
         (mkRepoFs true (fun _ => false) (fun _ => None) (Some [lit ".git"]))
         (fun _ => []) 0 (lit "logs/integration-demo.log") true None)
      (IntegrationAgent.mkParams (lit "/repos/empty") None false) []
    = ([] ++ [Notified "started"; Notified "completed"; LogEnded], Normal r) /\
    skipped_result (IntegrationAgent.result r).
Proof.
  apply (empty_repository_is_skipped (fun _ => None) (fun _ => []) None
           (IntegrationAgent.mkEnv
              (mkRepoFs true (fun _ => false) (fun _ => None) (Some [lit ".git"]))
              (fun _ => []) 0 (lit "logs/integration-demo.log") true None)
           (IntegrationAgent.mkParams (lit "/repos/empty") None false)
           (UnitTestAgent.mkEnv
              (mkRepoFs true (fun _ => false) (fun _ => None) (Some [lit ".git"]))
              (fun _ => Normal (lit "Repository is empty, no tests to run" ++ nl, [])))
           (UnitTestAgent.mkParams (lit "/repos/empty") None)
           (lit "Repository is empty, no tests to run" ++ nl) [] []).
  - split; [reflexivity|]. split; [|reflexivity].
    exists [lit ".git"]. split; reflexivity.
  - discriminate.
  - split; [reflexivity|]. split; [|reflexivity].
    exists [lit ".git"]. split; reflexivity.
  - discriminate.
  - reflexivity.
  - reflexivity.
Defined.

(** ** A malformed manifest *)

Section MalformedManifest.

Variable JSON_parse : jsstring -> option jsval.
Variable ToString : jsval -> jsstring.

(** On the input of C5 the code throws: a package.json that JSON.parse
    rejects makes [_detectProjectType] of either agent throw the
    SyntaxError, and runTests of the unit agent rethrows it as "Failed to
    run unit tests: ..."; no project tag is returned. *)
Theorem malformed_manifest_aborts_detection (fs : RepoFs) (text : jsstring)
    (execAsync : jsstring -> completion error (jsstring * jsstring))
    (params : UnitTestAgent.Params) (t : trace) :
  repo_exists fs = true ->
  existsSync fs "package.json" = true ->
  readFileSync fs "package.json" = Some text ->
  JSON_parse text = None ->
  (forall files, readdir fs = Some files -> World.only_git files = false) ->
  UnitTestAgent.repoPath params <> [] ->
  UnitTestAgent._detectProjectType JSON_parse fs t = (t, Throw SyntaxError) /\
  IntegrationAgent._detectProjectType JSON_parse fs t = (t, Throw SyntaxError) /\
  UnitTestAgent.runTests JSON_parse ToString (UnitTestAgent.mkEnv fs execAsync)
    params t
  = (t ++ [Notified "started"; Notified "error"], Throw (FailedToRun SyntaxError)).
Proof.
  intros Hrepo Hexists Hread Hjson Hfiles Hpath.
  assert (Hunit : forall s : trace,
            UnitTestAgent._detectProjectType JSON_parse fs s
            = (s, Throw SyntaxError)).
  { intros s. unfold UnitTestAgent._detectProjectType. rewrite Hexists.
    unfold Eff.bind, World.read_file, World.parse_json.
    rewrite Hread. cbn. rewrite Hjson. reflexivity. }
  split; [apply Hunit|]. split.
  - unfold IntegrationAgent._detectProjectType.
    assert (Hmanifest : IntegrationAgent.detect_manifests JSON_parse fs t
                        = (t, Throw SyntaxError)).
    { unfold IntegrationAgent.detect_manifests. rewrite Hexists.
      unfold Eff.bind, World.read_file, World.parse_json.
      rewrite Hread. cbn. rewrite Hjson. reflexivity. }
    destruct (readdir fs) as [files|] eqn:Hdir; [|exact Hmanifest].
    rewrite (Hfiles files eq_refl). exact Hmanifest.
  - unfold UnitTestAgent.runTests.
    destruct (UnitTestAgent.repoPath params) as [|c path]; [contradiction|].
    cbn [UnitTestAgent.fs]. rewrite Hrepo. cbn [negb].
    unfold World.catch, UnitTestAgent.run_try, Eff.bind, World.emit, Eff.modify.
    cbn [UnitTestAgent.fs]. rewrite Hunit. unfold Eff.throw.
    rewrite <- !app_assoc. reflexivity.
Qed.

End MalformedManifest.

Lemma malformed_manifest_aborts_detection_witness :
  UnitTestAgent._detectProjectType (fun _ => None)
    (mkRepoFs true (String.eqb "package.json")
       (fun _ => Some (lit "{ name: demo,")) (Some [lit ".git"; lit "package.json"]))
    ([] : trace)
  = ([], Throw SyntaxError).
Proof.
  apply (malformed_manifest_aborts_detection (fun _ => None) (fun _ => [])
           (mkRepoFs true (String.eqb "package.json")
              (fun _ => Some (lit "{ name: demo,"))
              (Some [lit ".git"; lit "package.json"]))
           (lit "{ name: demo,") (fun _ => Throw (ExecError []))
           (UnitTestAgent.mkParams (lit "/repos/demo") None) []).
  - reflexivity.
  - reflexivity.
  - reflexivity.
  - reflexivity.
  - intros files [= <-]. reflexivity.
  - discriminate.
Defined.

(** ** More on the supervised process *)

Module RunnerStream.

Import IntegrationAgent RunnerFacts.

Lemma chunk_logs_app (t1 t2 : trace) :
  chunk_logs (t1 ++ t2) = chunk_logs t1 ++ chunk_logs t2.
Proof.
  induction t1 as [|e t1 IH]; [reflexivity|].
  destruct e as [s|c| |entry|]; cbn [app chunk_logs]; try exact IH.
  destruct entry; cbn [app]; rewrite ?IH; reflexivity.
Qed.

(** One handler call appends its chunk to its buffer and to the log, and
    nothing else that is a chunk. *)
Lemma handle_streams (command : jsstring) (o : Options) (ev : proc_event)
    (st : proc_state) :
  logStream o = true ->
  let st' := handle command o ev st in
  stdout_buf st' = stdout_buf st ++ stdout_of [ev] /\
  stderr_buf st' = stderr_buf st ++ stderr_of [ev] /\
  chunk_logs (effects st') = chunk_logs (effects st) ++ chunks_of [ev].
Proof.
  intros Hlog. cbv zeta.
  assert (Hsw : forall s st0, stdout_buf (settle_with s st0) = stdout_buf st0 /\
                              stderr_buf (settle_with s st0) = stderr_buf st0 /\
                              effects (settle_with s st0) = effects st0).
  { intros s st0. unfold settle_with. destruct (promise st0); repeat split. }
  destruct ev; cbn [handle stdout_of stderr_of chunks_of]; unfold log_write;
    rewrite ?Hlog;
    try (destruct (timer_armed st));
    try (destruct (is_exit_zero code));
    repeat match goal with
           | |- context [settle_with ?s ?x] =>
               destruct (Hsw s x) as (-> & -> & ->)
           end;
    cbn [stdout_buf stderr_buf effects disarm kill];
    rewrite ?chunk_logs_app, ?app_nil_r; cbn [chunk_logs];
    rewrite ?app_nil_r; repeat split.
Qed.

Lemma run_streams (command : jsstring) (o : Options) (events : list proc_event)
    (st : proc_state) :
  logStream o = true ->
  let st' := forEach events (handle command o) st in
  stdout_buf st' = stdout_buf st ++ stdout_of events /\
  stderr_buf st' = stderr_buf st ++ stderr_of events /\
  chunk_logs (effects st') = chunk_logs (effects st) ++ chunks_of events.
Proof.
  intros Hlog. revert st. unfold forEach.
  induction events as [|ev events IH]; intros st; cbn [fold_left].
  - cbn. rewrite !app_nil_r. repeat split.
  - destruct (IH (handle command o ev st)) as (Ho & He & Hc).
    destruct (handle_streams command o ev st Hlog) as (Ho1 & He1 & Hc1).
    cbv zeta in *. rewrite Ho, He, Hc, Ho1, He1, Hc1.
    rewrite <- !app_assoc.
    assert (Hso : stdout_of (ev :: events) = stdout_of [ev] ++ stdout_of events).
    { destruct ev; cbn [stdout_of app]; rewrite ?app_nil_r; reflexivity. }
    assert (Hse : stderr_of (ev :: events) = stderr_of [ev] ++ stderr_of events).
    { destruct ev; cbn [stderr_of app]; rewrite ?app_nil_r; reflexivity. }
    assert (Hch : chunks_of (ev :: events) = chunks_of [ev] ++ chunks_of events).
    { destruct ev; reflexivity. }
    rewrite Hso, Hse, Hch. repeat split.
Qed.

End RunnerStream.

(** X1: the promise of [_executeCommand] settles at most once.  Once it is
    resolved or rejected, nothing that arrives later (a close after the
    kill, a late error, more output) changes how it was settled. *)
Theorem promise_settles_once (command : jsstring) (o : IntegrationAgent.Options)
    (events later : list IntegrationAgent.proc_event) (t : trace) :
  IntegrationAgent.promise (IntegrationAgent._executeCommand command o events t)
  <> IntegrationAgent.Pending ->
  IntegrationAgent.promise
    (IntegrationAgent._executeCommand command o (events ++ later) t)
  = IntegrationAgent.promise (IntegrationAgent._executeCommand command o events t).
Proof.
  intros Hset. unfold IntegrationAgent._executeCommand in *.
  rewrite RunnerFacts.forEach_app. apply RunnerFacts.settled_run. exact Hset.
Qed.

Lemma promise_settles_once_witness :
  IntegrationAgent.promise
    (IntegrationAgent._executeCommand (lit "npm test")
       (IntegrationAgent.mkOptions 1000 true)
       ([IntegrationAgent.TimerExpired] ++
        [IntegrationAgent.StdoutData (lit "late"); IntegrationAgent.Close None;
         IntegrationAgent.ProcError (lit "EPIPE")]) [])
  = IntegrationAgent.promise
      (IntegrationAgent._executeCommand (lit "npm test")
         (IntegrationAgent.mkOptions 1000 true) [IntegrationAgent.TimerExpired] []).
Proof.
  apply (promise_settles_once (lit "npm test") (IntegrationAgent.mkOptions 1000 true)
           [IntegrationAgent.TimerExpired]
           [IntegrationAgent.StdoutData (lit "late"); IntegrationAgent.Close None;
            IntegrationAgent.ProcError (lit "EPIPE")] []).
  vm_compute. discriminate.
Defined.

(** X2: with a log stream, every chunk of output is appended to its buffer
    and written to the log in order of arrival, and this goes on after the
    promise is settled: the buffers are the concatenation of all chunks and
    the chunks in the log are those of the events, in the same order. *)
Theorem chunks_are_streamed_in_order (command : jsstring)
    (o : IntegrationAgent.Options) (events : list IntegrationAgent.proc_event)
    (t : trace) :
  IntegrationAgent.logStream o = true ->
  let st := IntegrationAgent._executeCommand command o events t in
  IntegrationAgent.stdout_buf st = stdout_of events /\
  IntegrationAgent.stderr_buf st = stderr_of events /\
  chunk_logs (IntegrationAgent.effects st) = chunk_logs t ++ chunks_of events.
Proof.
  intros Hlog. cbv zeta. unfold IntegrationAgent._executeCommand.
  destruct (RunnerStream.run_streams command o events
              (IntegrationAgent.mkProc [] []
                 (negb (Z.eqb (IntegrationAgent.timeout o) 0))
                 IntegrationAgent.Pending (t ++ [Executed command])) Hlog)
    as (Ho & He & Hc).
  cbv zeta in Ho, He, Hc. rewrite Ho, He, Hc.
  cbn [IntegrationAgent.stdout_buf IntegrationAgent.stderr_buf
       IntegrationAgent.effects app].
  rewrite RunnerStream.chunk_logs_app. cbn [chunk_logs]. rewrite app_nil_r.
  repeat split.
Qed.

Lemma chunks_are_streamed_in_order_witness :
  chunk_logs
    (IntegrationAgent.effects
       (IntegrationAgent._executeCommand (lit "npm test")
          (IntegrationAgent.mkOptions 1000 true)
          [IntegrationAgent.StdoutData (lit "a"); IntegrationAgent.TimerExpired;
           IntegrationAgent.StderrData (lit "b"); IntegrationAgent.Close None] []))
  = chunk_logs [] ++
    chunks_of
      [IntegrationAgent.StdoutData (lit "a"); IntegrationAgent.TimerExpired;
       IntegrationAgent.StderrData (lit "b"); IntegrationAgent.Close None].
Proof.
  apply (chunks_are_streamed_in_order (lit "npm test")
           (IntegrationAgent.mkOptions 1000 true)
           [IntegrationAgent.StdoutData (lit "a"); IntegrationAgent.TimerExpired;
            IntegrationAgent.StderrData (lit "b"); IntegrationAgent.Close None] []).
  reflexivity.
Defined.

Lemma first_signal_split (events : list IntegrationAgent.proc_event) :
  forallb is_data events = false ->
  exists pre ev post,
    events = pre ++ ev :: post /\ forallb is_data pre = true /\ is_data ev = false.
Proof.
  induction events as [|ev events IH]; [discriminate|].
  cbn [forallb]. destruct (is_data ev) eqn:Hev; cbn [andb].
  - intros H. destruct (IH H) as (pre & ev' & post & -> & Hpre & Hev').
    exists (ev :: pre), ev', post. cbn [forallb app]. rewrite Hev, Hpre.
    repeat split. exact Hev'.
  - intros _. exists [], ev, events. repeat split. exact Hev.
Qed.

(** X3: with a timeout set, the promise stays pending exactly as long as
    only output has arrived: the first close, error or timer event settles
    it, so an awaited command hangs only if none of them ever comes. *)
Theorem pending_only_while_output (command : jsstring)
    (o : IntegrationAgent.Options) (events : list IntegrationAgent.proc_event)
    (t : trace) :
  IntegrationAgent.timeout o <> 0%Z ->
  (IntegrationAgent.promise (IntegrationAgent._executeCommand command o events t)
   = IntegrationAgent.Pending
   <-> forallb is_data events = true).
Proof.
  intros Htimeout. split.
  - intros Hpending. destruct (forallb is_data events) eqn:Hdata; [reflexivity|].
    destruct (first_signal_split events Hdata) as (pre & ev & post & -> & Hpre & Hev).
    destruct ev; try discriminate Hev.
    + destruct (RunnerOutcomes.run_to_timeout command o pre post t Htimeout Hpre)
        as [Hp _]. cbv zeta in Hp. rewrite Hp in Hpending. discriminate.
    + rewrite (RunnerOutcomes.run_to_close command o pre post code t Hpre)
        in Hpending.
      destruct (IntegrationAgent.is_exit_zero code); discriminate.
    + rewrite (RunnerOutcomes.run_to_error command o pre post err t Hpre)
        in Hpending. discriminate.
  - intros Hdata.
    apply (RunnerFacts.before_first_signal command o events t Hdata).
Qed.

Lemma pending_only_while_output_witness :
  IntegrationAgent.promise
    (IntegrationAgent._executeCommand (lit "tail -f log")
       (IntegrationAgent.mkOptions 1000 true)
       [IntegrationAgent.StdoutData (lit "a"); IntegrationAgent.StderrData (lit "b")] [])
  = IntegrationAgent.Pending.
Proof.
  apply (pending_only_while_output (lit "tail -f log")
           (IntegrationAgent.mkOptions 1000 true)
           [IntegrationAgent.StdoutData (lit "a"); IntegrationAgent.StderrData (lit "b")]
           []).
  - cbn. lia.
  - reflexivity.
Defined.

(** ** The orchestrators, step by step *)

Module TraceFacts.

Lemma notifications_app (t1 t2 : trace) :
  notifications (t1 ++ t2) = notifications t1 ++ notifications t2.
Proof.
  induction t1 as [|e t1 IH]; [reflexivity|].
  destruct e; cbn [app notifications]; rewrite ?IH; reflexivity.
Qed.

Lemma log_ends_app (t1 t2 : trace) :
  log_ends (t1 ++ t2) = log_ends t1 + log_ends t2.
Proof.
  induction t1 as [|e t1 IH]; [reflexivity|].
  destruct e; cbn [app log_ends]; rewrite ?IH; reflexivity.
Qed.

Lemma executed_app (t1 t2 : trace) :
  executed (t1 ++ t2) = executed t1 ++ executed t2.
Proof.
  induction t1 as [|e t1 IH]; [reflexivity|].
  destruct e; cbn [app executed]; rewrite ?IH; reflexivity.
Qed.

End TraceFacts.

(** What one supervised command adds to the trace: its own start, and
    neither a notification nor the end of the log. *)
Module RunnerTrace.

Import IntegrationAgent.

Lemma settle_with_effects (s : settlement) (st : proc_state) :
  effects (settle_with s st) = effects st.
Proof. unfold settle_with. destruct (promise st); reflexivity. Qed.

Lemma handle_is_quiet (command : jsstring) (o : Options) (ev : proc_event)
    (st : proc_state) :
  notifications (effects (handle command o ev st)) = notifications (effects st) /\
  log_ends (effects (handle command o ev st)) = log_ends (effects st) /\
  executed (effects (handle command o ev st)) = executed (effects st).
Proof.
  destruct ev; cbn [handle]; unfold log_write;
    try (destruct (timer_armed st));
    try (destruct (is_exit_zero code));
    try (destruct (logStream o));
    rewrite ?settle_with_effects; cbn [effects disarm kill];
    rewrite ?TraceFacts.notifications_app, ?TraceFacts.log_ends_app,
      ?TraceFacts.executed_app;
    cbn [notifications log_ends executed]; rewrite ?app_nil_r, ?Nat.add_0_r;
    repeat split.
Qed.

Lemma run_is_quiet (command : jsstring) (o : Options) (events : list proc_event)
    (st : proc_state) :
  let st' := forEach events (handle command o) st in
  notifications (effects st') = notifications (effects st) /\
  log_ends (effects st') = log_ends (effects st) /\
  executed (effects st') = executed (effects st).
Proof.
  cbv zeta. revert st. unfold forEach.
  induction events as [|ev events IH]; intros st; cbn [fold_left];
    [repeat split|].
  destruct (IH (handle command o ev st)) as (Hn & Hl & Hx).
  destruct (handle_is_quiet command o ev st) as (Hn1 & Hl1 & Hx1).
  rewrite Hn, Hl, Hx, Hn1, Hl1, Hx1. repeat split.
Qed.



End RunnerTrace.

(** One step of a computation: take apart whatever the next [if] or [match]
    looks at. *)
Ltac split_next :=
  match goal with
  | |- context [if ?b then _ else _] => destruct b eqn:?
  | |- context [match ?x with Some _ => _ | None => _ end] => destruct x eqn:?
  | |- context [match ?x with Normal _ => _ | Throw _ => _ end] => destruct x eqn:?
  | |- context [match ?x with (_, _) => _ end] => destruct x eqn:?
  end.


Section Steps.

Variable JSON_parse : jsstring -> option jsval.
Variable ToString : jsval -> jsstring.



(** The [try] block of the case node ends in a command, in null, or in an
    error that the [catch] turns into null. *)
Lemma unit_node_script_caught {S : Type} (fs : RepoFs) (s : S) :
  exists c,
    World.catch (UnitTestAgent.node_script JSON_parse fs) (fun _ => Eff.ret None) s
    = (s, Normal c).
Proof.
  unfold World.catch, UnitTestAgent.node_script, World.read_file, World.parse_json,
    Eff.prop, Eff.bind, UnitTestAgent.cmd, Eff.ret, Eff.throw.
  repeat split_next; eexists; reflexivity.
Qed.

Lemma integration_node_script_caught {S : Type} (fs : RepoFs) (s : S) :
  exists c,
    World.catch (IntegrationAgent.node_script JSON_parse fs) (fun _ => Eff.ret None) s
    = (s, Normal c).
Proof.
  unfold World.catch, IntegrationAgent.node_script, World.read_file,
    World.parse_json, Eff.prop, Eff.bind, IntegrationAgent.cmd, Eff.ret, Eff.throw.
  repeat split_next; eexists; reflexivity.
Qed.

Lemma unit_command_selection (uenv : UnitTestAgent.Env) (projectType : jsstring)
    (t : trace) :
  exists c t',
    UnitTestAgent._determineTestCommand JSON_parse uenv projectType t
    = (t', Normal c) /\
    (t' = t \/ t' = t ++ [Executed (lit "pip list | grep pytest")]).
Proof.
  unfold UnitTestAgent._determineTestCommand.
  destruct (unit_node_script_caught (S:=trace) (UnitTestAgent.fs uenv) t)
    as [c Hc].
  repeat match goal with
         | |- context [is_tag ?tag projectType] => destruct (is_tag tag projectType)
         end;
    rewrite ?Hc;
    unfold UnitTestAgent.cmd, Eff.ret, Eff.bind, World.emit, Eff.modify;
    repeat split_next; eexists; eexists; (split; [reflexivity|]); auto.
Qed.

Lemma integration_command_selection {S : Type} (fs : RepoFs)
    (projectType : jsstring) (s : S) :
  exists c,
    IntegrationAgent._determineIntegrationTestCommand JSON_parse fs projectType s
    = (s, Normal c).
Proof.
  unfold IntegrationAgent._determineIntegrationTestCommand,
    IntegrationAgent.any_tag.
  destruct (integration_node_script_caught fs s) as [c Hc].
  cbn [existsb].
  repeat match goal with
         | |- context [is_tag ?tag projectType] => destruct (is_tag tag projectType)
         end;
    cbn [orb]; rewrite ?Hc; unfold IntegrationAgent.cmd, Eff.ret;
    repeat split_next; eexists; reflexivity.
Qed.

(** X4: selecting the test command never throws, for any project type and
    any state of the repository, also when package.json is missing,
    unreadable or malformed: the unit agent answers with a command or null
    and starts at most the one probe "pip list | grep pytest"; the
    integration agent answers with a command or null and changes nothing. *)
Theorem command_selection_never_throws (uenv : UnitTestAgent.Env) (fs : RepoFs)
    (projectType : jsstring) (t : trace) :
  (exists c t',
     UnitTestAgent._determineTestCommand JSON_parse uenv projectType t
     = (t', Normal c) /\
     (t' = t \/ t' = t ++ [Executed (lit "pip list | grep pytest")])) /\
  (exists c,
     IntegrationAgent._determineIntegrationTestCommand JSON_parse fs projectType t
     = (t, Normal c)).
Proof.
  split.
  - apply unit_command_selection.
  - apply integration_command_selection.
Qed.





End Steps.

(** ** Literal patterns and [includes] *)

Module RegexFacts.

Lemma startsWith_app (a b s : jsstring) :
  startsWith (a ++ b) s = startsWith a s && startsWith b (skipn (List.length a) s).
Proof.
  revert s. induction a as [|x a IH]; intros s; [reflexivity|].
  destruct s as [|y s]; cbn [app startsWith List.length skipn]; [reflexivity|].
  rewrite IH, andb_assoc. reflexivity.
Qed.

Lemma includes_of_startsWith (p s : jsstring) :
  startsWith p s = true -> includes p s = true.
Proof. intros H. destruct s; cbn [includes]; rewrite H; reflexivity. Qed.

Lemma includes_cons (p : jsstring) (c : N) (s : jsstring) :
  includes p s = true -> includes p (c :: s) = true.
Proof. intros H. cbn [includes]. rewrite H. apply orb_true_r. Qed.

(** A literal run matches exactly where the text starts with it. *)
Lemma run_literal {A : Type} (l s : jsstring) (cs : captures)
    (k : jsstring -> captures -> option A) :
  run false (fold_right (fun c r => Seq (Chr c) r) Eps l) s cs k
  = if startsWith l s then k (skipn (List.length l) s) cs else None.
Proof.
  revert s. induction l as [|c l IH]; intros s; [reflexivity|].
  cbn [fold_right run startsWith List.length].
  destruct s as [|x s]; [reflexivity|].
  unfold chr_match, unit_eqb. cbn [skipn].
  destruct (N.eqb c x); [apply IH|reflexivity].
Qed.

Lemma run_Str {A : Type} (p : string) (s : jsstring) (cs : captures)
    (k : jsstring -> captures -> option A) :
  run false (Str p) s cs k
  = if startsWith (lit p) s then k (skipn (List.length (lit p)) s) cs else None.
Proof. apply run_literal. Qed.

(** [s.match(/literal/)] finds something exactly when [s.includes(literal)]. *)
Lemma search_literal (p : string) (s : jsstring) :
  matches (plain (Str p)) s = includes (lit p) s.
Proof.
  unfold matches, js_match. cbn [anchored plain].
  induction s as [|c s IH]; cbn [search includes]; unfold match_here;
    cbn [ignoreCase body plain run]; rewrite run_Str;
    destruct (startsWith (lit p) _); try reflexivity.
  cbn [orb]. exact IH.
Qed.

Lemma js_match_literal (p : string) (s : jsstring) :
  match js_match (plain (Str p)) s with
  | Some _ => includes (lit p) s = true
  | None => includes (lit p) s = false
  end.
Proof.
  pose proof (search_literal p s) as H. unfold matches in H.
  destruct (js_match (plain (Str p)) s); auto.
Qed.

(** A pattern found somewhere is found at some suffix. *)
Lemma search_found (rx : regex) (s : jsstring) (P : jsstring -> Prop) :
  (forall s', match_here rx s' <> None -> P s') ->
  (forall c s', P s' -> P (c :: s')) ->
  search rx s <> None -> P s.
Proof.
  intros Hhere Hcons. induction s as [|c s IH]; cbn [search]; intros Hs.
  - apply Hhere. destruct (match_here rx []); [discriminate|contradiction].
  - destruct (match_here rx (c :: s)) eqn:Hm.
    + apply Hhere. rewrite Hm. discriminate.
    + apply Hcons, IH, Hs.
Qed.

End RegexFacts.

(** ** Counting lines *)

Module LineCounts.

Lemma filter_le {A : Type} (f : A -> bool) (l : list A) :
  (List.length (filter f l) <= List.length l)%nat.
Proof.
  induction l as [|x l IH]; cbn [filter List.length]; [lia|].
  destruct (f x); cbn [List.length]; lia.
Qed.

(** Lines that each carry one of three marks are counted at least once by
    the three counts together. *)
Lemma covered_by_three {A : Type} (a b c : A -> bool) (l : list A) :
  (forall x, In x l -> a x || b x || c x = true) ->
  (List.length l
   <= List.length (filter a l) + List.length (filter b l)
      + List.length (filter c l))%nat.
Proof.
  induction l as [|x l IH]; intros Hall; cbn [filter List.length]; [lia|].
  assert (Hx : a x || b x || c x = true) by (apply Hall; left; reflexivity).
  assert (IH' : (List.length l
                 <= List.length (filter a l) + List.length (filter b l)
                    + List.length (filter c l))%nat).
  { apply IH. intros y Hy. apply Hall. right. exact Hy. }
  destruct (a x), (b x), (c x); cbn [List.length]; try discriminate Hx; lia.
Qed.

Lemma covered_by_two {A : Type} (a b : A -> bool) (l : list A) :
  (forall x, In x l -> a x || b x = true) ->
  (List.length l <= List.length (filter a l) + List.length (filter b l))%nat.
Proof.
  induction l as [|x l IH]; intros Hall; cbn [filter List.length]; [lia|].
  assert (Hx : a x || b x = true) by (apply Hall; left; reflexivity).
  assert (IH' : (List.length l
                 <= List.length (filter a l) + List.length (filter b l))%nat).
  { apply IH. intros y Hy. apply Hall. right. exact Hy. }
  destruct (a x), (b x); cbn [List.length]; try discriminate Hx; lia.
Qed.

End LineCounts.

(** ** The Go parser *)

Module GoFacts.

Import RegexFacts.

(** A line the Go parser counts carries one of the three marks it then
    counts by. *)
Lemma go_line_marked (line : jsstring) :
  matches UnitTestAgent.go_line_rx line = true ->
  includes_s "--- PASS" line || includes_s "--- FAIL" line
  || includes_s "--- SKIP" line = true.
Proof.
  unfold matches, js_match. cbn [anchored UnitTestAgent.go_line_rx plain].
  intros Hm.
  apply (search_found (plain (cat [Str "--- "; Grp 1 UnitTestAgent.pass_fail_skip;
                                   Str ": Test"; w_plus])) line
           (fun s => includes_s "--- PASS" s || includes_s "--- FAIL" s
                     || includes_s "--- SKIP" s = true)).
  - intros s Hs. unfold match_here in Hs.
    cbn [ignoreCase body plain cat run UnitTestAgent.pass_fail_skip] in Hs.
    rewrite run_Str in Hs.
    destruct (startsWith (lit "--- ") s) eqn:Hdash; [|contradiction Hs; reflexivity].
    rewrite !run_Str in Hs.
    unfold includes_s.
    change (lit "--- PASS") with (lit "--- " ++ lit "PASS").
    change (lit "--- FAIL") with (lit "--- " ++ lit "FAIL").
    change (lit "--- SKIP") with (lit "--- " ++ lit "SKIP").
    destruct (startsWith (lit "PASS") (skipn (List.length (lit "--- ")) s)) eqn:Hp.
    { rewrite (includes_of_startsWith (lit "--- " ++ lit "PASS") s);
        [reflexivity|]. rewrite startsWith_app, Hdash, Hp. reflexivity. }
    destruct (startsWith (lit "FAIL") (skipn (List.length (lit "--- ")) s)) eqn:Hf.
    { rewrite (includes_of_startsWith (lit "--- " ++ lit "FAIL") s);
        [rewrite ?orb_true_r; reflexivity|].
      rewrite startsWith_app, Hdash, Hf. reflexivity. }
    destruct (startsWith (lit "SKIP") (skipn (List.length (lit "--- ")) s)) eqn:Hk.
    { rewrite (includes_of_startsWith (lit "--- " ++ lit "SKIP") s);
        [rewrite !orb_true_r; reflexivity|].
      rewrite startsWith_app, Hdash, Hk. reflexivity. }
    contradiction Hs. reflexivity.
  - intros c s Hs. unfold includes_s in *.
    apply orb_true_iff in Hs. destruct Hs as [Hs|Hs];
      [apply orb_true_iff in Hs; destruct Hs as [Hs|Hs]|];
      rewrite (includes_cons _ c s Hs), ?orb_true_r; reflexivity.
  - destruct (search _ line); [discriminate|discriminate Hm].
Qed.

End GoFacts.

(** X7: the Go parser.  The verdict is null, not false, when the output
    holds no PASS, and otherwise says whether FAIL is absent.  The result
    lines are the lines of the output that match "--- PASS|FAIL|SKIP:
    Test..."; the total is their number, passed, failed and skipped are the
    numbers of result lines that contain "--- PASS", "--- FAIL" and
    "--- SKIP", and one detail is pushed for each result line, in order.
    Each of the three counts is at most the total, and together they are at
    least the total (a line can carry two marks and is then counted
    twice). *)
Theorem go_verdict_and_counts (stdout stderr : jsstring) (r : TestRunResult) :
  let output := combined stdout stderr in
  let r' := UnitTestAgent._parseGoResults stdout stderr r in
  let testLines :=
    filter (matches UnitTestAgent.go_line_rx) (split_lines output) in
  let marked mark := List.length (filter (includes_s mark) testLines) in
  success r'
  = (if includes_s "PASS" output
     then VBool (negb (includes_s "FAIL" output))
     else VNull) /\
  counts (summary r')
  = Some (Z.of_nat (List.length testLines), Z.of_nat (marked "--- PASS"),
          Z.of_nat (marked "--- FAIL"), Z.of_nat (marked "--- SKIP")) /\
  details r' = details r ++ map UnitTestAgent.go_case testLines /\
  (marked "--- PASS" <= List.length testLines /\
   marked "--- FAIL" <= List.length testLines /\
   marked "--- SKIP" <= List.length testLines /\
   List.length testLines
   <= marked "--- PASS" + marked "--- FAIL" + marked "--- SKIP")%nat.
Proof.
  cbv zeta. unfold UnitTestAgent._parseGoResults.
  set (output := combined stdout stderr).
  set (testLines := filter (matches UnitTestAgent.go_line_rx) (split_lines output)).
  match goal with
  | |- context [forEach testLines _ ?r0] =>
      destruct (forEach_push_frame _ UnitTestAgent.go_case testLines r0)
        as (Hs & Hm & _ & _ & _ & Hd)
  end.
  cbv zeta in Hs, Hm, Hd. rewrite Hs, Hm, Hd. clear Hs Hm Hd.
  pose proof (RegexFacts.js_match_literal "PASS" output) as Hp.
  pose proof (RegexFacts.js_match_literal "FAIL" output) as Hf.
  unfold includes_s.
  split.
  { destruct (js_match UnitTestAgent.go_time_rx output);
      cbn [success set_duration set_skipped set_failed set_passed set_total
           set_summary set_success];
      destruct (js_match (plain (Str "PASS")) output); rewrite Hp;
      destruct (js_match (plain (Str "FAIL")) output); rewrite ?Hf; reflexivity. }
  split; [destruct (js_match UnitTestAgent.go_time_rx output); reflexivity|].
  split; [destruct (js_match UnitTestAgent.go_time_rx output); reflexivity|].
  split; [apply LineCounts.filter_le|].
  split; [apply LineCounts.filter_le|].
  split; [apply LineCounts.filter_le|].
  apply LineCounts.covered_by_three.
  intros line Hin. apply GoFacts.go_line_marked.
  unfold testLines in Hin. apply filter_In in Hin. apply Hin.
Qed.

(** ** Summaries whose counts are derived from one another *)

Module DerivedCounts.

Import JsNumber.

Lemma add_exact (a b : Z) :
  (Z.abs (a + b) <= 2 ^ 53)%Z -> add (Num a) (Num b) = Num (a + b).
Proof. intros H. cbn [add]. apply NumberFacts.round_exact, H. Qed.

Lemma sub_exact (a b : Z) :
  (Z.abs (a - b) <= 2 ^ 53)%Z -> sub (Num a) (Num b) = Num (a - b).
Proof.
  intros H. unfold sub. cbn [neg add].
  replace (a + - b)%Z with (a - b)%Z by lia. apply NumberFacts.round_exact, H.
Qed.

(** With counts of at most 2^51 the derived count is exact, and the four
    counts add up. *)
Lemma derived_sums (t fl er k : number) :
  small t -> small fl -> small er -> small k ->
  sums_to t (sub (sub t (add fl er)) k) (add fl er) k.
Proof.
  destruct t as [t| | |], fl as [fl| | |], er as [er| | |], k as [k| | |];
    cbn [small]; try tauto.
  intros Ht Hfl Her Hk. unfold sums_to.
  assert (E51 : (2 ^ 51 = 2251799813685248)%Z) by reflexivity.
  assert (E53 : (2 ^ 53 = 9007199254740992)%Z) by reflexivity.
  rewrite (add_exact fl er) by lia.
  rewrite (sub_exact t (fl + er)) by lia.
  rewrite (sub_exact (t - (fl + er)) k) by lia.
  rewrite (add_exact (t - (fl + er) - k) (fl + er)) by lia.
  rewrite (add_exact (t - (fl + er) - k + (fl + er)) k) by lia.
  cbn [eqb]. apply Z.eqb_eq. lia.
Qed.

Lemma adds_up_of_numbers (s : Summary) (t p f k : number) :
  numbers s = Some (t, p, f, k) -> sums_to t p f k -> adds_up s.
Proof.
  unfold numbers, adds_up.
  destruct (total s), (passed s), (failed s), (skipped s); try discriminate.
  intros [= <- <- <- <-] H. eauto 10.
Qed.

Lemma unit_java_found (stdout stderr : jsstring) (r : TestRunResult)
    (cs : captures) :
  js_match surefire_rx (combined stdout stderr) = Some cs ->
  numbers (summary (UnitTestAgent._parseJavaResults stdout stderr r))
  = Some (surefire_counts cs).
Proof.
  intros Hm. unfold UnitTestAgent._parseJavaResults. summary_of_parser.
  rewrite Hm. destruct (js_match time_elapsed_rx _); reflexivity.
Qed.

Lemma integration_java_found (stdout stderr : jsstring) (r : TestRunResult)
    (cs : captures) :
  js_match surefire_rx (combined stdout stderr) = Some cs ->
  numbers (summary (IntegrationAgent._parseJavaResults stdout stderr r))
  = Some (surefire_counts cs).
Proof.
  intros Hm. unfold IntegrationAgent._parseJavaResults. summary_of_parser.
  rewrite Hm. destruct (js_match time_elapsed_rx _); reflexivity.
Qed.

Lemma surefire_sums (cs : captures) :
  small (parseInt (nth_group 1 cs)) -> small (parseInt (nth_group 2 cs)) ->
  small (parseInt (nth_group 3 cs)) -> small (parseInt (nth_group 4 cs)) ->
  let '(t, p, f, k) := surefire_counts cs in sums_to t p f k.
Proof. intros H1 H2 H3 H4. cbn. apply derived_sums; assumption. Qed.

End DerivedCounts.

(** X8: on output with a Surefire line "Tests run: T, Failures: F, Errors:
    E, Skipped: K" the Java parsers of both agents report total T, failed
    F + E, skipped K and derive passed as T - (F + E) - K, in the arithmetic
    of JavaScript numbers; without such a line they leave the four counts
    alone.  When the four numbers read are at most 2^51 the arithmetic is
    exact and the summary adds up; beyond the range of exact integers it
    need not.  The Playwright parser reports the passed count it reads, the
    failed count it reads or 0, and their sum as total; it never writes the
    skipped count. *)
Theorem derived_counts_add_up (stdout stderr : jsstring) (r : TestRunResult) :
  let output := combined stdout stderr in
  let unit_java := UnitTestAgent._parseJavaResults stdout stderr r in
  let java := IntegrationAgent._parseJavaResults stdout stderr r in
  let playwright := IntegrationAgent._parsePlaywrightResults stdout stderr r in
  let same_counts r' :=
    total (summary r') = total (summary r) /\
    passed (summary r') = passed (summary r) /\
    failed (summary r') = failed (summary r) /\
    skipped (summary r') = skipped (summary r) in
  (forall cs, js_match surefire_rx output = Some cs ->
     numbers (summary unit_java) = Some (surefire_counts cs) /\
     numbers (summary java) = Some (surefire_counts cs) /\
     (small (parseInt (nth_group 1 cs)) -> small (parseInt (nth_group 2 cs)) ->
      small (parseInt (nth_group 3 cs)) -> small (parseInt (nth_group 4 cs)) ->
      adds_up (summary unit_java) /\ adds_up (summary java))) /\
  (js_match surefire_rx output = None -> same_counts unit_java /\ same_counts java) /\
  (forall cs, js_match IntegrationAgent.playwright_rx output = Some cs ->
     let p := parseInt (nth_group 1 cs) in
     let f := match group 4 cs with Some s => parseInt s | None => Num 0 end in
     total (summary playwright) = VNum (JsNumber.add p f) /\
     passed (summary playwright) = VNum p /\
     failed (summary playwright) = VNum f /\
     skipped (summary playwright) = skipped (summary r)) /\
  (js_match IntegrationAgent.playwright_rx output = None -> same_counts playwright).
Proof.
  cbv zeta. split; [|split; [|split]].
  - intros cs Hm.
    pose proof (DerivedCounts.unit_java_found stdout stderr r cs Hm) as Hu.
    pose proof (DerivedCounts.integration_java_found stdout stderr r cs Hm) as Hi.
    split; [exact Hu|]. split; [exact Hi|].
    intros H1 H2 H3 H4.
    pose proof (DerivedCounts.surefire_sums cs H1 H2 H3 H4) as Hsum.
    destruct (surefire_counts cs) as [[[t p] f] k].
    split; eapply DerivedCounts.adds_up_of_numbers; eassumption.
  - intros Hm. split.
    + unfold UnitTestAgent._parseJavaResults. summary_of_parser. rewrite Hm.
      destruct (js_match time_elapsed_rx _); repeat split.
    + unfold IntegrationAgent._parseJavaResults. summary_of_parser. rewrite Hm.
      destruct (js_match time_elapsed_rx _); repeat split.
  - intros cs Hm. unfold IntegrationAgent._parsePlaywrightResults.
    summary_of_parser. rewrite Hm. repeat split.
  - intros Hm. unfold IntegrationAgent._parsePlaywrightResults.
    summary_of_parser. rewrite Hm. repeat split.
Qed.

(** A Surefire line within the exact range, and one beyond it: with
    2^54 failures the passed count is rounded to -(2^54 - 4), and the counts
    sum to 4 against a total of 3. *)
Lemma derived_counts_add_up_witness :
  adds_up (summary (UnitTestAgent._parseJavaResults
                      (lit "Tests run: 5, Failures: 1, Errors: 1, Skipped: 1") []
                      (UnitTestAgent.standardResult0 [] []))) /\
  numbers (summary (UnitTestAgent._parseJavaResults
                      (lit "Tests run: 3, Failures: 18014398509481984, Errors: 0, Skipped: 0")
                      [] (UnitTestAgent.standardResult0 [] [])))
  = Some (Num 3, Num (-18014398509481980), Num 18014398509481984, Num 0) /\
  ~ adds_up (summary (UnitTestAgent._parseJavaResults
                      (lit "Tests run: 3, Failures: 18014398509481984, Errors: 0, Skipped: 0")
                      [] (UnitTestAgent.standardResult0 [] []))).
Proof.
  split; [|split].
  - destruct (js_match surefire_rx
                (combined (lit "Tests run: 5, Failures: 1, Errors: 1, Skipped: 1") []))
      as [cs|] eqn:Hm; [|vm_compute in Hm; discriminate Hm].
    destruct (derived_counts_add_up
                (lit "Tests run: 5, Failures: 1, Errors: 1, Skipped: 1") []
                (UnitTestAgent.standardResult0 [] [])) as (Hfound & _).
    destruct (Hfound cs Hm) as (_ & _ & Hsmall).
    vm_compute in Hm. injection Hm as <-.
    apply Hsmall; cbv; discriminate.
  - vm_compute. reflexivity.
  - intros H. eapply adds_up_numbers in H; [|vm_compute; reflexivity].
    vm_compute in H. discriminate H.
Defined.

(** X9: the Docker Compose parser.  The total is at least 1; passed and
    failed are each at most the total and together at least the total (a
    line with PASS and ERROR but no FAIL is counted on both sides); the
    skipped count is never written. *)
Theorem docker_counts (stdout stderr : jsstring) (r : TestRunResult) :
  let r' := IntegrationAgent._parseDockerComposeResults stdout stderr r in
  skipped (summary r') = skipped (summary r) /\
  exists n p f : Z,
    total (summary r') = VNum n /\ passed (summary r') = VNum p /\
    failed (summary r') = VNum f /\
    (1 <= n /\ 0 <= p <= n /\ 0 <= f <= n /\ n <= p + f)%Z.
Proof.
  cbv zeta. unfold IntegrationAgent._parseDockerComposeResults.
  summary_of_parser.
  set (testLines := filter IntegrationAgent.docker_test_line _).
  set (isp := fun line : jsstring =>
                includes_s "PASS" line && negb (includes_s "FAIL" line)).
  set (isf := fun line : jsstring => includes_s "FAIL" line || includes_s "ERROR" line).
  pose proof (LineCounts.filter_le isp testLines) as Hp.
  pose proof (LineCounts.filter_le isf testLines) as Hf.
  assert (Hcov : (List.length testLines
                  <= List.length (filter isp testLines)
                     + List.length (filter isf testLines))%nat).
  { apply LineCounts.covered_by_two. intros line Hin.
    unfold testLines in Hin. apply filter_In in Hin. destruct Hin as [_ Hl].
    unfold IntegrationAgent.docker_test_line in Hl. unfold isp, isf.
    destruct (includes_s "PASS" line), (includes_s "FAIL" line),
      (includes_s "ERROR" line); try reflexivity; discriminate Hl. }
  destruct (Z.eqb_spec (Z.of_nat (List.length (filter isp testLines))) 0) as [Hp0|Hp0];
    destruct (Z.eqb_spec (Z.of_nat (List.length (filter isf testLines))) 0) as [Hf0|Hf0];
    cbn [andb]; summary_of_parser;
    (split; [reflexivity|]).
  1: { destruct (negb _ || _); eexists _, _, _; repeat split; lia. }
  all: destruct (Z.eqb_spec (Z.of_nat (List.length testLines)) 0);
    eexists _, _, _; repeat split; lia.
Qed.

(** ** The generic parser counts what it pushes *)

Lemma generic_loop_counts (rx : regex) (lines : list jsstring) (c : Z)
    (r : TestRunResult) :
  exists added : nat,
    fst (forEach lines (generic_step rx) (c, r)) = (c + Z.of_nat added)%Z /\
    List.length (details (snd (forEach lines (generic_step rx) (c, r))))
    = (List.length (details r) + added)%nat.
Proof.
  revert c r. unfold forEach.
  induction lines as [|line lines IH]; intros c r; cbn [fold_left].
  - exists 0%nat. cbn [fst snd]. split; lia.
  - unfold generic_step at 2 4.
    destruct (matches rx line && _).
    + destruct (IH (c + 1)%Z
                  (push_detail
                     (mkTestCase (VStr (trim line)) (str "unknown")
                        (str (if includes_s "pass" line then "passed" else "failed"))
                        (VNum 0)
                        (failure_of (if includes_s "pass" line then "passed" else "failed")
                           line)) r)) as (added & Hc & Hd).
      exists (S added). rewrite Hc, Hd. cbn [push_detail details].
      rewrite length_app. cbn [List.length]. split; lia.
    + apply IH.
Qed.

(** X10: the generic parsers of both agents push one detail for every line
    they count, and report as total the number of details they pushed, or 1
    when they pushed none. *)
Theorem generic_total_counts_details (stdout stderr : jsstring)
    (r : TestRunResult) :
  let pushed r' := (List.length (details r') - List.length (details r))%nat in
  let reported r' := total (summary r') = VNum (Z.max 1 (Z.of_nat (pushed r'))) in
  (List.length (details r)
   <= List.length (details (UnitTestAgent._parseGenericResults stdout stderr r)))%nat /\
  reported (UnitTestAgent._parseGenericResults stdout stderr r) /\
  (List.length (details r)
   <= List.length (details (IntegrationAgent._parseGenericResults stdout stderr r)))%nat /\
  reported (IntegrationAgent._parseGenericResults stdout stderr r).
Proof.
  cbv zeta.
  assert (H : forall rx,
            (List.length (details r)
             <= List.length (details (parseGenericResults rx stdout stderr r)))%nat /\
            total (summary (parseGenericResults rx stdout stderr r))
            = VNum (Z.max 1
                      (Z.of_nat
                         (List.length (details (parseGenericResults rx stdout stderr r))
                          - List.length (details r))))).
  { intros rx. unfold parseGenericResults.
    set (ok := negb _).
    destruct (generic_loop_counts rx (split_lines (combined stdout stderr)) 0
                (set_success (VBool ok) r)) as (added & Hc & Hd).
    destruct (forEach (split_lines (combined stdout stderr)) (generic_step rx)
                (0%Z, set_success (VBool ok) r)) as [testCount r2].
    cbn [fst snd] in Hc, Hd. cbn [set_success details] in Hd.
    assert (Hmax : (if Z.eqb testCount 0 then 1 else testCount)%Z
                   = Z.max 1 (Z.of_nat added)).
    { destruct (Z.eqb_spec testCount 0); lia. }
    destruct ok;
      cbn [set_passed set_failed set_total set_summary summary details total];
      rewrite Hd, Hmax;
      (split; [lia|]);
      replace (List.length (details r) + added - List.length (details r))%nat
        with added by lia; reflexivity. }
  split; [apply (H UnitTestAgent.generic_rx)|].
  split; [apply (H UnitTestAgent.generic_rx)|].
  split; apply (H IntegrationAgent.generic_rx).
Qed.

(** ** The raw output under the parsers of the unit agent *)

Module KeepsRaw.

Import Eff.

Lemma keeps_ret {A : Type} (a : A) : keeps_raw (ret a).
Proof. intros r. split; reflexivity. Qed.

Lemma keeps_throw {A : Type} (e : error) : keeps_raw (@throw _ _ A e).
Proof. intros r. split; reflexivity. Qed.

Lemma keeps_bind {A B : Type} (m : Parser A) (f : A -> Parser B) :
  keeps_raw m -> (forall a, keeps_raw (f a)) -> keeps_raw (bind m f).
Proof.
  intros Hm Hf r. unfold bind. destruct (Hm r) as [Ho He].
  destruct (m r) as [r1 [a|e]]; cbn [fst] in *.
  - destruct (Hf a r1) as [Ho' He']. rewrite Ho', He'. split; assumption.
  - split; assumption.
Qed.

Lemma keeps_modify (f : TestRunResult -> TestRunResult) :
  (forall r, rawOutput (f r) = rawOutput r /\ rawError (f r) = rawError r) ->
  keeps_raw (modify f).
Proof. intros Hf r. apply Hf. Qed.

Lemma keeps_prop (v : jsval) (k : string) : keeps_raw (prop v k).
Proof. unfold prop. destruct (get v (lit k)); [apply keeps_ret|apply keeps_throw]. Qed.

Lemma keeps_each {A : Type} (l : list A) (f : A -> Parser unit) :
  (forall a, keeps_raw (f a)) -> keeps_raw (each l f).
Proof.
  intros Hf. induction l as [|a l IH]; cbn [each]; [apply keeps_ret|].
  apply keeps_bind; [apply Hf|intros _; exact IH].
Qed.

Lemma keeps_forEachVal (v : jsval) (f : jsval -> Parser unit) :
  (forall a, keeps_raw (f a)) -> keeps_raw (forEachVal v f).
Proof.
  intros Hf. destruct v; cbn [forEachVal]; try apply keeps_throw.
  apply keeps_each, Hf.
Qed.

Lemma keeps_parse_json (JSON_parse : jsstring -> option jsval) (text : jsstring) :
  keeps_raw (World.parse_json JSON_parse text).
Proof.
  unfold World.parse_json. destruct (JSON_parse text);
    [apply keeps_ret|apply keeps_throw].
Qed.

Ltac step :=
  first [ apply keeps_ret | apply keeps_throw | apply keeps_prop
        | apply keeps_parse_json
        | apply keeps_modify; intros ?; split; reflexivity
        | apply keeps_bind; [|intros ?]
        | apply keeps_forEachVal; intros ?
        | apply keeps_each; intros ? ].

Section Json.

Variable JSON_parse : jsstring -> option jsval.
Variable ToString : jsval -> jsstring.

Lemma keeps_jest_try (stdout : jsstring) :
  keeps_raw (UnitTestAgent.jest_try JSON_parse stdout).
Proof. unfold UnitTestAgent.jest_try. repeat step. Qed.

Lemma keeps_processMochaTests (tests : jsval) (status : string) :
  keeps_raw (UnitTestAgent._processMochaTests ToString tests status).
Proof.
  unfold UnitTestAgent._processMochaTests, UnitTestAgent.mocha_suite.
  destruct tests; try apply keeps_ret.
  repeat first [ step
               | match goal with
                 | |- keeps_raw (match ?v with _ => _ end) => destruct v
                 | |- keeps_raw (if ?b then _ else _) => destruct b
                 end ].
Qed.

Lemma keeps_mocha_try (stdout : jsstring) :
  keeps_raw (UnitTestAgent.mocha_try JSON_parse ToString stdout).
Proof.
  unfold UnitTestAgent.mocha_try.
  repeat first [ apply keeps_processMochaTests | step ].
Qed.

Lemma generic_keeps_raw (rx : regex) (stdout stderr : jsstring) (r : TestRunResult) :
  rawOutput (parseGenericResults rx stdout stderr r) = rawOutput r /\
  rawError (parseGenericResults rx stdout stderr r) = rawError r.
Proof.
  destruct (generic_result rx stdout stderr r) as (tot & ok & _ & _ & _ & Ho & He).
  split; assumption.
Qed.

Lemma unit_parsers_keep_raw (stdout stderr projectType : jsstring)
    (r : TestRunResult) :
  let r' := fst (UnitTestAgent.parse_switch JSON_parse ToString stdout stderr
                   projectType r) in
  rawOutput r' = rawOutput r /\ rawError r' = rawError r.
Proof.
  cbv zeta. unfold UnitTestAgent.parse_switch.
  repeat match goal with
         | |- context [if ?b then Eff.modify _ else _] => destruct b
         end;
    cbn [Eff.modify fst].
  - unfold UnitTestAgent._parseJestResults.
    destruct (keeps_jest_try stdout r) as [Ho He].
    destruct (UnitTestAgent.jest_try JSON_parse stdout r) as [r1 [u|e]];
      cbn [fst] in Ho, He; [split; assumption|].
    destruct (generic_keeps_raw UnitTestAgent.generic_rx stdout [] r1) as [Ho' He'].
    unfold UnitTestAgent._parseGenericResults. rewrite Ho', He'. split; assumption.
  - unfold UnitTestAgent._parseMochaResults.
    destruct (keeps_mocha_try stdout r) as [Ho He].
    destruct (UnitTestAgent.mocha_try JSON_parse ToString stdout r) as [r1 [u|e]];
      cbn [fst] in Ho, He; [split; assumption|].
    destruct (generic_keeps_raw UnitTestAgent.generic_rx stdout [] r1) as [Ho' He'].
    unfold UnitTestAgent._parseGenericResults. rewrite Ho', He'. split; assumption.
  - unfold UnitTestAgent._parsePythonResults. raw_of_parser.
  - unfold UnitTestAgent._parseJavaResults. raw_of_parser.
  - unfold UnitTestAgent._parseRustResults. raw_of_parser.
  - unfold UnitTestAgent._parseGoResults. raw_of_parser.
  - apply generic_keeps_raw.
Qed.

End Json.

End KeepsRaw.

(** X11: whatever the project type, and whichever parser or fallback ran,
    the result the unit agent returns carries stdout and stderr of the test
    command unchanged in rawOutput and rawError; this holds when a JSON
    parser gave up half-way and when the result carries an error. *)
Theorem unit_results_keep_raw_output (JSON_parse : jsstring -> option jsval)
    (ToString : jsval -> jsstring) (stdout stderr projectType : jsstring) :
  exists r : TestRunResult,
    UnitTestAgent._parseTestResults JSON_parse ToString stdout stderr projectType
    = Normal r /\
    rawOutput r = stdout /\ rawError r = stderr.
Proof.
  unfold UnitTestAgent._parseTestResults.
  destruct (is_tag "empty" projectType).
  { eexists. split; [reflexivity|]. split; reflexivity. }
  pose proof (KeepsRaw.unit_parsers_keep_raw JSON_parse ToString stdout stderr
                projectType (UnitTestAgent.standardResult0 stdout stderr)) as Hraw.
  cbv zeta in Hraw.
  destruct (UnitTestAgent.parse_switch _ _ _ _ _ _) as [r' [u|e]];
    cbn [fst] in Hraw; destruct Hraw as [Ho He];
    eexists; (split; [reflexivity|]);
    cbn [set_error rawOutput rawError]; rewrite Ho, He; split; reflexivity.
Qed.

(** ** From the detected project type to the command *)

Section Selection.

Variable JSON_parse : jsstring -> option jsval.

Ltac leaf :=
  cbn [snd UnitTestAgent.tag IntegrationAgent.tag Eff.ret]; intros pt H;
  injection H as <-; cbn [map In]; auto 20.

Lemma unit_detect_range {S : Type} (fs : RepoFs) (s : S) (projectType : jsstring) :
  snd (UnitTestAgent._detectProjectType JSON_parse fs s) = Normal projectType ->
  In projectType
    (map lit ["jest"; "mocha"; "karma"; "node"; "pytest"; "unittest"; "python";
              "maven"; "gradle"; "rust"; "go"; "empty"; "unknown"]).
Proof.
  revert projectType.
  unfold UnitTestAgent._detectProjectType, World.deps_of, World.read_file,
    World.parse_json, Eff.prop, Eff.bind, Eff.throw.
  repeat split_next; first [leaf | cbn [snd]; intros pt H; discriminate H].
Qed.

Lemma integration_detect_range {S : Type} (fs : RepoFs) (s : S)
    (projectType : jsstring) :
  snd (IntegrationAgent._detectProjectType JSON_parse fs s) = Normal projectType ->
  In projectType
    (map lit ["empty"; "cypress"; "playwright"; "protractor"; "jest-dom"; "jest";
              "mocha-supertest"; "node"; "selenium-python"; "pytest"; "behave";
              "python"; "selenium-java"; "cucumber-java"; "rest-assured"; "maven";
              "gradle"; "docker-compose"; "unknown"]).
Proof.
  revert projectType.
  unfold IntegrationAgent._detectProjectType, IntegrationAgent.detect_manifests,
    World.deps_of, World.read_file,
    World.parse_json, Eff.prop, Eff.bind, Eff.throw.
  repeat split_next; first [leaf | cbn [snd]; intros pt H; discriminate H].
Qed.

Ltac tag_values H :=
  repeat match type of H with
         | context [is_tag ?a ?b] =>
             let v := eval vm_compute in (is_tag a b) in
             change (is_tag a b) with v in H
         end;
  cbn [orb andb negb] in H; cbv iota in H.

Ltac no_such_tag :=
  let H := fresh in
  intros H; cbn [map In] in H;
  repeat match type of H with
         | _ \/ _ => destruct H as [H|H]
         end;
  try contradiction; vm_compute in H; discriminate H.

Ltac tag_listed := intros _; cbn [map In]; auto 20.

(** X12: what the unit agent detects, it can run.  For every project type
    its detection returns, the command selection returns a command, except
    for a Node.js project without a test script and for the type unknown,
    which never has one. *)
Theorem unit_detected_types_have_commands (env : UnitTestAgent.Env)
    (s t : trace) (projectType : jsstring) :
  snd (UnitTestAgent._detectProjectType JSON_parse (UnitTestAgent.fs env) s)
  = Normal projectType ->
  exists c t',
    UnitTestAgent._determineTestCommand JSON_parse env projectType t
    = (t', Normal c) /\
    (World.given c = None -> In projectType (map lit ["node"; "unknown"])) /\
    (projectType = lit "unknown" -> c = None).
Proof.
  intros Hdet. apply unit_detect_range in Hdet.
  destruct (unit_command_selection JSON_parse env projectType t)
    as (c & t' & Hc & _).
  exists c, t'. split; [exact Hc|].
  cbn [map In] in Hdet.
  repeat match type of Hdet with
         | _ \/ _ => destruct Hdet as [Hdet|Hdet]
         end; try contradiction; subst projectType;
    unfold UnitTestAgent._determineTestCommand in Hc; tag_values Hc;
    (split;
     [ first [ solve [tag_listed]
             | unfold UnitTestAgent.cmd, Eff.ret, Eff.bind, World.emit, Eff.modify in Hc;
               try (destruct (UnitTestAgent.execAsync env _));
               injection Hc as _ <-; vm_compute; intros H; discriminate H ]
     | first [ no_such_tag
             | unfold Eff.ret in Hc; injection Hc as _ <-; intros _; reflexivity ] ]).
Qed.

(** X13: what the integration agent detects and can run.  For every
    project type its detection returns, the command selection returns a
    command, except for a Node.js project without an integration script and
    for the types python and unknown (and empty, which is answered before a
    command is asked for): a Python project without a file named after
    selenium, pytest or behave is detected and then has no command. *)
Theorem integration_detected_types_have_commands (fs : RepoFs) (s t : trace)
    (projectType : jsstring) :
  snd (IntegrationAgent._detectProjectType JSON_parse fs s) = Normal projectType ->
  exists c,
    IntegrationAgent._determineIntegrationTestCommand JSON_parse fs projectType t
    = (t, Normal c) /\
    (World.given c = None ->
     In projectType (map lit ["empty"; "node"; "python"; "unknown"])) /\
    (In projectType (map lit ["empty"; "python"; "unknown"]) -> c = None).
Proof.
  intros Hdet. apply integration_detect_range in Hdet.
  destruct (integration_command_selection JSON_parse fs projectType t) as (c & Hc).
  exists c. split; [exact Hc|].
  cbn [map In] in Hdet.
  repeat match type of Hdet with
         | _ \/ _ => destruct Hdet as [Hdet|Hdet]
         end; try contradiction; subst projectType;
    unfold IntegrationAgent._determineIntegrationTestCommand,
      IntegrationAgent.any_tag in Hc;
    cbn [existsb] in Hc; tag_values Hc;
    (split;
     [ first [ solve [tag_listed]
             | unfold IntegrationAgent.cmd, Eff.ret in Hc;
               repeat match type of Hc with
                      | context [if ?b then _ else _] => destruct b
                      end;
               injection Hc as <-; vm_compute; intros H; discriminate H ]
     | first [ no_such_tag
             | unfold Eff.ret in Hc; injection Hc as <-; intros _; reflexivity ] ]).
Qed.

End Selection.

Lemma unit_detected_types_have_commands_witness :
  let fs :=
    mkRepoFs true (fun name => String.eqb name "Cargo.toml") (fun _ => None)
      (Some [lit "Cargo.toml"; lit "src"]) in
  let env := UnitTestAgent.mkEnv fs (fun _ => Throw (ExecError [])) in
  exists c t',
    UnitTestAgent._determineTestCommand (fun _ => None) env (lit "rust") []
    = (t', Normal c) /\
    (World.given c = None -> In (lit "rust") (map lit ["node"; "unknown"])) /\
    (lit "rust" = lit "unknown" -> c = None).
Proof.
  cbv zeta.
  apply (unit_detected_types_have_commands (fun _ => None)
           (UnitTestAgent.mkEnv
              (mkRepoFs true (fun name => String.eqb name "Cargo.toml")
                 (fun _ => None) (Some [lit "Cargo.toml"; lit "src"]))
              (fun _ => Throw (ExecError []))) [] [] (lit "rust")).
  reflexivity.
Defined.

Lemma integration_detected_types_have_commands_witness :
  let fs :=
    mkRepoFs true (fun name => String.eqb name "requirements.txt") (fun _ => None)
      (Some [lit "requirements.txt"; lit "app.py"]) in
  exists c,
    IntegrationAgent._determineIntegrationTestCommand (fun _ => None) fs
      (lit "python") ([] : trace)
    = ([], Normal c) /\
    (World.given c = None ->
     In (lit "python") (map lit ["empty"; "node"; "python"; "unknown"])) /\
    (In (lit "python") (map lit ["empty"; "python"; "unknown"]) -> c = None).
Proof.
  cbv zeta.
  apply (integration_detected_types_have_commands (fun _ => None)
           (mkRepoFs true (fun name => String.eqb name "requirements.txt")
              (fun _ => None) (Some [lit "requirements.txt"; lit "app.py"]))
           [] [] (lit "python")).
  reflexivity.
Defined.

(** ** The blockchain logger *)

Module LoggerFacts.

Import BlockchainLogger.

Ltac side :=
  first [ assumption | reflexivity | discriminate
        | exfalso; match goal with
                   | H : ?x <> ?x |- _ => apply H; reflexivity
                   | H : None = Some _ |- _ => discriminate H
                   end ].

(** Storing and logging never write a file and never throw. *)
Lemma store_and_log_frame (h : Host) (lg : Logger) (results : jsval)
    (type repoId : jsstring) (w : LogWorld) :
  exists st bc w',
    store_and_log h lg results type repoId w = (w', Normal (st, bc)) /\
    attempts w' = attempts w /\ written w' = written w /\
    (bc <> None -> st <> None /\ programId lg = true) /\
    (st <> None -> ipfsClient lg = true /\ storageType lg = lit "ipfs").
Proof.
  unfold store_and_log.
  destruct (ipfsClient lg) eqn:Hclient0.
  2: { cbn. eexists None, None, _. repeat split; intros; side. }
  unfold World.catch, Eff.bind at 1, _storeResults, Eff.bind at 1, newDate.
  destruct (JsString.eqb (storageType lg) (lit "ipfs")) eqn:Htype.
  2: { destruct (JsString.eqb (storageType lg) (lit "arweave"));
         cbn; eexists None, None, _; repeat split; intros; side. }
  assert (Hipfs : storageType lg = lit "ipfs").
  { clear - Htype. revert Htype. generalize (lit "ipfs") as b.
    induction (storageType lg) as [|x a IH]; intros [|y b]; cbn [JsString.eqb];
      try discriminate; [reflexivity|].
    intros H. apply andb_true_iff in H. destruct H as [Hx Hab].
    apply N.eqb_eq in Hx. subst y. f_equal. apply IH, Hab. }
  destruct (ipfsClient lg) eqn:Hclient; cbn [negb].
  2: { cbn. eexists None, None, _. repeat split; intros; side. }
  destruct (storeBlob h _) as [c|cause].
  2: { cbn. eexists None, None, _. repeat split; intros; side. }
  cbn [Eff.ret Eff.throw]. unfold _logToBlockchain.
  destruct (programId lg) eqn:Hprog; cbn [negb].
  - unfold Eff.bind, dateNow, Eff.ret. cbn.
    eexists (Some _), (Some _), _. repeat split; intros; side.
  - cbn. eexists (Some _), None, _. repeat split; intros; side.
Qed.

(** One backup: two readings of the clock and one attempt to write. *)
Lemma save_backup_outcome (h : Host) (lg : Logger) (results : jsval)
    (st : option StorageResult) (bc : option BlockchainResult)
    (type repoId : jsstring) (w : LogWorld) :
  let filePath :=
    path_join h (localStoragePath lg)
      (backup_name repoId type (toISOString h (clock w))) in
  let text :=
    stringify2 h
      (backup_data repoId type (toISOString h (S (clock w))) results st bc) in
  _saveLocalBackup h lg results st bc type repoId w
  = match write_error h (attempts w) with
    | Some cause =>
        (mkLogWorld (S (S (clock w))) (S (attempts w)) (written w),
         Throw (WriteFailed cause))
    | None =>
        (mkLogWorld (S (S (clock w))) (S (attempts w))
           (written w ++ [(filePath, text)]),
         Normal filePath)
    end.
Proof.
  cbv zeta. unfold _saveLocalBackup, Eff.bind, newDate, writeFileSync, Eff.ret.
  cbn [clock attempts written]. destruct (write_error h (attempts w)); reflexivity.
Qed.

(** [logResults] in one equation: what it returns and leaves behind, by
    the outcome of the inner [try] and of the writes. *)
Lemma logResults_outcome (h : Host) (lg : Logger) (results : jsval)
    (type repoId : jsstring) (w : LogWorld) :
  exists st bc w',
    attempts w' = attempts w /\ written w' = written w /\
    (bc <> None -> st <> None /\ programId lg = true) /\
    (st <> None -> ipfsClient lg = true /\ storageType lg = lit "ipfs") /\
    logResults h lg results type repoId w
    = match write_error h (attempts w) with
      | None =>
          let filePath :=
            path_join h (localStoragePath lg)
              (backup_name repoId type (toISOString h (clock w'))) in
          (mkLogWorld (S (S (S (clock w')))) (S (attempts w))
             (written w ++
              [(filePath,
                stringify2 h
                  (backup_data repoId type (toISOString h (S (clock w')))
                     results st bc))]),
           Normal
             (mkResponse true type repoId (toISOString h (S (S (clock w')))) None
                filePath
                (option_map
                   (fun s => mkStorageInfo (storageType lg) (cid s) (url s)) st)
                (option_map
                   (fun b =>
                      mkBlockchainInfo
                        (if includes (lit "devnet") (solanaEndpoint lg)
                         then lit "devnet" else lit "mainnet")
                        (transactionId b) (blockHeight b)) bc)))
      | Some cause =>
          match write_error h (S (attempts w)) with
          | None =>
              let filePath :=
                path_join h (localStoragePath lg)
                  (backup_name repoId type (toISOString h (S (S (clock w'))))) in
              (mkLogWorld (S (S (S (S (S (clock w')))))) (S (S (attempts w)))
                 (written w ++
                  [(filePath,
                    stringify2 h
                      (backup_data repoId type
                         (toISOString h (S (S (S (clock w'))))) results None None))]),
               Normal
                 (mkResponse false type repoId
                    (toISOString h (S (S (S (S (clock w')))))) 
                    (Some (WriteFailed cause)) filePath None None))
          | Some cause' =>
              (mkLogWorld (S (S (S (S (clock w'))))) (S (S (attempts w))) (written w),
               Throw (WriteFailed cause'))
          end
      end.
Proof.
  destruct (store_and_log_frame h lg results type repoId w)
    as (st & bc & w' & Hlocals & Ha & Hw & Hbc & Hst).
  exists st, bc, w'.
  split; [exact Ha|]. split; [exact Hw|]. split; [exact Hbc|]. split; [exact Hst|].
  unfold logResults, World.catch, Eff.bind at 1.
  rewrite Hlocals. cbn [fst snd]. unfold Eff.bind at 1.
  rewrite save_backup_outcome, Ha, Hw.
  destruct (write_error h (attempts w)) as [cause|]; [|reflexivity].
  unfold Eff.bind at 1. rewrite save_backup_outcome.
  cbn [attempts written clock]. rewrite ?Ha, ?Hw.
  destruct (write_error h (S (attempts w))); reflexivity.
Qed.

End LoggerFacts.

(** X14: the outcome of [logResults] follows the disk alone.  If the
    backup can be written the call succeeds, whatever the storage service
    and the chain did.  If the first write fails and the second works, the
    call reports the failure of the write, and the response and the backup
    carry no storage or blockchain reference even when the results had
    been stored.  Only when both writes fail does the call throw, and then
    no backup exists. *)
Theorem log_outcome_follows_the_disk (h : BlockchainLogger.Host)
    (lg : BlockchainLogger.Logger) (results : jsval) (type repoId : jsstring)
    (w : BlockchainLogger.LogWorld) :
  let out := BlockchainLogger.logResults h lg results type repoId w in
  let first := BlockchainLogger.write_error h (BlockchainLogger.attempts w) in
  let second := BlockchainLogger.write_error h (S (BlockchainLogger.attempts w)) in
  match first, second with
  | None, _ =>
      exists r text,
        snd out = Normal r /\
        BlockchainLogger.success r = true /\ BlockchainLogger.error r = None /\
        BlockchainLogger.written (fst out)
        = BlockchainLogger.written w ++ [(BlockchainLogger.localBackup r, text)]
  | Some cause, None =>
      exists r timestamp,
        snd out = Normal r /\
        BlockchainLogger.success r = false /\
        BlockchainLogger.error r = Some (BlockchainLogger.WriteFailed cause) /\
        BlockchainLogger.storage r = None /\ BlockchainLogger.blockchain r = None /\
        BlockchainLogger.written (fst out)
        = BlockchainLogger.written w ++
          [(BlockchainLogger.localBackup r,
            BlockchainLogger.stringify2 h
              (BlockchainLogger.backup_data repoId type timestamp results None None))]
  | Some _, Some cause =>
      snd out = Throw (BlockchainLogger.WriteFailed cause) /\
      BlockchainLogger.written (fst out) = BlockchainLogger.written w
  end.
Proof.
  cbv zeta.
  destruct (LoggerFacts.logResults_outcome h lg results type repoId w)
    as (st & bc & w' & _ & _ & _ & _ & ->).
  destruct (BlockchainLogger.write_error h (BlockchainLogger.attempts w))
    as [cause|];
    [destruct (BlockchainLogger.write_error h (S (BlockchainLogger.attempts w)))
       as [cause'|]|];
    cbv zeta; cbn [fst snd].
  - split; reflexivity.
  - eexists _, _. repeat split.
  - eexists _, _. repeat split.
Qed.

(** X15: when the backup is written, the response and the backup file name
    the same references: the file holds the storage and blockchain results
    the response reports.  A blockchain reference exists only together with
    a storage reference and a program id, a storage reference only with an
    IPFS client and the storage type ipfs. *)
Theorem response_and_backup_agree (h : BlockchainLogger.Host)
    (lg : BlockchainLogger.Logger) (results : jsval) (type repoId : jsstring)
    (w : BlockchainLogger.LogWorld) :
  BlockchainLogger.write_error h (BlockchainLogger.attempts w) = None ->
  exists r st bc timestamp,
    snd (BlockchainLogger.logResults h lg results type repoId w) = Normal r /\
    BlockchainLogger.written
      (fst (BlockchainLogger.logResults h lg results type repoId w))
    = BlockchainLogger.written w ++
      [(BlockchainLogger.localBackup r,
        BlockchainLogger.stringify2 h
          (BlockchainLogger.backup_data repoId type timestamp results st bc))] /\
    option_map BlockchainLogger.storage_cid (BlockchainLogger.storage r)
    = option_map BlockchainLogger.cid st /\
    option_map BlockchainLogger.chain_transactionId (BlockchainLogger.blockchain r)
    = option_map BlockchainLogger.transactionId bc /\
    (bc <> None -> st <> None /\ BlockchainLogger.programId lg = true) /\
    (st <> None ->
     BlockchainLogger.ipfsClient lg = true /\
     BlockchainLogger.storageType lg = lit "ipfs").
Proof.
  intros Hwrite.
  destruct (LoggerFacts.logResults_outcome h lg results type repoId w)
    as (st & bc & w' & _ & _ & Hbc & Hst & ->).
  rewrite Hwrite. cbv zeta. cbn [fst snd].
  eexists _, st, bc, _.
  split; [reflexivity|]. split; [reflexivity|].
  cbn [BlockchainLogger.storage BlockchainLogger.blockchain].
  split; [destruct st; reflexivity|].
  split; [destruct bc; reflexivity|].
  split; assumption.
Qed.

Lemma response_and_backup_agree_witness :
  let h :=
    BlockchainLogger.mkHost (fun _ => lit "{}") (fun _ => lit "{}") (fun _ => None)
      (fun a b => a ++ lit "/" ++ b) (fun _ => Normal (lit "bafy"))
      (fun _ => None) (fun _ => lit "2024-01-01T00:00:00.000Z")
      (fun _ => lit "1704067200000") (fun _ => None) in
  let lg :=
    BlockchainLogger.mkLogger (lit "https://api.devnet.solana.com") true (lit "ipfs")
      true (lit "blockchain_logs") in
  exists r st bc timestamp,
    snd (BlockchainLogger.logResults h lg VNull (lit "unit") (lit "repo-1")
           (BlockchainLogger.mkLogWorld 0 0 [])) = Normal r /\
    BlockchainLogger.written
      (fst (BlockchainLogger.logResults h lg VNull (lit "unit") (lit "repo-1")
              (BlockchainLogger.mkLogWorld 0 0 [])))
    = BlockchainLogger.written (BlockchainLogger.mkLogWorld 0 0 []) ++
      [(BlockchainLogger.localBackup r,
        BlockchainLogger.stringify2 h
          (BlockchainLogger.backup_data (lit "repo-1") (lit "unit") timestamp VNull
             st bc))] /\
    option_map BlockchainLogger.storage_cid (BlockchainLogger.storage r)
    = option_map BlockchainLogger.cid st /\
    option_map BlockchainLogger.chain_transactionId (BlockchainLogger.blockchain r)
    = option_map BlockchainLogger.transactionId bc /\
    (bc <> None -> st <> None /\ BlockchainLogger.programId lg = true) /\
    (st <> None ->
     BlockchainLogger.ipfsClient lg = true /\
     BlockchainLogger.storageType lg = lit "ipfs").
Proof.
  cbv zeta.
  apply (response_and_backup_agree
           (BlockchainLogger.mkHost (fun _ => lit "{}") (fun _ => lit "{}")
              (fun _ => None) (fun a b => a ++ lit "/" ++ b)
              (fun _ => Normal (lit "bafy")) (fun _ => None)
              (fun _ => lit "2024-01-01T00:00:00.000Z")
              (fun _ => lit "1704067200000") (fun _ => None))
           (BlockchainLogger.mkLogger (lit "https://api.devnet.solana.com") true
              (lit "ipfs") true (lit "blockchain_logs"))
           VNull (lit "unit") (lit "repo-1") (BlockchainLogger.mkLogWorld 0 0 [])).
  reflexivity.
Defined.

(** ** Reading the backups *)

Module StoreFacts.

Import BlockchainLogger.

Lemma map_or_throw_none {A B : Type} (f : A -> option B) (l : list A) (a : A) :
  In a l -> f a = None -> map_or_throw f l = None.
Proof.
  induction l as [|x l IH]; [contradiction|].
  intros [->|Hin] Hf; cbn [map_or_throw].
  - rewrite Hf. reflexivity.
  - destruct (f x); [|reflexivity]. rewrite (IH Hin Hf). reflexivity.
Qed.

Lemma map_or_throw_some {A B : Type} (f : A -> option B) (l : list A) :
  (forall a, In a l -> f a <> None) ->
  exists bs, map_or_throw f l = Some bs /\
             forall a b, In a l -> f a = Some b -> In b bs.
Proof.
  induction l as [|x l IH]; intros Hall; cbn [map_or_throw].
  - exists []. split; [reflexivity|]. intros a b [].
  - destruct (f x) as [b|] eqn:Hx.
    2: { exfalso. apply (Hall x); [left; reflexivity|exact Hx]. }
    destruct IH as (bs & -> & Hbs).
    { intros a Ha. apply Hall. right. exact Ha. }
    exists (b :: bs). split; [reflexivity|].
    intros a b' [->|Ha] Hf.
    + left. congruence.
    + right. apply (Hbs a b' Ha Hf).
Qed.

Lemma map_or_throw_length {A B : Type} (f : A -> option B) (l : list A)
    (bs : list B) :
  map_or_throw f l = Some bs -> List.length bs = List.length l.
Proof.
  revert bs. induction l as [|x l IH]; intros bs; cbn [map_or_throw].
  - intros [= <-]. reflexivity.
  - destruct (f x); [|discriminate].
    destruct (map_or_throw f l) as [bs'|]; [|discriminate].
    intros [= <-]. cbn [List.length]. rewrite (IH bs' eq_refl). reflexivity.
Qed.

Lemma eqb_refl (s : jsstring) : JsString.eqb s s = true.
Proof.
  induction s as [|c s IH]; [reflexivity|].
  cbn [JsString.eqb]. unfold unit_eqb. rewrite N.eqb_refl. exact IH.
Qed.

Lemma startsWith_prefix (p s : jsstring) : startsWith p (p ++ s) = true.
Proof.
  induction p as [|c p IH]; [destruct s; reflexivity|].
  cbn [app startsWith]. unfold unit_eqb. rewrite N.eqb_refl. exact IH.
Qed.

(** A backup is read back as the reference to it. *)
Lemma reference_of_backup (repoId type timestamp : jsstring) (results : jsval)
    (st : option StorageResult) (bc : option BlockchainResult) :
  reference (backup_data repoId type timestamp results st bc)
  = Some (VObj [(lit "repoId", VStr repoId); (lit "type", VStr type);
                (lit "timestamp", VStr timestamp);
                (lit "storage", storage_value st);
                (lit "blockchain", blockchain_value bc)]).
Proof. reflexivity. Qed.

End StoreFacts.

(** X16: the references of a repository are all or nothing.  If one backup
    file whose name starts with the repository id and a hyphen cannot be
    read, is not JSON, or holds null, [getResultsForRepo] returns the empty
    list, whatever the other files hold, and the route answers 404.
    Otherwise it returns one reference for each such file. *)
Theorem references_are_all_or_nothing (h : BlockchainLogger.Host)
    (dir : BlockchainLogger.LocalStore) (repoId : jsstring)
    (localFiles : list jsstring) :
  BlockchainLogger.readdirSync dir = Some localFiles ->
  let matching := filter (startsWith (repoId ++ lit "-")) localFiles in
  let found := BlockchainLogger.getResultsForRepo h dir repoId in
  ((exists file, In file matching /\
                 BlockchainLogger.read_reference h dir file = None) ->
   found = [] /\
   Server.results h dir repoId = Server.mkReply 404 Server.ErrorNoResults) /\
  ((forall file, In file matching ->
                 BlockchainLogger.read_reference h dir file <> None) ->
   List.length found = List.length matching).
Proof.
  intros Hdir. cbv zeta.
  unfold Server.results, BlockchainLogger.getResultsForRepo. rewrite Hdir.
  split.
  - intros (file & Hin & Hbad).
    rewrite (StoreFacts.map_or_throw_none _ _ file Hin Hbad). split; reflexivity.
  - intros Hall.
    destruct (StoreFacts.map_or_throw_some
                (BlockchainLogger.read_reference h dir) _ Hall) as (bs & Hbs & _).
    rewrite Hbs. apply (StoreFacts.map_or_throw_length _ _ _ Hbs).
Qed.

Lemma references_are_all_or_nothing_witness :
  let h :=
    BlockchainLogger.mkHost (fun _ => lit "{}") (fun _ => lit "{}")
      (fun text => if JsString.eqb text (lit "{}") then Some (VObj []) else None)
      (fun a b => a ++ lit "/" ++ b) (fun _ => Throw (lit "offline"))
      (fun _ => None) (fun _ => lit "2024-01-01T00:00:00.000Z")
      (fun _ => lit "1704067200000") (fun _ => None) in
  let dir :=
    BlockchainLogger.mkLocalStore
      (Some [lit "repo-1-unit-a.json"; lit "repo-1-unit-b.json"])
      (fun file =>
         if JsString.eqb file (lit "repo-1-unit-a.json") then Some (lit "{}")
         else Some (lit "{ broken")) in
  BlockchainLogger.getResultsForRepo h dir (lit "repo-1") = [] /\
  Server.results h dir (lit "repo-1") = Server.mkReply 404 Server.ErrorNoResults.
Proof.
  cbv zeta.
  apply (references_are_all_or_nothing
           (BlockchainLogger.mkHost (fun _ => lit "{}") (fun _ => lit "{}")
              (fun text => if JsString.eqb text (lit "{}") then Some (VObj []) else None)
              (fun a b => a ++ lit "/" ++ b) (fun _ => Throw (lit "offline"))
              (fun _ => None) (fun _ => lit "2024-01-01T00:00:00.000Z")
              (fun _ => lit "1704067200000") (fun _ => None))
           (BlockchainLogger.mkLocalStore
              (Some [lit "repo-1-unit-a.json"; lit "repo-1-unit-b.json"])
              (fun file =>
                 if JsString.eqb file (lit "repo-1-unit-a.json") then Some (lit "{}")
                 else Some (lit "{ broken")))
           (lit "repo-1") [lit "repo-1-unit-a.json"; lit "repo-1-unit-b.json"]
           eq_refl).
  exists (lit "repo-1-unit-b.json"). split; [right; left; reflexivity|reflexivity].
Defined.

(** X17: a backup is found again, also by a stranger.  A file written by
    [_saveLocalBackup] for a repository, still in the directory with its
    text, is returned by [getResultsForRepo] as a reference with the
    repository, type, time stamp, storage and blockchain results it was
    saved with.  It is returned for its own repository id, and also for every
    id that its id extends by a hyphen and more: the results of repository
    a-b are listed under a. *)
Theorem backups_are_found_by_prefix (h : BlockchainLogger.Host)
    (dir : BlockchainLogger.LocalStore) (asked saved rest type iso timestamp : jsstring)
    (results : jsval) (st : option BlockchainLogger.StorageResult)
    (bc : option BlockchainLogger.BlockchainResult) (localFiles : list jsstring) :
  let file := BlockchainLogger.backup_name saved type iso in
  let data := BlockchainLogger.backup_data saved type timestamp results st bc in
  saved = asked \/ saved = asked ++ lit "-" ++ rest ->
  BlockchainLogger.readdirSync dir = Some localFiles ->
  In file localFiles ->
  BlockchainLogger.readFile dir file
  = Some (BlockchainLogger.stringify2 h data) ->
  BlockchainLogger.parse h (BlockchainLogger.stringify2 h data) = Some data ->
  (forall other, In other localFiles ->
                 startsWith (asked ++ lit "-") other = true ->
                 BlockchainLogger.read_reference h dir other <> None) ->
  In (VObj [(lit "repoId", VStr saved); (lit "type", VStr type);
            (lit "timestamp", VStr timestamp);
            (lit "storage", BlockchainLogger.storage_value st);
            (lit "blockchain", BlockchainLogger.blockchain_value bc)])
     (BlockchainLogger.getResultsForRepo h dir asked).
Proof.
  cbv zeta. intros Hsaved Hdir Hin Hread Hparse Hothers.
  unfold BlockchainLogger.getResultsForRepo. rewrite Hdir.
  assert (Hprefix : startsWith (asked ++ lit "-")
                      (BlockchainLogger.backup_name saved type iso) = true).
  { unfold BlockchainLogger.backup_name. destruct Hsaved as [->| ->].
    - rewrite app_assoc. apply StoreFacts.startsWith_prefix.
    - rewrite <- !app_assoc.
      change (asked ++ lit "-" ++ rest ++ lit "-" ++ type ++ lit "-"
              ++ BlockchainLogger.dashed iso ++ lit ".json")
        with (asked ++ lit "-" ++ (rest ++ lit "-" ++ type ++ lit "-"
              ++ BlockchainLogger.dashed iso ++ lit ".json")).
      rewrite app_assoc. apply StoreFacts.startsWith_prefix. }
  destruct (StoreFacts.map_or_throw_some
              (BlockchainLogger.read_reference h dir)
              (filter (startsWith (asked ++ lit "-")) localFiles))
    as (bs & -> & Hbs).
  { intros other Hother. apply filter_In in Hother. destruct Hother as [Ho Hp].
    apply (Hothers other Ho Hp). }
  apply (Hbs (BlockchainLogger.backup_name saved type iso)).
  - apply filter_In. split; assumption.
  - unfold BlockchainLogger.read_reference. rewrite Hread, Hparse.
    apply StoreFacts.reference_of_backup.
Qed.

Lemma backups_are_found_by_prefix_witness :
  let data :=
    BlockchainLogger.backup_data (lit "app-api") (lit "unit") (lit "t1") VNull
      None None in
  let h :=
    BlockchainLogger.mkHost (fun _ => lit "{}") (fun _ => lit "{}")
      (fun _ => Some data)
      (fun a b => a ++ lit "/" ++ b) (fun _ => Throw (lit "offline"))
      (fun _ => None) (fun _ => lit "t0") (fun _ => lit "0") (fun _ => None) in
  let dir :=
    BlockchainLogger.mkLocalStore (Some [lit "app-api-unit-t0.json"])
      (fun _ => Some (lit "{}")) in
  In (VObj [(lit "repoId", VStr (lit "app-api")); (lit "type", VStr (lit "unit"));
            (lit "timestamp", VStr (lit "t1"));
            (lit "storage", BlockchainLogger.storage_value None);
            (lit "blockchain", BlockchainLogger.blockchain_value None)])
     (BlockchainLogger.getResultsForRepo h dir (lit "app")).
Proof.
  cbv zeta.
  apply (backups_are_found_by_prefix
           (BlockchainLogger.mkHost (fun _ => lit "{}") (fun _ => lit "{}")
              (fun _ =>
                 Some (BlockchainLogger.backup_data (lit "app-api") (lit "unit")
                         (lit "t1") VNull None None))
              (fun a b => a ++ lit "/" ++ b) (fun _ => Throw (lit "offline"))
              (fun _ => None) (fun _ => lit "t0") (fun _ => lit "0") (fun _ => None))
           (BlockchainLogger.mkLocalStore (Some [lit "app-api-unit-t0.json"])
              (fun _ => Some (lit "{}")))
           (lit "app") (lit "app-api") (lit "api") (lit "unit") (lit "t0") (lit "t1")
           VNull None None [lit "app-api-unit-t0.json"]).
  - right. reflexivity.
  - reflexivity.
  - left. reflexivity.
  - reflexivity.
  - reflexivity.
  - intros other _ _. discriminate.
Defined.

(** X18: what [retrieveResults] returns depends on where it finds it.  When
    the gateway answers with the object [_storeResults] stored, the call
    returns that object, which holds the results under the key results;
    when the gateway fails and the first backup that names the CID is the
    one [_saveLocalBackup] wrote, the call returns the results
    themselves. *)
Theorem retrieve_from_gateway_or_backup (h : BlockchainLogger.Host)
    (lg : BlockchainLogger.Logger) (dir : BlockchainLogger.LocalStore)
    (cid link repoId type stored saved : jsstring) (results : jsval)
    (bc : option BlockchainLogger.BlockchainResult)
    (before after : list jsstring) (file : jsstring) :
  let metadata := BlockchainLogger.metadata_of repoId type stored results in
  let data :=
    BlockchainLogger.backup_data repoId type saved results
      (Some (BlockchainLogger.mkStorageResult cid link)) bc in
  BlockchainLogger.storageType lg = lit "ipfs" ->
  BlockchainLogger.readdirSync dir = Some (before ++ file :: after) ->
  (forall other, In other before ->
                 BlockchainLogger.holds_cid h dir cid other = false) ->
  BlockchainLogger.readFile dir file
  = Some (BlockchainLogger.stringify2 h data) ->
  BlockchainLogger.parse h (BlockchainLogger.stringify2 h data) = Some data ->
  (BlockchainLogger.fetch_json h (BlockchainLogger.gateway cid) = Some metadata ->
   BlockchainLogger.retrieveResults h lg dir cid = Normal metadata /\
   get metadata (lit "results") = Some results) /\
  (BlockchainLogger.fetch_json h (BlockchainLogger.gateway cid) = None ->
   BlockchainLogger.retrieveResults h lg dir cid = Normal results).
Proof.
  cbv zeta. intros Htype Hdir Hbefore Hread Hparse.
  unfold BlockchainLogger.retrieveResults.
  rewrite Htype, StoreFacts.eqb_refl.
  split; intros Hfetch; rewrite Hfetch; [split; reflexivity|].
  rewrite Hdir.
  assert (Hfile : BlockchainLogger.holds_cid h dir cid file = true).
  { unfold BlockchainLogger.holds_cid. rewrite Hread, Hparse.
    cbn. apply StoreFacts.eqb_refl. }
  assert (Hfind : find (BlockchainLogger.holds_cid h dir cid)
                    (before ++ file :: after) = Some file).
  { clear - Hbefore Hfile. induction before as [|x before IH]; cbn [app find].
    - rewrite Hfile. reflexivity.
    - rewrite (Hbefore x (or_introl eq_refl)). apply IH.
      intros other Hin. apply Hbefore. right. exact Hin. }
  rewrite Hfind, Hread, Hparse. reflexivity.
Qed.

Lemma retrieve_from_gateway_or_backup_witness :
  let data :=
    BlockchainLogger.backup_data (lit "repo-1") (lit "unit") (lit "t1")
      (VObj [(lit "success", VBool true)])
      (Some (BlockchainLogger.mkStorageResult (lit "bafy") (lit "link"))) None in
  let h :=
    BlockchainLogger.mkHost (fun _ => lit "{}") (fun _ => lit "{}")
      (fun _ => Some data)
      (fun a b => a ++ lit "/" ++ b) (fun _ => Throw (lit "offline"))
      (fun _ => None) (fun _ => lit "t0") (fun _ => lit "0") (fun _ => None) in
  let lg :=
    BlockchainLogger.mkLogger (lit "https://api.devnet.solana.com") false (lit "ipfs")
      true (lit "blockchain_logs") in
  let dir :=
    BlockchainLogger.mkLocalStore (Some [lit "repo-1-unit-t0.json"])
      (fun _ => Some (lit "{}")) in
  BlockchainLogger.retrieveResults h lg dir (lit "bafy")
  = Normal (VObj [(lit "success", VBool true)]).
Proof.
  cbv zeta.
  apply (retrieve_from_gateway_or_backup
           (BlockchainLogger.mkHost (fun _ => lit "{}") (fun _ => lit "{}")
              (fun _ =>
                 Some (BlockchainLogger.backup_data (lit "repo-1") (lit "unit")
                         (lit "t1") (VObj [(lit "success", VBool true)])
                         (Some (BlockchainLogger.mkStorageResult (lit "bafy")
                                  (lit "link"))) None))
              (fun a b => a ++ lit "/" ++ b) (fun _ => Throw (lit "offline"))
              (fun _ => None) (fun _ => lit "t0") (fun _ => lit "0") (fun _ => None))
           (BlockchainLogger.mkLogger (lit "https://api.devnet.solana.com") false
              (lit "ipfs") true (lit "blockchain_logs"))
           (BlockchainLogger.mkLocalStore (Some [lit "repo-1-unit-t0.json"])
              (fun _ => Some (lit "{}")))
           (lit "bafy") (lit "link") (lit "repo-1") (lit "unit") (lit "t0") (lit "t1")
           (VObj [(lit "success", VBool true)]) None [] []
           (lit "repo-1-unit-t0.json")).
  - reflexivity.
  - reflexivity.
  - intros other [].
  - reflexivity.
  - reflexivity.
  - reflexivity.
Defined.

(** ** Cloning, and the route that asks for it *)

Module ClonerFacts.

Import RepoClonerAgent.

Lemma exec_appends (env : Env) (command : jsstring) (t : list step) :
  fst (exec env command t) = t ++ [Ran command].
Proof. unfold exec. destruct (execAsync env command); reflexivity. Qed.







Lemma last_part_slashless (s : jsstring) : slashless (last_part s).
Proof.
  unfold slashless. induction s as [|c s IH]; [reflexivity|].
  cbn [last_part]. destruct (existsb (N.eqb 47) s) eqn:Hs; [exact IH|].
  destruct (N.eqb c 47) eqn:Hc; [exact Hs|].
  cbn [existsb]. rewrite Hs, N.eqb_sym, Hc. reflexivity.
Qed.

Lemma skipn_slashless (n : nat) (s : jsstring) :
  slashless s -> slashless (skipn n s).
Proof.
  unfold slashless. revert s. induction n as [|n IH]; intros s Hs; [exact Hs|].
  destruct s as [|c s]; [reflexivity|]. cbn [skipn]. apply IH.
  cbn [existsb] in Hs. apply orb_false_iff in Hs. apply Hs.
Qed.

Lemma replace_first_slashless (pat s : jsstring) :
  slashless s -> slashless (replace_first pat [] s).
Proof.
  induction s as [|c s IH]; intros Hs; cbn [replace_first].
  - destruct (startsWith pat []); [apply skipn_slashless, Hs|reflexivity].
  - destruct (startsWith pat (c :: s)); [apply skipn_slashless, Hs|].
    unfold slashless in *. cbn [existsb] in *.
    apply orb_false_iff in Hs. destruct Hs as [Hc Hs].
    rewrite Hc. apply IH, Hs.
Qed.

End ClonerFacts.

(** X19: the route POST /api/run-tests never clones and never runs a
    test.  It passes the URL to [cloneRepository] under the key url, the
    agent reads the key repoUrl, finds nothing and refuses: a request
    without a URL is answered 400, every request with one is answered 500
    with the message that the URL is required, nothing is removed, run or
    notified, and what follows the clone in the handler is never
    reached. *)
Theorem run_tests_route_never_clones (env : RepoClonerAgent.Env)
    (body : list (jsstring * jsval))
    (pipeline : RepoClonerAgent.CloneResult ->
                Eff.M (list RepoClonerAgent.step) RepoClonerAgent.clone_error
                  Server.Reply)
    (t : list RepoClonerAgent.step) :
  Server.run_tests env body pipeline t
  = (t, Normal
          (if truthy (lookup (lit "repoUrl") body)
           then Server.mkReply 500 (Server.ErrorOf RepoClonerAgent.UrlRequired)
           else Server.mkReply 400 Server.ErrorRequired)).
Proof.
  unfold Server.run_tests, World.catch.
  destruct (truthy (lookup (lit "repoUrl") body)); cbn [negb]; [|reflexivity].
  unfold Eff.bind, RepoClonerAgent.cloneRepository.
  reflexivity.
Qed.




Lemma existsb_app_false (p : N -> bool) (a b : jsstring) :
  existsb p a = false -> existsb p b = false -> existsb p (a ++ b) = false.
Proof. intros Ha Hb. rewrite existsb_app, Ha, Hb. reflexivity. Qed.

(** X22: the folder name [_generateRepoFolderId] makes up for a URL holds
    no forward slash, whatever the URL, as long as the clock prints none.
    Nothing more is filtered: backslashes and dots of the last part of the
    URL are kept as they are. *)
Theorem generated_folder_has_no_slash (env : RepoClonerAgent.Env)
    (repoUrl : jsstring) :
  slashless (RepoClonerAgent.now env) ->
  slashless (RepoClonerAgent._generateRepoFolderId env repoUrl).
Proof.
  intros Hnow. unfold RepoClonerAgent._generateRepoFolderId, slashless.
  apply existsb_app_false;
    [apply ClonerFacts.replace_first_slashless, ClonerFacts.last_part_slashless|].
  apply existsb_app_false; [reflexivity|exact Hnow].
Qed.

(** The name made up for "h/..\..\x" is "..\..\x-1704067200000": no forward
    slash, and the backslashes are still there. *)
Lemma generated_folder_has_no_slash_witness :
  let env :=
    RepoClonerAgent.mkEnv (lit "repos") (fun a b => a ++ lit "/" ++ b)
      (fun _ => false) (fun _ => None) (fun _ => Normal [])
      (fun _ => None) (lit "1704067200000") (fun _ => []) in
  slashless (RepoClonerAgent._generateRepoFolderId env (lit "h/..\..\x")) /\
  RepoClonerAgent._generateRepoFolderId env (lit "h/..\..\x")
  = lit "..\..\x-1704067200000".
Proof.
  cbv zeta. split; [|reflexivity].
  apply (generated_folder_has_no_slash
           (RepoClonerAgent.mkEnv (lit "repos") (fun a b => a ++ lit "/" ++ b)
              (fun _ => false) (fun _ => None) (fun _ => Normal [])
              (fun _ => None) (lit "1704067200000") (fun _ => []))
           (lit "h/..\..\x")).
  reflexivity.
Defined.

(** ** The program id *)

Module KeyFacts.

Import BlockchainLogger.

(** [class{n}] takes exactly [n] characters of the class, or fails. *)
Lemma run_times_cls {A : Type} (p : N -> bool) (n : nat) (s : jsstring)
    (cs : captures) (k : jsstring -> captures -> option A) :
  run false (times n (Cls p)) s cs k
  = if (n <=? List.length s)%nat && forallb p (firstn n s)
    then k (skipn n s) cs else None.
Proof.
  revert s. induction n as [|n IH]; intros s; cbn [times run].
  - reflexivity.
  - destruct s as [|x s]; [reflexivity|].
    cbn [List.length firstn skipn forallb Nat.leb].
    destruct (p x); cbn [andb]; [apply IH|].
    rewrite andb_false_r. reflexivity.
Qed.

Lemma forallb_split (p : N -> bool) (n : nat) (s : jsstring) :
  forallb p s = forallb p (firstn n s) && forallb p (skipn n s).
Proof.
  rewrite <- (firstn_skipn n s) at 1. apply forallb_app.
Qed.

Lemma test_base58 (s : jsstring) :
  test_whole base58Regex s
  = ((List.length s =? 43)%nat || (List.length s =? 44)%nat) && forallb is_base58 s.
Proof.
  unfold test_whole, base58Regex. cbn [run]. rewrite run_times_cls.
  rewrite (forallb_split is_base58 43 s).
  pose proof (length_skipn 43 s) as Hlen.
  destruct (Nat.leb_spec 43 (List.length s)) as [Hle|Hlt]; cbn [andb].
  2: { destruct (Nat.eqb_spec (List.length s) 43); [lia|].
       destruct (Nat.eqb_spec (List.length s) 44); [lia|]. reflexivity. }
  destruct (forallb is_base58 (firstn 43 s)); cbn [andb].
  2: { rewrite andb_false_r. reflexivity. }
  destruct (skipn 43 s) as [|x [|y rest]]; cbn [List.length] in Hlen;
    cbn [run forallb].
  - destruct (Nat.eqb_spec (List.length s) 43); [reflexivity|lia].
  - destruct (Nat.eqb_spec (List.length s) 43); [lia|].
    destruct (Nat.eqb_spec (List.length s) 44); [|lia].
    destruct (is_base58 x); reflexivity.
  - destruct (Nat.eqb_spec (List.length s) 43); [lia|].
    destruct (Nat.eqb_spec (List.length s) 44); [lia|].
    destruct (is_base58 x); reflexivity.
Qed.

End KeyFacts.

(** X23: which program ids survive the constructor.  [isValidPublicKey]
    accepts a value exactly when it is a string of 43 or 44 characters, all
    of the base-58 alphabet, that [new PublicKey] takes; any other
    configured program id leaves [this.programId] null, and with it every
    blockchain reference. *)
Theorem program_id_needs_a_base58_key (PublicKey : jsstring -> bool) (key : jsval) :
  (BlockchainLogger.isValidPublicKey PublicKey key = true <->
   exists s,
     key = VStr s /\ (List.length s = 43 \/ List.length s = 44)%nat /\
     forallb BlockchainLogger.is_base58 s = true /\ PublicKey s = true) /\
  BlockchainLogger.constructed_programId PublicKey key
  = BlockchainLogger.isValidPublicKey PublicKey key.
Proof.
  split.
  - split.
    + intros H. destruct key as [| | | |s| |]; try discriminate H.
      destruct s as [|c s]; [discriminate H|].
      cbn [BlockchainLogger.isValidPublicKey] in H.
      rewrite KeyFacts.test_base58 in H.
      apply andb_true_iff in H. destruct H as [H Hpk].
      apply andb_true_iff in H. destruct H as [Hlen Hall].
      exists (c :: s). split; [reflexivity|]. split; [|split; assumption].
      apply orb_true_iff in Hlen. destruct Hlen as [Hlen|Hlen];
        apply Nat.eqb_eq in Hlen; [left|right]; exact Hlen.
    + intros (s & -> & Hlen & Hall & Hpk).
      destruct s as [|c s]; [cbn in Hlen; destruct Hlen; discriminate|].
      cbn [BlockchainLogger.isValidPublicKey].
      rewrite KeyFacts.test_base58, Hall, Hpk, !andb_true_r.
      apply orb_true_iff. destruct Hlen as [Hlen|Hlen]; [left|right];
        apply Nat.eqb_eq; exact Hlen.
  - unfold BlockchainLogger.constructed_programId.
    destruct key as [| | | |s| |]; try reflexivity;
      cbn [truthy BlockchainLogger.isValidPublicKey]; try apply andb_false_r.
    destruct s; reflexivity.
Qed.

(** ** The Jest report of the unit agent *)

Module JestFacts.

Import Eff.













End JestFacts.


